(** * Rastro Legal: the IA module of [Rastro_app.py]

    A shallow embedding of the [IAInvestigation] helper object and of the
    Flask routes built on it, with the properties of the identity cache,
    of face recognition, of the social-connection ranking and of the
    request handlers.

    Conventions of the embedding.
    - Python exceptions are explicit: a computation returns a value or
      raises; a state change made before the exception is kept.
    - A Python [dict] is an association list in insertion order with unique
      keys (assigning to a present key keeps its position).
    - The file system is a finite map from path strings to file contents;
      paths are the strings [os.path.join] builds, and two different
      strings name two different files. [PosixPath.normpath] tells which
      file a path with [..] components resolves to.
    - The file system has no directories: a write succeeds at every path,
      where the write of the program raises when the directory part of the
      path is missing. What is stated of a write that has to succeed is
      stated for plain names, which name files directly in the two folders
      the module creates when it is loaded.
    - [face_recognition], [numpy], [PIL] and the transformer pipelines are
      not code of the repository: they are the fields of the classes
      [FaceLibrary] and [NLPModels].
    - A finite float64 is the rational number it denotes; comparisons of
      floats are exact, float subtraction and rounding are operations of
      the library class. *)

From Stdlib Require Import QArith ZArith List Ascii String Sorted Permutation.
From stdpp Require Import base option list strings gmap sorting.

Local Open Scope string_scope.
Local Open Scope list_scope.
Set Warnings "-register-all".

(** ** Python values *)

Module Py.

(** An exception: its class name and [str(e)]. *)
Record exn : Type := Exn { exn_class : string; exn_str : string }.

Inductive result (A : Type) : Type :=
| Returns (a : A)
| Raises (e : exn).
Arguments Returns {A} a.
Arguments Raises {A} e.

Definition result_bind {A B : Type} (f : A -> result B) (r : result A) : result B :=
  match r with
  | Returns a => f a
  | Raises e => Raises e
  end.

#[global] Instance result_mret : MRet result := fun A a => Returns a.
#[global] Instance result_mbind : MBind result := fun A B f r => result_bind f r.

(** [try: r  except Exception as e: h e] *)
Definition try_except {A : Type} (r : result A) (h : exn -> A) : A :=
  match r with
  | Returns a => a
  | Raises e => h e
  end.

Definition ValueError (msg : string) : exn := Exn "ValueError" msg.
Definition IndexError (msg : string) : exn := Exn "IndexError" msg.
Definition AttributeError (msg : string) : exn := Exn "AttributeError" msg.
Definition FileNotFoundError (msg : string) : exn := Exn "FileNotFoundError" msg.

(** [l[i]] *)
Definition getitem {A : Type} (l : list A) (i : nat) : result A :=
  match l !! i with
  | Some a => Returns a
  | None => Raises (IndexError "list index out of range")
  end.

(** *** Dictionaries *)

Definition dict (V : Type) : Type := list (string * V).

Definition keys {V : Type} (d : dict V) : list string := map fst d.
Definition values {V : Type} (d : dict V) : list V := map snd d.

Fixpoint get {V : Type} (k : string) (d : dict V) : option V :=
  match d with
  | [] => None
  | (k', v) :: d' => if decide (k = k') then Some v else get k d'
  end.

(** [k in d] *)
Definition mem {V : Type} (k : string) (d : dict V) : bool :=
  match get k d with Some _ => true | None => false end.

(** [d.get(k, default)] *)
Definition get_default {V : Type} (k : string) (default : V) (d : dict V) : V :=
  match get k d with Some v => v | None => default end.

(** [d[k] = v] *)
Fixpoint set {V : Type} (k : string) (v : V) (d : dict V) : dict V :=
  match d with
  | [] => [(k, v)]
  | (k', v') :: d' =>
      if decide (k = k') then (k', v) :: d' else (k', v') :: set k v d'
  end.

(** [d[k] = f(d[k])] for a key that is present; nothing for an absent key *)
Fixpoint alter {V : Type} (f : V -> V) (k : string) (d : dict V) : dict V :=
  match d with
  | [] => []
  | (k', v') :: d' =>
      if decide (k = k') then (k', f v') :: d' else (k', v') :: alter f k d'
  end.

(** *** JSON values, as [request.json] and [jsonify] exchange them *)

Inductive json : Type :=
| JNull
| JBool (b : bool)
| JNum (q : Q)
| JStr (s : string)
| JList (l : list json)
| JDict (kv : list (string * json)).

(** Truth value of a Python object: [None], [False], zero and the empty
    string, list and dict are false. *)
Definition truthy (v : json) : bool :=
  match v with
  | JNull => false
  | JBool b => b
  | JNum q => negb (Qeq_bool q 0)
  | JStr s => negb (String.eqb s "")
  | JList l => match l with [] => false | _ => true end
  | JDict kv => match kv with [] => false | _ => true end
  end.

(** [data.get(key, default)]: only a dict has the method. The message
    names every number as a float; for an integer Python says ['int']. *)
Definition json_get (data : json) (key : string) (default : json) : result json :=
  match data with
  | JDict kv => Returns (get_default key default kv)
  | JNull => Raises (AttributeError "'NoneType' object has no attribute 'get'")
  | JBool _ => Raises (AttributeError "'bool' object has no attribute 'get'")
  | JNum _ => Raises (AttributeError "'float' object has no attribute 'get'")
  | JStr _ => Raises (AttributeError "'str' object has no attribute 'get'")
  | JList _ => Raises (AttributeError "'list' object has no attribute 'get'")
  end.

(** *** Paths and file names *)

Definition bytes : Type := list Byte.byte.

Definition starts_with_sep (p : string) : bool :=
  match p with
  | String c _ => Ascii.eqb c "/"
  | EmptyString => false
  end.

Fixpoint ends_with_sep (p : string) : bool :=
  match p with
  | EmptyString => false
  | String c EmptyString => Ascii.eqb c "/"
  | String _ p' => ends_with_sep p'
  end.

(** [os.path.join(a, b)] of posixpath *)
Definition os_path_join (a b : string) : string :=
  if starts_with_sep b then b
  else if String.eqb a "" || ends_with_sep a then a +:+ b
  else a +:+ "/" +:+ b.

Definition lower_char (c : ascii) : ascii :=
  let n := nat_of_ascii c in
  if (65 <=? n)%nat && (n <=? 90)%nat then ascii_of_nat (n + 32) else c.

(** [s.lower()] on an ASCII string *)
Fixpoint lower (s : string) : string :=
  match s with
  | EmptyString => EmptyString
  | String c s' => String (lower_char c) (lower s')
  end.

(** [s.endswith(suffix)] *)
Definition endswith (s suffix : string) : bool :=
  let n := String.length s in
  let m := String.length suffix in
  (m <=? n)%nat && String.eqb (substring (n - m) m s) suffix.

(** [s.rfind(c)], with -1 when [c] does not occur *)
Fixpoint rfind_from (i : Z) (c : ascii) (s : string) : Z :=
  match s with
  | EmptyString => (-1)%Z
  | String c' s' =>
      let r := rfind_from (i + 1)%Z c s' in
      if (0 <=? r)%Z then r else if Ascii.eqb c c' then i else (-1)%Z
  end.
Definition rfind (c : ascii) (s : string) : Z := rfind_from 0%Z c s.

(** The loop of [genericpath._splitext] that skips leading dots: is there
    a character other than the dot in [p[lo:hi]]? *)
Definition has_non_dot (p : string) (lo hi : Z) : bool :=
  existsb (fun c => negb (Ascii.eqb c "."))
          (list_ascii_of_string (substring (Z.to_nat lo) (Z.to_nat (hi - lo)) p)).

(** [os.path.splitext(p)[0]] *)
Definition splitext_root (p : string) : string :=
  let sepIndex := rfind "/" p in
  let dotIndex := rfind "." p in
  if (sepIndex <? dotIndex)%Z && has_non_dot p (sepIndex + 1)%Z dotIndex
  then substring 0 (Z.to_nat dotIndex) p
  else p.

End Py.

(** ** The external libraries *)

(** [face_recognition] with the [numpy] and [PIL] operations the module
    applies to its values. An operation that can raise returns a
    [Py.result]. *)
Class FaceLibrary : Type := {
  (** a decoded image (a numpy array of pixels) *)
  image : Type;
  (** a 128-dimensional face embedding *)
  encoding : Type;
  (** [face_recognition.load_image_file] on the contents of a file *)
  decode_image : Py.bytes -> Py.result image;
  (** [face_recognition.face_locations(image)]: one (top, right, bottom,
      left) box per detected face *)
  face_locations : image -> list (Z * Z * Z * Z);
  (** the embedding of the face in one box *)
  face_encoding : image -> Z * Z * Z * Z -> encoding;
  (** [numpy.linalg.norm(a - b)], the distance of two embeddings *)
  encoding_distance : encoding -> encoding -> Q;
  (** float64 subtraction *)
  float_sub : Q -> Q -> Q;
  (** [round(x, 2)] *)
  round2 : Q -> Q;
  (** [round(0.0, 2)] is [0.0] *)
  round2_zero : round2 0 = 0%Q;
  (** [Image.open(path).save(output_path)] on the contents of the file at
      [path]: the bytes written to a [.jpg] output path *)
  pil_save_jpeg : Py.bytes -> Py.result Py.bytes
}.

(** One span of the NER pipeline's output: the entry as the pipeline
    returns it, with its ['word'] and ['entity_group']. *)
Record entity : Type := Entity {
  entity_json : Py.json;
  word : string;
  entity_group : string
}.

(** The transformer pipelines of the module level. The loading block sets
    all of them to [None] when one of them fails to load. *)
Class NLPModels : Type := {
  nlp_ner : option (Py.json -> Py.result (list entity));
  sentiment_analyzer : option (Py.json -> Py.result (list Py.json))
}.

(** ** Module-level configuration *)

Definition UPLOAD_FOLDER : string := "uploads".
Definition KNOWN_FACES_FOLDER : string := "known_faces".

(** The default [tolerance=0.6] of [face_recognition.compare_faces]: the
    float64 nearest to 0.6. *)
Definition tolerance : Q := 5404319552844595 # 9007199254740992.

Section IA.

Context {lib : FaceLibrary} {nlp : NLPModels}.

(** ** Program state

    [known_faces] is the attribute of the one [IAInvestigation] instance,
    [fs] the file system. [after_request_funcs] holds the closures that
    [after_this_request] registered for the request being handled: the
    only such closure is [remove_file], kept as the [file_path] it
    captured. [analyzed] is a ghost log: the arguments of the calls of
    [IAInvestigation.analyze_text], most recent first. *)
Record world : Type := World {
  known_faces : Py.dict encoding;
  fs : gmap string Py.bytes;
  after_request_funcs : list string;
  analyzed : list Py.json
}.

Definition set_known_faces (kf : Py.dict encoding) (w : world) : world :=
  World kf (fs w) (after_request_funcs w) (analyzed w).
Definition set_fs (f : gmap string Py.bytes) (w : world) : world :=
  World (known_faces w) f (after_request_funcs w) (analyzed w).
Definition set_after_request_funcs (l : list string) (w : world) : world :=
  World (known_faces w) (fs w) l (analyzed w).
Definition log_analyzed (text : Py.json) (w : world) : world :=
  World (known_faces w) (fs w) (after_request_funcs w) (text :: analyzed w).

(** A statement sequence: it returns or raises, and leaves a state in
    both cases. *)
Definition py (A : Type) : Type := world -> Py.result A * world.

Definition py_ret {A : Type} (a : A) : py A := fun w => (Py.Returns a, w).

Definition py_bind {A B : Type} (f : A -> py B) (m : py A) : py B :=
  fun w =>
    match m w with
    | (Py.Returns a, w') => f a w'
    | (Py.Raises e, w') => (Py.Raises e, w')
    end.

#[global] Instance py_mret : MRet py := fun A a => py_ret a.
#[global] Instance py_mbind : MBind py := fun A B f m => py_bind f m.

(** a pure computation that may raise *)
Definition lift {A : Type} (r : Py.result A) : py A := fun w => (r, w).

(** reading and updating the state *)
Definition gets {A : Type} (f : world -> A) : py A := fun w => (Py.Returns (f w), w).
Definition modify (f : world -> world) : py unit := fun w => (Py.Returns tt, f w).

(** [try: m  except Exception as e: h e] *)
Definition try_py {A : Type} (m : py A) (h : Py.exn -> py A) : py A :=
  fun w =>
    match m w with
    | (Py.Returns a, w') => (Py.Returns a, w')
    | (Py.Raises e, w') => h e w'
    end.

(** reading the file at [path], as the image loaders do *)
Definition read_file (path : string) : py Py.bytes :=
  fun w =>
    match fs w !! path with
    | Some b => (Py.Returns b, w)
    | None => (Py.Raises (Py.FileNotFoundError path), w)
    end.

Definition write_file (path : string) (b : Py.bytes) : py unit :=
  modify (fun w => set_fs (<[path := b]> (fs w)) w).

(** [os.remove(path)] *)
Definition os_remove (path : string) : py unit :=
  fun w =>
    match fs w !! path with
    | Some _ => (Py.Returns tt, set_fs (delete path (fs w)) w)
    | None => (Py.Raises (Py.FileNotFoundError path), w)
    end.

(** [face_recognition.load_image_file(path)] *)
Definition load_image_file (path : string) : py image :=
  b ← read_file path; lift (decode_image b).

(** [face_recognition.face_encodings(image, known_face_locations)] *)
Definition face_encodings_at (img : image) (locs : list (Z * Z * Z * Z)) : list encoding :=
  map (face_encoding img) locs.

(** [face_recognition.face_encodings(image)] *)
Definition face_encodings (img : image) : list encoding :=
  face_encodings_at img (face_locations img).

(** [face_recognition.face_distance(known, face)] *)
Definition face_distance (known : list encoding) (face : encoding) : list Q :=
  map (fun k => encoding_distance k face) known.

(** [face_recognition.compare_faces(known, face)] *)
Definition compare_faces (known : list encoding) (face : encoding) : list bool :=
  map (fun d => Qle_bool d tolerance) (face_distance known face).

(** [numpy.argmin]: the first index of the least value; an empty
    sequence raises. The distances are finite numbers. *)
Fixpoint argmin_from (best_i : nat) (best : Q) (i : nat) (l : list Q) : nat :=
  match l with
  | [] => best_i
  | d :: l' =>
      if Qle_bool best d then argmin_from best_i best (S i) l'
      else argmin_from i d (S i) l'
  end.

Definition np_argmin (l : list Q) : Py.result nat :=
  match l with
  | [] => Py.Raises (Py.ValueError "attempt to get argmin of an empty sequence")
  | d :: l' => Py.Returns (argmin_from 0 d 1 l')
  end.

(** ** IAInvestigation *)

(** [filename.lower().endswith(('.png', '.jpg', '.jpeg'))] *)
Definition is_image_name (filename : string) : bool :=
  let l := Py.lower filename in
  Py.endswith l ".png" || Py.endswith l ".jpg" || Py.endswith l ".jpeg".

(** The name of the entry [p] of the directory [dir], when [p] is a file
    directly in it. *)
Definition entry_name (dir p : string) : option string :=
  let pre := dir +:+ "/" in
  if String.prefix pre p then
    let n := substring (String.length pre) (String.length p - String.length pre) p in
    if (0 <=? Py.rfind "/" n)%Z then None else Some n
  else None.

(** [os.listdir(dir)]; the order of the entries is the one of the map,
    and the entries are files: the model has no sub-directories. *)
Definition os_listdir (dir : string) : py (list string) :=
  gets (fun w => omap (entry_name dir) (map fst (map_to_list (fs w)))).

(** The body of the loop of [load_known_faces], over the entries that
    remain. *)
Fixpoint load_known_faces_from (filenames : list string)
    (known : Py.dict encoding) : py (Py.dict encoding) :=
  match filenames with
  | [] => mret known
  | filename :: rest =>
      if is_image_name filename then
        let path := Py.os_path_join KNOWN_FACES_FOLDER filename in
        image ← load_image_file path;
        match face_encodings image with
        | e0 :: _ =>
            let person_id := Py.splitext_root filename in
            load_known_faces_from rest (Py.set person_id e0 known)
        | [] => load_known_faces_from rest known
        end
      else load_known_faces_from rest known
  end.

Definition load_known_faces : py (Py.dict encoding) :=
  filenames ← os_listdir KNOWN_FACES_FOLDER;
  load_known_faces_from filenames [].

(** [IAInvestigation.__init__] *)
Definition IAInvestigation_init : py unit :=
  kf ← load_known_faces;
  modify (set_known_faces kf).

(** [self.known_faces[person_id] = e] *)
Definition known_faces_setitem (person_id : string) (e : encoding) : py unit :=
  modify (fun w => set_known_faces (Py.set person_id e (known_faces w)) w).

(** [Image.open(image_path).save(output_path)]. Here a save that raises
    leaves the files as they were; PIL has opened the output file for
    writing by then, so what the program leaves at [output_path] after a
    failed save is not fixed by this definition. *)
Definition image_open_save (image_path output_path : string) : py unit :=
  b ← read_file image_path;
  j ← lift (pil_save_jpeg b);
  write_file output_path j.

(** [os.path.join(KNOWN_FACES_FOLDER, f"{person_id}.jpg")] *)
Definition output_path (person_id : string) : string :=
  Py.os_path_join KNOWN_FACES_FOLDER (person_id +:+ ".jpg").

Definition add_known_face (image_path person_id : string) : py bool :=
  try_py
    (image ← load_image_file image_path;
     match face_encodings image with
     | e0 :: _ =>
         _ ← known_faces_setitem person_id e0;
         _ ← image_open_save image_path (output_path person_id);
         mret true
     | [] => mret false
     end)
    (fun _ => mret false).

(** One entry of the list [recognize_faces] returns. *)
Record recognition : Type := Recognition {
  location : Z * Z * Z * Z;
  name : string;
  confidence : Q
}.

(** The body of the loop of [recognize_faces] over the encodings that
    remain, [i] being the index [enumerate] gives the next one. *)
Fixpoint recognize_loop (known : Py.dict encoding)
    (locations : list (Z * Z * Z * Z)) (i : nat) (encodings : list encoding)
    (recognized : list recognition) : Py.result (list recognition) :=
  match encodings with
  | [] => Py.Returns recognized
  | face :: rest =>
      let matches := compare_faces (Py.values known) face in
      let face_distances := face_distance (Py.values known) face in
      best_match_index ← np_argmin face_distances;
      is_match ← Py.getitem matches best_match_index;
      '(name, confidence) ←
        (if is_match : bool then
           name ← Py.getitem (Py.keys known) best_match_index;
           d ← Py.getitem face_distances best_match_index;
           Py.Returns (name, float_sub 1 d)
         else Py.Returns ("Desconhecido", 0%Q));
      loc ← Py.getitem locations i;
      recognize_loop known locations (S i) rest
        (recognized ++ [Recognition loc name (round2 confidence)])
  end.

Definition recognize_faces (image_path : string) : py (list recognition) :=
  try_py
    (unknown_image ← load_image_file image_path;
     let locations := face_locations unknown_image in
     let encodings := face_encodings_at unknown_image locations in
     known ← gets known_faces;
     lift (recognize_loop known locations 0 encodings []))
    (fun _ => mret []).

(** What one entry of the result says about one detected face: it names
    the identity at the least distance when that distance is within the
    tolerance, with the confidence computed from it, and it is unknown
    with confidence 0 otherwise. *)
Definition best_match (known : Py.dict encoding) (face : encoding)
    (r : recognition) : Prop :=
  exists j key e,
    known !! j = Some (key, e) /\
    (forall key' e', (key', e') ∈ known ->
       (encoding_distance e face <= encoding_distance e' face)%Q) /\
    if Qle_bool (encoding_distance e face) tolerance
    then name r = key /\
         confidence r = round2 (float_sub 1 (encoding_distance e face))
    else name r = "Desconhecido" /\ confidence r = 0%Q.

(** [list(set(l))], in the order of the first occurrences (Python leaves
    the order open). *)
Definition list_set (l : list string) : list string := remove_dups l.

Definition words_of_group (g : string) (entities : list entity) : list string :=
  map word (filter (fun e => entity_group e = g) entities).

Definition json_strs (l : list string) : Py.json := Py.JList (map Py.JStr l).

Definition analyze_text (text : Py.json) : py Py.json :=
  _ ← modify (log_analyzed text);
  match nlp_ner with
  | None => mret (Py.JDict [("error", Py.JStr "Modelo NLP não disponível")])
  | Some ner =>
      mret (Py.try_except
              (entities ← ner text;
               sentiment ←
                 match sentiment_analyzer with
                 | Some sa => l ← sa text; Py.getitem l 0
                 | None => Py.Returns Py.JNull
                 end;
               let people := words_of_group "PER" entities in
               let locations := words_of_group "LOC" entities in
               let organizations := words_of_group "ORG" entities in
               let dates := words_of_group "DATE" entities in
               Py.Returns
                 (Py.JDict
                    [("entities", Py.JList (map entity_json entities));
                     ("sentiment", sentiment);
                     ("people", json_strs (list_set people));
                     ("locations", json_strs (list_set locations));
                     ("organizations", json_strs (list_set organizations));
                     ("dates", json_strs (list_set dates))]))
              (fun e => Py.JDict [("error", Py.JStr (Py.exn_str e))]))
  end.

End IA.

(** ** IAInvestigation.analyze_social_connections

    The method reads no attribute of the object. Its input is the JSON
    object [social_data]: platform name to platform data, the
    ['connections'] of a platform being a list of objects with string
    fields. On an input of this shape no operation of the method raises;
    [SocialJson] below runs the method on any JSON value, with the
    handler of its exceptions. *)

Module Social.

Definition connection : Type := Py.dict string.
Definition platform_data : Type := Py.dict (list connection).
Definition social_data : Type := Py.dict platform_data.

(** The value stored per name. The two Python sets are lists without
    duplicates. *)
Record conn_info : Type := ConnInfo {
  relations : list string;
  platforms : list string;
  occurrences : nat
}.

(** [s.add(x)] *)
Definition set_add (x : string) (s : list string) : list string :=
  if decide (x ∈ s) then s else s ++ [x].

(** The body of the inner loop, for one [connection] of [platform]. *)
Definition visit (platform : string) (connections : Py.dict conn_info)
    (c : connection) : Py.dict conn_info :=
  let name := Py.get_default "name" "" c in
  let relation := Py.get_default "relation" "" c in
  let connections :=
    if Py.mem name connections then connections
    else Py.set name (ConnInfo [] [] 0) connections in
  Py.alter
    (fun i => ConnInfo (set_add relation (relations i))
                       (set_add platform (platforms i))
                       (occurrences i + 1))
    name connections.

(** The body of the outer loop, for one item of [social_data.items()]. *)
Definition visit_platform (connections : Py.dict conn_info)
    (item : string * platform_data) : Py.dict conn_info :=
  match Py.get "connections" (snd item) with
  | Some cs => fold_left (visit (fst item)) cs connections
  | None => connections
  end.

Definition collect (data : social_data) : Py.dict conn_info :=
  fold_left visit_platform data [].

(** [sorted(items, key=lambda x: x[1]['occurrences'], reverse=True)]: a
    stable sort, so entries of equal count keep their order. *)
Fixpoint insert_desc (x : string * conn_info) (l : list (string * conn_info))
    : list (string * conn_info) :=
  match l with
  | [] => [x]
  | y :: l' =>
      if (occurrences (snd x) <? occurrences (snd y))%nat
      then y :: insert_desc x l'
      else x :: y :: l'
  end.

Definition sorted_desc (l : list (string * conn_info)) : list (string * conn_info) :=
  fold_right insert_desc [] l.

Record analysis : Type := Analysis {
  all_connections : Py.dict conn_info;
  top_connections : list (string * conn_info)
}.

Definition analyze_social_connections (data : social_data) : analysis :=
  let connections := collect data in
  let sorted_connections := sorted_desc connections in
  Analysis connections (take 5 sorted_connections).

(** The number of connection entries of one platform that bear [name]. *)
Definition count_in_platform (name : string) (item : string * platform_data) : nat :=
  match Py.get "connections" (snd item) with
  | Some cs =>
      length (filter (fun c : connection => Py.get_default "name" "" c = name) cs)
  | None => 0
  end.

(** The same, summed over the platforms of the input. *)
Definition count_name (name : string) (data : social_data) : nat :=
  list_sum (map (count_in_platform name) data).

(** *** Notions the properties of the ranking are stated with *)

Definition name_of (c : connection) : string := Py.get_default "name" "" c.

(** The count stored for [name], 0 for a name that has no entry. *)
Definition occ (name : string) (connections : Py.dict conn_info) : nat :=
  match Py.get name connections with
  | Some i => occurrences i
  | None => 0
  end.

Definition bears (name : string) (c : connection) : nat :=
  if decide (name_of c = name) then 1 else 0.

(** A name has an entry exactly when its count is positive. *)
Definition counted (connections : Py.dict conn_info) : Prop :=
  forall name, name ∈ Py.keys connections <-> 0 < occ name connections.

(** The order of the sorted list: [x] may stand before [y]. *)
Definition at_least (x y : string * conn_info) : Prop :=
  occurrences (snd y) <= occurrences (snd x).

End Social.

(** ** The routes *)

(** An uploaded file of [request.files]. *)
Record file_storage : Type := FileStorage {
  filename : string;
  content : Py.bytes
}.

(** A request: the uploaded files, the form fields and [request.json].
    For a request without a JSON body [request.json] is [None] (Flask
    before 2.1; later versions raise from the property itself, which
    leaves the view by an exception as well). *)
Record request : Type := Request {
  files : Py.dict file_storage;
  form : Py.dict string;
  json_body : Py.json
}.

Record response : Type := Response {
  body : Py.json;
  status_code : nat
}.

Definition jsonify (kv : list (string * Py.json)) : response :=
  Response (Py.JDict kv) 200.

(** [return r, code] *)
Definition with_status (r : response) (code : nat) : response :=
  Response (body r) code.

Definition error_envelope (message : string) : response :=
  jsonify [("status", Py.JStr "error"); ("message", Py.JStr message)].

Definition success_message (message : string) : response :=
  jsonify [("status", Py.JStr "success"); ("message", Py.JStr message)].

Definition success_results (results : Py.json) : response :=
  jsonify [("status", Py.JStr "success"); ("results", results)].

(** The envelope of the routes: a JSON object with a status and a payload
    or a message. *)
Definition is_envelope (r : response) : bool :=
  match body r with
  | Py.JDict kv =>
      match Py.get "status" kv with
      | Some (Py.JStr st) =>
          (String.eqb st "success" || String.eqb st "error")
          && (Py.mem "results" kv || Py.mem "message" kv)
      | _ => false
      end
  | _ => false
  end.

Section Routes.

Context {lib : FaceLibrary} {nlp : NLPModels}.

Definition json_of_box (b : Z * Z * Z * Z) : Py.json :=
  let '(top, right_, bottom, left_) := b in
  Py.JList [Py.JNum (inject_Z top); Py.JNum (inject_Z right_);
            Py.JNum (inject_Z bottom); Py.JNum (inject_Z left_)].

Definition json_of_recognition (r : recognition) : Py.json :=
  Py.JDict [("location", json_of_box (location r));
            ("name", Py.JStr (name r));
            ("confidence", Py.JNum (confidence r))].

(** [after_this_request(remove_file)], with the [file_path] the closure
    holds *)
Definition after_this_request (file_path : string) : py unit :=
  modify (fun w => set_after_request_funcs (after_request_funcs w ++ [file_path]) w).

(** The closure [remove_file] of [ia_recognize_faces]. *)
Definition remove_file (file_path : string) (resp : response) : py response :=
  _ ← try_py (os_remove file_path) (fun _ => mret tt);
  mret resp.

Definition ia_recognize_faces (req : request) : py response :=
  match Py.get "file" (files req) with
  | None => mret (error_envelope "Nenhum arquivo enviado")
  | Some file =>
      if String.eqb (filename file) "" then
        mret (error_envelope "Nome de arquivo vazio")
      else
        let file_path := Py.os_path_join UPLOAD_FOLDER (filename file) in
        _ ← write_file file_path (content file);
        recognized_faces ← recognize_faces file_path;
        _ ← after_this_request file_path;
        mret (success_results (Py.JList (map json_of_recognition recognized_faces)))
  end.

Definition ia_add_known_face (req : request) : py response :=
  match Py.get "file" (files req) with
  | None => mret (error_envelope "Nenhum arquivo enviado")
  | Some file =>
      let person_id := Py.get_default "person_id" "" (form req) in
      if String.eqb person_id "" then
        mret (error_envelope "ID da pessoa não fornecido")
      else if String.eqb (filename file) "" then
        mret (error_envelope "Nome de arquivo vazio")
      else
        let file_path := Py.os_path_join UPLOAD_FOLDER (filename file) in
        _ ← write_file file_path (content file);
        success ← add_known_face file_path person_id;
        _ ← try_py (os_remove file_path) (fun _ => mret tt);
        if success : bool then mret (success_message "Rosto adicionado com sucesso")
        else mret (error_envelope "Não foi possível adicionar o rosto")
  end.

Definition ia_analyze_text (req : request) : py response :=
  let data := json_body req in
  text ← lift (Py.json_get data "text" (Py.JStr ""));
  if negb (Py.truthy text) then
    mret (with_status (error_envelope "Texto vazio") 400)
  else
    analysis ← analyze_text text;
    mret (success_results analysis).

(** The functions registered by [after_this_request], applied in order to
    the response of the view. *)
Fixpoint run_after_request (funcs : list string) (resp : response) : py response :=
  match funcs with
  | [] => mret resp
  | file_path :: rest =>
      resp' ← remove_file file_path resp;
      run_after_request rest resp'
  end.

(** Flask's handling of one request by a view. An exception of the view
    is not handled by the application: it propagates (the server runs
    with [debug=True]). *)
Definition full_dispatch_request (view : request -> py response)
    (req : request) : py response :=
  _ ← modify (set_after_request_funcs []);
  resp ← view req;
  funcs ← gets after_request_funcs;
  _ ← modify (set_after_request_funcs []);
  run_after_request funcs resp.

(** The state after the module has been loaded on the file system
    [files0]: [ia_system = IAInvestigation()]. *)
Definition startup (files0 : gmap string Py.bytes) : Py.result world :=
  match IAInvestigation_init (World [] files0 [] []) with
  | (Py.Returns _, w) => Py.Returns w
  | (Py.Raises e, _) => Py.Raises e
  end.

(** The states the server goes through: after the start, a state changes
    by the handling of a request by one of the routes. *)
Inductive reachable : world -> Prop :=
| reach_startup files0 w :
    startup files0 = Py.Returns w -> reachable w
| reach_recognize_faces w req :
    reachable w -> reachable (snd (full_dispatch_request ia_recognize_faces req w))
| reach_add_known_face w req :
    reachable w -> reachable (snd (full_dispatch_request ia_add_known_face req w))
| reach_analyze_text w req :
    reachable w -> reachable (snd (full_dispatch_request ia_analyze_text req w)).

End Routes.

(** ** A small instance of the libraries, for concrete runs

    A file is a tag byte followed by one byte per face: tag 0 is not an
    image, tag 1 is an RGB image, any other tag is an image with a
    transparency channel, which PIL decodes but refuses to write as JPEG.
    The byte of a face is its embedding; faces lie side by side. *)

Module Demo.

Definition byte_value (b : Byte.byte) : Z := Z.of_N (Byte.to_N b).

Definition demo_decode (b : Py.bytes) : Py.result (list Z) :=
  match b with
  | [] => Py.Raises (Py.Exn "UnidentifiedImageError" "cannot identify image file")
  | tag :: faces =>
      if Byte.eqb tag Byte.x00
      then Py.Raises (Py.Exn "UnidentifiedImageError" "cannot identify image file")
      else Py.Returns (map byte_value faces)
  end.

Definition demo_locations (img : list Z) : list (Z * Z * Z * Z) :=
  map (fun i : nat => (0, Z.of_nat i + 1, 1, Z.of_nat i)%Z) (seq 0 (length img)).

Definition demo_encoding (img : list Z) (box : Z * Z * Z * Z) : Z :=
  nth (Z.to_nat (snd box)) img 0%Z.

Definition demo_distance (a b : Z) : Q := Z.abs (a - b) # 100.

Definition demo_save (b : Py.bytes) : Py.result Py.bytes :=
  match b with
  | [] => Py.Raises (Py.Exn "UnidentifiedImageError" "cannot identify image file")
  | tag :: _ =>
      if Byte.eqb tag Byte.x01 then Py.Returns b
      else Py.Raises (Py.Exn "OSError" "cannot write mode RGBA as JPEG")
  end.

Definition face_lib : FaceLibrary := {|
  image := list Z;
  encoding := Z;
  decode_image := demo_decode;
  face_locations := demo_locations;
  face_encoding := demo_encoding;
  encoding_distance := demo_distance;
  float_sub := fun a b => Qred (a - b);
  round2 := fun q => q;
  round2_zero := eq_refl;
  pil_save_jpeg := demo_save
|}.

Definition nlp_models : NLPModels := {|
  nlp_ner := Some (fun _ => Py.Returns []);
  sentiment_analyzer := Some (fun _ => Py.Returns [Py.JStr "3 stars"])
|}.

(** an RGB photo with one face of embedding 10, and one with embedding 40 *)
Definition photo_ana : Py.bytes := [Byte.x01; Byte.x0a].
Definition photo_bia : Py.bytes := [Byte.x01; Byte.x28].
(** a photo with two faces, of embeddings 12 and 200 *)
Definition photo_two : Py.bytes := [Byte.x01; Byte.x0c; Byte.xc8].
(** a photo without a face *)
Definition photo_empty : Py.bytes := [Byte.x01].
(** a PNG with transparency and one face of embedding 10 *)
Definition photo_rgba : Py.bytes := [Byte.x02; Byte.x0a].

Definition files_empty : gmap string Py.bytes := ∅.

Definition files_two : gmap string Py.bytes :=
  <["known_faces/ana.jpg" := photo_ana]> (<["known_faces/bia.PNG" := photo_bia]> ∅).

Definition world_empty : @world face_lib := @World face_lib [] ∅ [] [].

Definition world_two : @world face_lib :=
  @World face_lib [("ana", 10%Z); ("bia", 40%Z)] files_two [] [].

(** an empty cache and an uploaded photo with two faces *)
Definition world_query : @world face_lib :=
  @World face_lib [] (<["uploads/q.jpg" := photo_two]> ∅) [] [].

(** an empty cache and an uploaded photo with one face *)
Definition world_one_face : @world face_lib :=
  @World face_lib [] (<["uploads/q.jpg" := photo_ana]> ∅) [] [].

(** the state of [world_two] with one more file *)
Definition world_upload (name : string) (b : Py.bytes) : @world face_lib :=
  @World face_lib (known_faces world_two) (<[name := b]> (fs world_two)) [] [].

Definition upload (name : string) (b : Py.bytes) : request :=
  Request [("file", FileStorage name b)] [] Py.JNull.

Definition upload_as (name : string) (b : Py.bytes) (person_id : string) : request :=
  Request [("file", FileStorage name b)] [("person_id", person_id)] Py.JNull.

Definition social : Social.social_data :=
  [("twitter",
    [("connections",
      [[("name", "Rui"); ("relation", "friend")];
       [("name", "Lia"); ("relation", "cousin")]])]);
   ("facebook",
    [("connections",
      [[("name", "Lia"); ("relation", "cousin")];
       [("name", "Lia"); ("relation", "colleague")]])]);
   ("orkut", [("profile", [])])].

End Demo.

(** ** Question answering and hypothesis generation *)

(** The question-answering pipeline of the module level: called with a
    question and a context, it returns a dict. *)
Class QAModel : Type := {
  qa_pipeline : option (Py.json -> Py.json -> Py.result (Py.dict Py.json))
}.

(** [openai] and the pieces of the standard library the hypothesis
    generation applies: the environment variable read by [os.getenv],
    [json.dumps(evidence, indent=2)], [openai.Completion.create] with the
    fixed engine and sampling arguments (its result is the list of the
    texts of [response.choices]) and [str.strip]. *)
Class OpenAI : Type := {
  getenv_OPENAI_API_KEY : option string;
  json_dumps_indent2 : Py.json -> Py.result string;
  completion_create : string -> Py.result (list string);
  str_strip : string -> string
}.

(** [d[key]] on a dict *)
Definition dict_getitem (d : Py.dict Py.json) (key : string) : Py.result Py.json :=
  match Py.get key d with
  | Some v => Py.Returns v
  | None => Py.Raises (Py.Exn "KeyError" ("'" +:+ key +:+ "'"))
  end.

Section QA.

Context {lib : FaceLibrary} {qa : QAModel} {ai : OpenAI}.

Definition answer_question (context question : Py.json) : Py.json :=
  match qa_pipeline with
  | None => Py.JDict [("error", Py.JStr "Modelo Q&A não disponível")]
  | Some pipeline =>
      Py.try_except
        (result ← pipeline question context;
         answer ← dict_getitem result "answer";
         score ← dict_getitem result "score";
         start ← dict_getitem result "start";
         end_ ← dict_getitem result "end";
         Py.Returns
           (Py.JDict [("answer", answer); ("score", score);
                      ("start", start); ("end", end_)]))
        (fun e => Py.JDict [("error", Py.JStr (Py.exn_str e))])
  end.

(** [os.getenv('OPENAI_API_KEY', 'SUA_CHAVE_OPENAI')] *)
Definition OPENAI_API_KEY : string :=
  match getenv_OPENAI_API_KEY with
  | Some key => key
  | None => "SUA_CHAVE_OPENAI"
  end.

Definition newline : string := String (ascii_of_nat 10) EmptyString.

(** The f-string of [generate_investigation_hypotheses] around the dump of
    the evidence. *)
Definition prompt_of (evidence_json : string) : string :=
  newline +:+
  "            Com base nas seguintes evidências de investigação, gere hipóteses sobre o paradeiro e atividades do indivíduo investigado." +:+ newline +:+
  "            Forneça também sugestões para próximos passos na investigação." +:+ newline +:+
  newline +:+
  "            Evidências:" +:+ newline +:+
  "            " +:+ evidence_json +:+ newline +:+
  newline +:+
  "            Hipóteses e Recomendações:" +:+ newline +:+
  "            ".

Definition generate_investigation_hypotheses (evidence : Py.json) : Py.json :=
  if String.eqb OPENAI_API_KEY "" || String.eqb OPENAI_API_KEY "SUA_CHAVE_OPENAI" then
    Py.JDict [("error", Py.JStr "Chave da API OpenAI não configurada")]
  else
    Py.try_except
      (dump ← json_dumps_indent2 evidence;
       choices ← completion_create (prompt_of dump);
       text ← Py.getitem choices 0;
       Py.Returns (Py.JStr (str_strip text)))
      (fun e => Py.JDict [("error", Py.JStr (Py.exn_str e))]).

Definition ia_generate_hypotheses (req : request) : py response :=
  let data := json_body req in
  evidence ← lift (Py.json_get data "evidence" (Py.JDict []));
  if negb (Py.truthy evidence) then
    mret (with_status (error_envelope "Nenhuma evidência fornecida") 400)
  else
    mret (success_results (generate_investigation_hypotheses evidence)).

Definition ia_answer_question (req : request) : py response :=
  let data := json_body req in
  context ← lift (Py.json_get data "context" (Py.JStr ""));
  question ← lift (Py.json_get data "question" (Py.JStr ""));
  if negb (Py.truthy context) || negb (Py.truthy question) then
    mret (with_status (error_envelope "Contexto ou pergunta ausentes") 400)
  else
    mret (success_results (answer_question context question)).

End QA.

(** ** Notions the further properties are stated with *)

Section Notions.

Context {lib : FaceLibrary}.

(** [best_match], with the entry [numpy.argmin] chooses among several at
    the least distance: the one registered first. *)
Definition first_best_match (known : Py.dict encoding) (face : encoding)
    (r : recognition) : Prop :=
  exists j key e,
    known !! j = Some (key, e) /\
    (forall key' e', (key', e') ∈ known ->
       (encoding_distance e face <= encoding_distance e' face)%Q) /\
    (forall j' key' e', j' < j -> known !! j' = Some (key', e') ->
       (encoding_distance e face < encoding_distance e' face)%Q) /\
    if Qle_bool (encoding_distance e face) tolerance
    then name r = key /\
         confidence r = round2 (float_sub 1 (encoding_distance e face))
    else name r = "Desconhecido" /\ confidence r = 0%Q.

(** The file [filename] of the known-faces folder is one the folder scan
    indexes: an image name whose file decodes to an image with a face,
    [e0] being the embedding of its first face. *)
Definition indexed_as (files0 : gmap string Py.bytes) (filename : string)
    (e0 : encoding) : Prop :=
  is_image_name filename = true /\
  exists b img loc0 locs,
    files0 !! Py.os_path_join KNOWN_FACES_FOLDER filename = Some b /\
    decode_image b = Py.Returns img /\
    face_locations img = loc0 :: locs /\
    e0 = face_encoding img loc0.

(** An image file that gives nothing to work on: it is missing, it does
    not decode, or no face is detected in it. *)
Definition no_face_at (w : world) (image_path : string) : Prop :=
  fs w !! image_path = None \/
  (exists b e, fs w !! image_path = Some b /\ decode_image b = Py.Raises e) \/
  (exists b img, fs w !! image_path = Some b /\ decode_image b = Py.Returns img /\
                 face_locations img = []).

End Notions.

(** The list [l] holds, once each, the words of the entities of group [g]. *)
Definition words_set (g : string) (entities : list entity) (l : list string) : Prop :=
  NoDup l /\
  forall s, s ∈ l <-> exists e, e ∈ entities /\ entity_group e = g /\ word e = s.

(** An identifier that names a file of its own in a folder: no path
    separator, and a character other than the dot. *)
Definition plain_identifier (person_id : string) : bool :=
  (Py.rfind "/" person_id <? 0)%Z &&
  existsb (fun c => negb (Ascii.eqb c ".")) (list_ascii_of_string person_id).

Module SocialNotions.

Import Social.

(** The connection entries of the input, each with its platform, in the
    order the two loops visit them. *)
Definition entries (data : social_data) : list (string * connection) :=
  flat_map
    (fun item : string * platform_data =>
       match Py.get "connections" (snd item) with
       | Some cs => map (pair (fst item)) cs
       | None => []
       end)
    data.

Definition relation_of (c : connection) : string := Py.get_default "relation" "" c.

(** The platforms and the relations stored for [name]. *)
Definition platforms_of (name : string) (connections : Py.dict conn_info) : list string :=
  match Py.get name connections with
  | Some i => platforms i
  | None => []
  end.

Definition relations_of (name : string) (connections : Py.dict conn_info) : list string :=
  match Py.get name connections with
  | Some i => relations i
  | None => []
  end.

(** The sum of the counts of all names. *)
Definition total (connections : Py.dict conn_info) : nat :=
  list_sum (map (fun x : string * conn_info => occurrences (snd x)) connections).

(** The two loops are one loop over the entries. *)
Definition step (connections : Py.dict conn_info) (pc : string * connection)
    : Py.dict conn_info :=
  visit (fst pc) connections (snd pc).

End SocialNotions.

(** ** More instances for concrete runs *)

Module MoreDemo.

Import Demo.

(** the module level after a failed loading of the models *)
Definition nlp_unavailable : NLPModels := {|
  nlp_ner := None;
  sentiment_analyzer := None
|}.

(** a NER pipeline that finds a person twice and a place *)
Definition nlp_entities : NLPModels := {|
  nlp_ner :=
    Some (fun _ => Py.Returns [Entity (Py.JStr "e1") "Ana" "PER";
                               Entity (Py.JStr "e2") "Rio" "LOC";
                               Entity (Py.JStr "e3") "Ana" "PER"]);
  sentiment_analyzer := Some (fun _ => Py.Returns [Py.JStr "4 stars"])
|}.

Definition qa_unavailable : QAModel := {| qa_pipeline := None |}.

(** no API key in the environment *)
Definition openai_unset : OpenAI := {|
  getenv_OPENAI_API_KEY := None;
  json_dumps_indent2 := fun _ => Py.Returns "{}";
  completion_create := fun _ => Py.Returns ["ok"];
  str_strip := fun s => s
|}.

(** a known-faces folder with a file that is not an image *)
Definition files_unreadable : gmap string Py.bytes :=
  <["known_faces/ruim.png" := [Byte.x00]]> ∅.

(** the state of [world_two] with a file outside the folders *)
Definition world_target : @world face_lib :=
  @World face_lib (known_faces world_two)
         (<["/tmp/alvo.txt" := photo_empty]> (fs world_two)) [] [].

End MoreDemo.

(** ** Paths as the operating system resolves them *)

Module PosixPath.

(** [path.split('/')] *)
Fixpoint split_sep (path : string) : list string :=
  match path with
  | EmptyString => [EmptyString]
  | String c rest =>
      if Ascii.eqb c "/" then EmptyString :: split_sep rest
      else match split_sep rest with
           | comp :: comps => String c comp :: comps
           | [] => [String c EmptyString]
           end
  end.

(** The leading slashes [normpath] keeps: one, or two when the path
    starts with exactly two. *)
Definition initial_slashes (path : string) : nat :=
  if String.prefix "///" path then 1
  else if String.prefix "//" path then 2
  else if String.prefix "/" path then 1
  else 0.

(** The loop of [posixpath.normpath] over the components that remain,
    [new_comps] being held last component first. *)
Fixpoint norm_comps (initial : nat) (comps new_comps : list string) : list string :=
  match comps with
  | [] => rev new_comps
  | comp :: rest =>
      if String.eqb comp "" || String.eqb comp "." then
        norm_comps initial rest new_comps
      else if negb (String.eqb comp "..")
              || ((initial =? 0)%nat && match new_comps with [] => true | _ => false end)
              || match new_comps with last_ :: _ => String.eqb last_ ".." | [] => false end
      then norm_comps initial rest (comp :: new_comps)
      else match new_comps with
           | _ :: popped => norm_comps initial rest popped
           | [] => norm_comps initial rest []
           end
  end.

Fixpoint slashes (n : nat) : string :=
  match n with
  | O => EmptyString
  | S n' => String "/" (slashes n')
  end.

(** [os.path.normpath(path)] of posixpath: the path with its empty and
    [.] components dropped and each [..] resolved against the component
    before it. The operating system reaches the same file by both paths
    when the components are directories and none is a symbolic link. *)
Definition normpath (path : string) : string :=
  if String.eqb path "" then "."
  else
    let initial := initial_slashes path in
    let comps := norm_comps initial (split_sep path) [] in
    let p := slashes initial +:+ String.concat "/" comps in
    if String.eqb p "" then "." else p.

End PosixPath.

(** The path names a file of the uploads folder or of a folder below it. *)
Definition in_uploads_folder (p : string) : bool :=
  String.prefix (UPLOAD_FOLDER +:+ "/") (PosixPath.normpath p).

(** ** analyze_social_connections on any JSON value

    [Social] reads the method on the input it is written for. Here the
    method runs on an arbitrary JSON value, every operation raising as
    Python does when the value has not the type the operation needs, and
    the handler turning the exception into the error payload. A name or a
    relation can be any hashable value, so the keys of the result and the
    elements of its sets are JSON values, compared as Python compares
    them. *)

Module SocialJson.

Import Py.

Definition TypeError (msg : string) : exn := Exn "TypeError" msg.

(** [type(v).__name__]; a number is named as a float. *)
Definition type_name (v : json) : string :=
  match v with
  | JNull => "NoneType"
  | JBool _ => "bool"
  | JNum _ => "float"
  | JStr _ => "str"
  | JList _ => "list"
  | JDict _ => "dict"
  end.

(** [social_data.items()] *)
Definition items (v : json) : result (list (string * json)) :=
  match v with
  | JDict kv => Returns kv
  | _ => Raises (AttributeError ("'" +:+ type_name v +:+ "' object has no attribute 'items'"))
  end.

(** [key in s] for two strings *)
Definition is_substring (key s : string) : bool :=
  match String.index 0 key s with
  | Some _ => true
  | None => false
  end.

(** [key in data], [key] being a string: a key of a dict, an element of a
    list, a part of a string. *)
Definition contains (key : string) (data : json) : result bool :=
  match data with
  | JDict kv => Returns (mem key kv)
  | JList l =>
      Returns (existsb (fun x => match x with
                                 | JStr s => String.eqb s key
                                 | _ => false
                                 end) l)
  | JStr s => Returns (is_substring key s)
  | _ => Raises (TypeError ("argument of type '" +:+ type_name data +:+ "' is not iterable"))
  end.

(** [data[key]], [key] being a string (the messages are those of Python
    3.11 and later) *)
Definition subscript (data : json) (key : string) : result json :=
  match data with
  | JDict kv => dict_getitem kv key
  | JList _ => Raises (TypeError "list indices must be integers or slices, not str")
  | JStr _ => Raises (TypeError "string indices must be integers, not 'str'")
  | _ => Raises (TypeError ("'" +:+ type_name data +:+ "' object is not subscriptable"))
  end.

(** [for x in v]: the elements of a list, the keys of a dict, the
    characters of a string. *)
Definition iter (v : json) : result (list json) :=
  match v with
  | JList l => Returns l
  | JDict kv => Returns (map (fun x => JStr (fst x)) kv)
  | JStr s => Returns (map (fun c => JStr (String c EmptyString)) (list_ascii_of_string s))
  | _ => Raises (TypeError ("'" +:+ type_name v +:+ "' object is not iterable"))
  end.

(** [hash(v)]: a list and a dict have none. *)
Definition hash_check (v : json) : result unit :=
  match v with
  | JList _ | JDict _ => Raises (TypeError ("unhashable type: '" +:+ type_name v +:+ "'"))
  | _ => Returns tt
  end.

Definition number_of (v : json) : option Q :=
  match v with
  | JBool true => Some 1%Q
  | JBool false => Some 0%Q
  | JNum q => Some q
  | _ => None
  end.

(** [a == b] for two hashable values: booleans and numbers compare by
    their value. *)
Definition key_eqb (a b : json) : bool :=
  match a, b with
  | JNull, JNull => true
  | JStr s, JStr t => String.eqb s t
  | _, _ =>
      match number_of a, number_of b with
      | Some x, Some y => Qeq_bool x y
      | _, _ => false
      end
  end.

(** A dict whose keys are hashable JSON values. *)
Definition kdict (V : Type) : Type := list (json * V).

Fixpoint kget {V : Type} (k : json) (d : kdict V) : option V :=
  match d with
  | [] => None
  | (k', v) :: d' => if key_eqb k k' then Some v else kget k d'
  end.

Definition kmem {V : Type} (k : json) (d : kdict V) : bool :=
  match kget k d with Some _ => true | None => false end.

Fixpoint kset {V : Type} (k : json) (v : V) (d : kdict V) : kdict V :=
  match d with
  | [] => [(k, v)]
  | (k', v') :: d' =>
      if key_eqb k k' then (k', v) :: d' else (k', v') :: kset k v d'
  end.

Fixpoint kalter {V : Type} (f : V -> V) (k : json) (d : kdict V) : kdict V :=
  match d with
  | [] => []
  | (k', v') :: d' =>
      if key_eqb k k' then (k', f v') :: d' else (k', v') :: kalter f k d'
  end.

(** [s.add(x)] *)
Definition kset_add (x : json) (s : list json) : list json :=
  if existsb (key_eqb x) s then s else s ++ [x].

Record info : Type := Info {
  relations : list json;
  platforms : list string;
  occurrences : nat
}.

(** The body of the inner loop, for one [connection] of [platform]. *)
Definition visit (platform : string) (connections : kdict info)
    (connection : json) : result (kdict info) :=
  name ← json_get connection "name" (JStr "");
  relation ← json_get connection "relation" (JStr "");
  _ ← hash_check name;
  let connections :=
    if kmem name connections then connections
    else kset name (Info [] [] 0) connections in
  _ ← hash_check relation;
  Returns
    (kalter
       (fun i => Info (kset_add relation (relations i))
                      (Social.set_add platform (platforms i))
                      (occurrences i + 1))
       name connections).

Fixpoint visit_all (platform : string) (connections : kdict info)
    (l : list json) : result (kdict info) :=
  match l with
  | [] => Returns connections
  | connection :: rest =>
      connections' ← visit platform connections connection;
      visit_all platform connections' rest
  end.

(** The body of the outer loop, for one item of [social_data.items()]. *)
Definition visit_platform (connections : kdict info)
    (item : string * json) : result (kdict info) :=
  present ← contains "connections" (snd item);
  if present : bool then
    cs ← subscript (snd item) "connections";
    l ← iter cs;
    visit_all (fst item) connections l
  else Returns connections.

Fixpoint collect (connections : kdict info) (its : list (string * json))
    : result (kdict info) :=
  match its with
  | [] => Returns connections
  | item :: rest =>
      connections' ← visit_platform connections item;
      collect connections' rest
  end.

Fixpoint insert_desc (x : json * info) (l : list (json * info)) : list (json * info) :=
  match l with
  | [] => [x]
  | y :: l' =>
      if (occurrences (snd x) <? occurrences (snd y))%nat
      then y :: insert_desc x l'
      else x :: y :: l'
  end.

Definition sorted_desc (l : list (json * info)) : list (json * info) :=
  fold_right insert_desc [] l.

(** What the method returns: the dict of the two results, or the dict
    with the one key ['error']. *)
Inductive outcome : Type :=
| Analysed (all_connections : kdict info) (top_connections : list (json * info))
| Failed (error : string).

Definition analyze_social_connections (social_data : json) : outcome :=
  try_except
    (its ← items social_data;
     connections ← collect [] its;
     Returns (Analysed connections (take 5 (sorted_desc connections))))
    (fun e => Failed (exn_str e)).

(** *** The input the method is written for, as a JSON value *)

Definition json_of_connection (c : Social.connection) : json :=
  JDict (map (fun kv => (fst kv, JStr (snd kv))) c).

Definition json_of_platform (d : Social.platform_data) : json :=
  JDict (map (fun kv => (fst kv, JList (map json_of_connection (snd kv)))) d).

Definition json_of_social (data : Social.social_data) : json :=
  JDict (map (fun kv => (fst kv, json_of_platform (snd kv))) data).

Definition info_of (i : Social.conn_info) : info :=
  Info (map JStr (Social.relations i)) (Social.platforms i) (Social.occurrences i).

Definition entry_of (x : string * Social.conn_info) : json * info :=
  (JStr (fst x), info_of (snd x)).

Definition outcome_of (r : Social.analysis) : outcome :=
  Analysed (map entry_of (Social.all_connections r))
           (map entry_of (Social.top_connections r)).

End SocialJson.

(** * Properties *)

(** ** Dictionaries *)

Section DictFacts.

Context {V : Type}.
Implicit Types (k : string) (v : V) (d : Py.dict V).

Lemma keys_set_present k v d :
  k ∈ Py.keys d -> Py.keys (Py.set k v d) = Py.keys d.
Proof.
  induction d as [|[k' v'] d IH]; simpl; intros Hin.
  - inversion Hin.
  - destruct (decide (k = k')) as [->|Hne]; simpl; [reflexivity|].
    f_equal. apply IH. inversion Hin; subst; [contradiction|assumption].
Qed.

Lemma keys_set_absent k v d :
  k ∉ Py.keys d -> Py.keys (Py.set k v d) = Py.keys d ++ [k].
Proof.
  induction d as [|[k' v'] d IH]; simpl; intros Hnin; [reflexivity|].
  destruct (decide (k = k')) as [->|Hne]; simpl.
  - exfalso. apply Hnin. left.
  - f_equal. apply IH. intros Hin. apply Hnin. right. exact Hin.
Qed.

Lemma NoDup_keys_set k v d :
  NoDup (Py.keys d) -> NoDup (Py.keys (Py.set k v d)).
Proof.
  intros Hnd. destruct (decide (k ∈ Py.keys d)) as [Hin|Hnin].
  - rewrite keys_set_present by exact Hin. exact Hnd.
  - rewrite keys_set_absent by exact Hnin.
    apply NoDup_app. split; [exact Hnd|]. split.
    + intros x Hx Hx'. apply list_elem_of_singleton in Hx'. subst x. contradiction.
    + apply NoDup_singleton.
Qed.

Lemma get_set_eq k v d : Py.get k (Py.set k v d) = Some v.
Proof.
  induction d as [|[k' v'] d IH]; simpl.
  - destruct (decide (k = k)); [reflexivity|contradiction].
  - destruct (decide (k = k')) as [->|Hne]; simpl.
    + destruct (decide (k' = k')); [reflexivity|contradiction].
    + destruct (decide (k = k')); [contradiction|exact IH].
Qed.

Lemma get_set_ne k k' v d : k' <> k -> Py.get k' (Py.set k v d) = Py.get k' d.
Proof.
  intros Hne. induction d as [|[k0 v0] d IH]; simpl.
  - destruct (decide (k' = k)); [contradiction|reflexivity].
  - destruct (decide (k = k0)) as [->|Hne0]; simpl.
    + destruct (decide (k' = k0)); [contradiction|reflexivity].
    + destruct (decide (k' = k0)); [reflexivity|exact IH].
Qed.

Lemma get_Some_keys k v d : Py.get k d = Some v -> k ∈ Py.keys d.
Proof.
  induction d as [|[k' v'] d IH]; simpl; [discriminate|].
  destruct (decide (k = k')) as [->|Hne]; intros H.
  - left.
  - right. apply IH, H.
Qed.

Lemma get_None_keys k d : Py.get k d = None -> k ∉ Py.keys d.
Proof.
  induction d as [|[k' v'] d IH]; simpl; intros H Hin.
  - inversion Hin.
  - destruct (decide (k = k')) as [->|Hne]; [discriminate|].
    inversion Hin; subst; [contradiction|]. apply IH; assumption.
Qed.

Lemma length_set_present k v d :
  k ∈ Py.keys d -> length (Py.set k v d) = length d.
Proof.
  intros Hin. rewrite <- (length_map fst (Py.set k v d)), <- (length_map fst d).
  change (length (Py.keys (Py.set k v d)) = length (Py.keys d)).
  rewrite keys_set_present by exact Hin. reflexivity.
Qed.

End DictFacts.

(** ** The identity cache *)

Section CacheFacts.

Context {lib : FaceLibrary}.

(** What one call of [add_known_face] does, case by case. *)
Lemma add_known_face_run image_path person_id (w : world) :
  add_known_face image_path person_id w =
  match fs w !! image_path with
  | None => (Py.Returns false, w)
  | Some b =>
      match decode_image b with
      | Py.Raises _ => (Py.Returns false, w)
      | Py.Returns img =>
          match face_encodings img with
          | [] => (Py.Returns false, w)
          | e0 :: _ =>
              let w1 := set_known_faces (Py.set person_id e0 (known_faces w)) w in
              match pil_save_jpeg b with
              | Py.Raises _ => (Py.Returns false, w1)
              | Py.Returns j =>
                  (Py.Returns true, set_fs (<[output_path person_id := j]> (fs w1)) w1)
              end
          end
      end
  end.
Proof.
  unfold add_known_face, try_py, load_image_file, read_file, lift, mbind, py_mbind, py_bind.
  destruct (fs w !! image_path) as [b|] eqn:Hb; [|reflexivity].
  destruct (decode_image b) as [img|e]; [|reflexivity].
  destruct (face_encodings img) as [|e0 es]; [reflexivity|].
  unfold known_faces_setitem, image_open_save, read_file, write_file, modify, lift,
    mbind, py_mbind, py_bind, mret, py_mret, py_ret.
  simpl. rewrite Hb.
  destruct (pil_save_jpeg b); reflexivity.
Qed.

End CacheFacts.

Section RouteFacts.

Context {lib : FaceLibrary} {nlp : NLPModels}.

Ltac run_py :=
  unfold try_py, load_image_file, read_file, write_file, os_remove, lift, gets,
    modify, after_this_request, remove_file,
    mbind, py_mbind, py_bind, mret, py_mret, py_ret in *.

(** [recognize_faces] always returns, and changes nothing. *)
Lemma recognize_faces_returns image_path (w : world) :
  exists recognized, recognize_faces image_path w = (Py.Returns recognized, w).
Proof.
  unfold recognize_faces. run_py.
  destruct (fs w !! image_path) as [b|]; [|eexists; reflexivity].
  destruct (decode_image b) as [img|e]; [|eexists; reflexivity].
  destruct (recognize_loop _ _ _ _ _); eexists; reflexivity.
Qed.

Lemma load_known_faces_from_state filenames known (w : world) :
  snd (load_known_faces_from filenames known w) = w.
Proof.
  revert known. induction filenames as [|f rest IH]; intros known; simpl; [reflexivity|].
  destruct (is_image_name f); [|apply IH].
  run_py. destruct (fs w !! _) as [b|]; [|reflexivity].
  destruct (decode_image b) as [img|e]; [|reflexivity].
  destruct (face_encodings img); apply IH.
Qed.

Lemma load_known_faces_from_NoDup filenames known (w : world) kf :
  NoDup (Py.keys known) ->
  fst (load_known_faces_from filenames known w) = Py.Returns kf ->
  NoDup (Py.keys kf).
Proof.
  revert known. induction filenames as [|f rest IH]; intros known Hnd; simpl.
  - intros [= <-]. exact Hnd.
  - destruct (is_image_name f); [|apply IH; exact Hnd].
    run_py. destruct (fs w !! _) as [b|]; [|discriminate].
    destruct (decode_image b) as [img|e]; [|discriminate].
    destruct (face_encodings img) as [|e0 es]; apply IH; [exact Hnd|].
    apply NoDup_keys_set, Hnd.
Qed.

(** The cache a successful start leaves has no identifier twice. *)
Lemma startup_NoDup files0 (w : world) :
  startup files0 = Py.Returns w -> NoDup (Py.keys (known_faces w)).
Proof.
  unfold startup, IAInvestigation_init, load_known_faces, os_listdir. run_py.
  set (w0 := World [] files0 [] []).
  set (names := omap _ _).
  pose proof (load_known_faces_from_state names [] w0) as Hst.
  pose proof (load_known_faces_from_NoDup names [] w0) as Hnd.
  destruct (load_known_faces_from names [] w0) as [[kf|e] w1]; simpl in *; [|discriminate].
  intros [= <-]. simpl. apply Hnd; [constructor|reflexivity].
Qed.

(** The state a request to [/ia/recognize_faces] leaves. *)
Lemma dispatch_recognize_faces_run req (w : world) :
  exists resp,
    fst (full_dispatch_request ia_recognize_faces req w) = Py.Returns resp /\
    is_envelope resp = true /\
    snd (full_dispatch_request ia_recognize_faces req w) =
      match Py.get "file" (files req) with
      | None => World (known_faces w) (fs w) [] (analyzed w)
      | Some file =>
          if String.eqb (filename file) "" then World (known_faces w) (fs w) [] (analyzed w)
          else World (known_faces w)
                 (delete (Py.os_path_join UPLOAD_FOLDER (filename file)) (fs w))
                 [] (analyzed w)
      end.
Proof.
  unfold full_dispatch_request, ia_recognize_faces.
  destruct (Py.get "file" (files req)) as [file|].
  2:{ eexists. run_py. simpl. repeat split. }
  destruct (String.eqb (filename file) "").
  { eexists. run_py. simpl. repeat split. }
  set (file_path := Py.os_path_join UPLOAD_FOLDER (filename file)).
  unfold mbind, py_mbind, py_bind, modify, write_file. simpl.
  match goal with |- context [recognize_faces file_path ?w1] =>
    destruct (recognize_faces_returns file_path w1) as [l ->] end.
  repeat (progress (run_py; simpl)). rewrite lookup_insert_eq. simpl.
  eexists. repeat split.
  unfold set_fs, set_after_request_funcs; simpl. f_equal. apply delete_insert_eq.
Qed.

(** [add_known_face] always returns; it removes no file and leaves the
    bookkeeping of the request alone. *)
Lemma add_known_face_frame image_path person_id (w : world) b :
  fs w !! image_path = Some b ->
  exists ok w2,
    add_known_face image_path person_id w = (Py.Returns ok, w2) /\
    is_Some (fs w2 !! image_path) /\
    after_request_funcs w2 = after_request_funcs w /\
    analyzed w2 = analyzed w.
Proof.
  intros Hb. rewrite add_known_face_run, Hb.
  destruct (decode_image b) as [img|e].
  2:{ exists false, w. rewrite Hb. repeat split. eexists; reflexivity. }
  destruct (face_encodings img) as [|e0 es].
  { exists false, w. rewrite Hb. repeat split. eexists; reflexivity. }
  cbv zeta. destruct (pil_save_jpeg b) as [j|e]; eexists _, _; (split; [reflexivity|]);
    simpl; repeat split.
  - destruct (decide (output_path person_id = image_path)) as [->|Hne].
    + rewrite lookup_insert_eq. eexists; reflexivity.
    + rewrite lookup_insert_ne by exact Hne. rewrite Hb. eexists; reflexivity.
  - rewrite Hb. eexists; reflexivity.
Qed.

(** The state a request to [/ia/add_known_face] leaves, when the request
    carries a file with a name and an identifier. *)
Lemma dispatch_add_known_face_run req (w : world) file :
  Py.get "file" (files req) = Some file ->
  Py.get_default "person_id" "" (form req) <> "" ->
  filename file <> "" ->
  let person_id := Py.get_default "person_id" "" (form req) in
  let file_path := Py.os_path_join UPLOAD_FOLDER (filename file) in
  let w1 := World (known_faces w) (<[file_path := content file]> (fs w)) [] (analyzed w) in
  exists resp,
    fst (full_dispatch_request ia_add_known_face req w) = Py.Returns resp /\
    is_envelope resp = true /\
    snd (full_dispatch_request ia_add_known_face req w) =
      World (known_faces (snd (add_known_face file_path person_id w1)))
            (delete file_path (fs (snd (add_known_face file_path person_id w1))))
            [] (analyzed w).
Proof.
  intros Hfile Hpid Hname person_id file_path w1.
  unfold full_dispatch_request, ia_add_known_face.
  rewrite Hfile. fold person_id.
  destruct (String.eqb_spec person_id "") as [|_]; [contradiction|].
  destruct (String.eqb_spec (filename file) "") as [|_]; [contradiction|].
  fold file_path.
  destruct (add_known_face_frame file_path person_id w1 (content file))
    as (ok & w2 & Hrun & [c Hc] & Hfuncs & Han); [apply lookup_insert_eq|].
  simpl in Hfuncs, Han.
  repeat (progress (run_py; simpl)).
  change (set_fs _ (set_after_request_funcs [] w)) with w1.
  rewrite Hrun, Hc. simpl.
  destruct ok; simpl; rewrite Hfuncs; simpl; eexists; (split; [reflexivity|]);
    (split; [reflexivity|]); unfold set_fs, set_after_request_funcs; simpl;
    rewrite Han; reflexivity.
Qed.

(** The state a request to [/ia/analyze_text] leaves. *)
Lemma dispatch_analyze_text_known_faces req (w : world) :
  known_faces (snd (full_dispatch_request ia_analyze_text req w)) = known_faces w.
Proof.
  unfold full_dispatch_request, ia_analyze_text, analyze_text.
  repeat (progress (run_py; simpl)).
  destruct (Py.json_get _ _ _) as [text|e]; simpl; [|reflexivity].
  destruct (Py.truthy text); simpl; [|reflexivity].
  destruct nlp_ner; reflexivity.
Qed.

(** A call of [add_known_face] leaves the cache as it was or assigns one
    identifier. *)
Lemma add_known_face_known_faces image_path person_id (w : world) :
  known_faces (snd (add_known_face image_path person_id w)) = known_faces w \/
  exists e, known_faces (snd (add_known_face image_path person_id w)) =
            Py.set person_id e (known_faces w).
Proof.
  rewrite add_known_face_run.
  destruct (fs w !! image_path) as [b|]; [|left; reflexivity].
  destruct (decode_image b) as [img|e]; [|left; reflexivity].
  destruct (face_encodings img) as [|e0 es]; [left; reflexivity|].
  right. exists e0. cbv zeta. destruct (pil_save_jpeg b); reflexivity.
Qed.

Lemma dispatch_add_known_face_known_faces req (w : world) :
  let w' := snd (full_dispatch_request ia_add_known_face req w) in
  known_faces w' = known_faces w \/
  exists person_id e, known_faces w' = Py.set person_id e (known_faces w).
Proof.
  cbv zeta.
  destruct (Py.get "file" (files req)) as [file|] eqn:Hfile.
  2:{ left. unfold full_dispatch_request, ia_add_known_face. rewrite Hfile.
      reflexivity. }
  destruct (String.eqb_spec (Py.get_default "person_id" "" (form req)) "") as [Hp|Hp].
  { left. unfold full_dispatch_request, ia_add_known_face. rewrite Hfile.
    rewrite Hp. reflexivity. }
  destruct (String.eqb_spec (filename file) "") as [Hn|Hn].
  { left. unfold full_dispatch_request, ia_add_known_face. rewrite Hfile.
    destruct (String.eqb_spec (Py.get_default "person_id" "" (form req)) "");
      [contradiction|].
    rewrite Hn. reflexivity. }
  destruct (dispatch_add_known_face_run req w file Hfile Hp Hn) as (resp & _ & _ & ->).
  simpl.
  match goal with |- context [add_known_face ?p ?i ?w1] =>
    destruct (add_known_face_known_faces p i w1) as [->|[e ->]] end.
  - left. reflexivity.
  - right. eexists _, e. reflexivity.
Qed.

(** C3. The known-identity mapping never holds two records with the same
    identifier: this holds after the construction from the folder scan and
    after every request the server handles. Registering an embedding under
    an identifier replaces the embedding of that identifier and adds no
    second record (last write wins): after [add_known_face] on an image
    with a face the identifiers are still unique, the identifier maps to
    the new embedding, an identifier that was present keeps the list of
    identifiers as it was, and the other identifiers keep their
    embeddings. *)
Theorem known_faces_identifiers_unique (w : world) :
  reachable w ->
  NoDup (Py.keys (known_faces w)) /\
  forall image_path person_id b img loc0 locs,
    fs w !! image_path = Some b ->
    decode_image b = Py.Returns img ->
    face_locations img = loc0 :: locs ->
    let w' := snd (add_known_face image_path person_id w) in
    NoDup (Py.keys (known_faces w')) /\
    Py.get person_id (known_faces w') = Some (face_encoding img loc0) /\
    (person_id ∈ Py.keys (known_faces w) ->
     Py.keys (known_faces w') = Py.keys (known_faces w)) /\
    (forall k, k <> person_id ->
               Py.get k (known_faces w') = Py.get k (known_faces w)).
Proof.
  intros Hreach.
  assert (Hnd : NoDup (Py.keys (known_faces w))).
  { induction Hreach as [files0 w Hstart|w req _ IH|w req _ IH|w req _ IH].
    - eapply startup_NoDup, Hstart.
    - destruct (dispatch_recognize_faces_run req w) as (resp & _ & _ & ->).
      destruct (Py.get "file" (files req)) as [file|]; [|exact IH].
      destruct (String.eqb (filename file) ""); exact IH.
    - destruct (dispatch_add_known_face_known_faces req w) as [->|(pid & e & ->)];
        [exact IH|apply NoDup_keys_set, IH].
    - rewrite dispatch_analyze_text_known_faces. exact IH. }
  split; [exact Hnd|].
  intros image_path person_id b img loc0 locs Hb Himg Hloc w'.
  assert (Hkf : known_faces w' = Py.set person_id (face_encoding img loc0) (known_faces w)).
  { subst w'. rewrite add_known_face_run, Hb, Himg.
    unfold face_encodings, face_encodings_at. rewrite Hloc. simpl.
    destruct (pil_save_jpeg b); reflexivity. }
  rewrite Hkf. repeat split.
  - apply NoDup_keys_set, Hnd.
  - apply get_set_eq.
  - apply keys_set_present.
  - intros k Hk. apply get_set_ne, Hk.
Qed.

(** C10. [add_known_face] is not atomic. On an image with a detectable
    face the assignment to the cache comes before the save of the copy: once
    the call is over the cache maps the identifier to the embedding of the
    first face, whatever the save did, and when the save raises the call
    returns [False] with the cache updated all the same. *)
Theorem add_known_face_not_atomic (w : world) image_path person_id b img loc0 locs :
  fs w !! image_path = Some b ->
  decode_image b = Py.Returns img ->
  face_locations img = loc0 :: locs ->
  let r := add_known_face image_path person_id w in
  known_faces (snd r) = Py.set person_id (face_encoding img loc0) (known_faces w) /\
  Py.get person_id (known_faces (snd r)) = Some (face_encoding img loc0) /\
  (forall e, pil_save_jpeg b = Py.Raises e -> fst r = Py.Returns false).
Proof.
  intros Hb Himg Hloc r. subst r.
  rewrite add_known_face_run, Hb, Himg.
  unfold face_encodings, face_encodings_at. rewrite Hloc. simpl.
  destruct (pil_save_jpeg b) as [j|e0]; simpl.
  - split; [reflexivity|]. split; [apply get_set_eq|]. intros e [=].
  - split; [reflexivity|]. split; [apply get_set_eq|]. reflexivity.
Qed.

(** C9. With an empty cache, [recognize_faces] on an image with at least
    one detectable face returns the empty list: [numpy.argmin] raises on
    the empty list of distances and the handler turns the exception into
    [[]], so there is no result for a face that was detected. *)
Theorem recognize_faces_empty_cache (w : world) image_path b img loc0 locs :
  fs w !! image_path = Some b ->
  decode_image b = Py.Returns img ->
  face_locations img = loc0 :: locs ->
  known_faces w = [] ->
  recognize_loop [] (face_locations img) 0
      (face_encodings_at img (face_locations img)) [] =
    Py.Raises (Py.ValueError "attempt to get argmin of an empty sequence") /\
  recognize_faces image_path w = (Py.Returns [], w) /\
  length (face_locations img) <> 0.
Proof.
  intros Hb Himg Hloc Hkf. split; [|split].
  - rewrite Hloc. reflexivity.
  - unfold recognize_faces. run_py. rewrite Hb, Himg, Hkf, Hloc. reflexivity.
  - rewrite Hloc. discriminate.
Qed.

(** ** The request handlers *)

(** The two upload routes answer every request with an envelope. *)
Lemma ia_recognize_faces_envelope req (w : world) :
  exists resp,
    fst (full_dispatch_request ia_recognize_faces req w) = Py.Returns resp /\
    is_envelope resp = true.
Proof.
  destruct (dispatch_recognize_faces_run req w) as (resp & Hresp & Henv & _).
  exists resp. split; assumption.
Qed.

Lemma ia_add_known_face_envelope req (w : world) :
  exists resp,
    fst (full_dispatch_request ia_add_known_face req w) = Py.Returns resp /\
    is_envelope resp = true.
Proof.
  destruct (Py.get "file" (files req)) as [file|] eqn:Hfile.
  2:{ unfold full_dispatch_request, ia_add_known_face. rewrite Hfile.
      eexists. split; reflexivity. }
  destruct (String.eqb_spec (Py.get_default "person_id" "" (form req)) "") as [Hp|Hp].
  { unfold full_dispatch_request, ia_add_known_face. rewrite Hfile, Hp.
    eexists. split; reflexivity. }
  destruct (String.eqb_spec (filename file) "") as [Hn|Hn].
  { unfold full_dispatch_request, ia_add_known_face. rewrite Hfile.
    destruct (String.eqb_spec (Py.get_default "person_id" "" (form req)) "");
      [contradiction|].
    rewrite Hn. eexists. split; reflexivity. }
  destruct (dispatch_add_known_face_run req w file Hfile Hp Hn)
    as (resp & Hresp & Henv & _).
  exists resp. split; assumption.
Qed.

(** A request to [/ia/analyze_text] whose JSON body is an object gets an
    envelope. *)
Lemma ia_analyze_text_envelope req (w : world) kv :
  json_body req = Py.JDict kv ->
  exists resp,
    fst (full_dispatch_request ia_analyze_text req w) = Py.Returns resp /\
    is_envelope resp = true.
Proof.
  intros Hbody. unfold full_dispatch_request, ia_analyze_text, analyze_text.
  rewrite Hbody. repeat (progress (run_py; simpl)).
  destruct (Py.truthy _); simpl; [|eexists; split; reflexivity].
  destruct nlp_ner; simpl; eexists; split; reflexivity.
Qed.

(** A text with a truth value reaches the analysis, which the log shows. *)
Lemma ia_analyze_text_invokes req (w : world) kv text :
  json_body req = Py.JDict kv ->
  Py.get "text" kv = Some text ->
  Py.truthy text = true ->
  analyzed (snd (full_dispatch_request ia_analyze_text req w)) = text :: analyzed w.
Proof.
  intros Hbody Htext Htruthy. unfold full_dispatch_request, ia_analyze_text, analyze_text.
  rewrite Hbody. repeat (progress (run_py; simpl)).
  unfold Py.get_default. rewrite Htext, Htruthy. simpl.
  destruct nlp_ner; reflexivity.
Qed.

(** C5, at the inputs where the claim fails. A POST to [/ia/analyze_text]
    without a JSON body, or with a JSON body that is a list, does not get
    an envelope: [data.get] raises [AttributeError] and the view has no
    handler for it. *)
Theorem ia_analyze_text_no_json_body (w : world) uploaded fields :
  full_dispatch_request ia_analyze_text (Request uploaded fields Py.JNull) w =
    (Py.Raises (Py.AttributeError "'NoneType' object has no attribute 'get'"),
     World (known_faces w) (fs w) [] (analyzed w)) /\
  full_dispatch_request ia_analyze_text (Request uploaded fields (Py.JList [])) w =
    (Py.Raises (Py.AttributeError "'list' object has no attribute 'get'"),
     World (known_faces w) (fs w) [] (analyzed w)).
Proof. split; reflexivity. Qed.

(** C6. A POST to [/ia/analyze_text] whose JSON object has an empty
    ['text'], or none, is answered with status ["error"] and HTTP code 400,
    and [IAInvestigation.analyze_text] is not called. *)
Theorem ia_analyze_text_empty_rejected req (w : world) kv :
  json_body req = Py.JDict kv ->
  Py.get "text" kv = None \/ Py.get "text" kv = Some (Py.JStr "") ->
  full_dispatch_request ia_analyze_text req w =
    (Py.Returns
       (Response
          (Py.JDict [("status", Py.JStr "error"); ("message", Py.JStr "Texto vazio")])
          400),
     World (known_faces w) (fs w) [] (analyzed w)).
Proof.
  intros Hbody Htext. unfold full_dispatch_request, ia_analyze_text.
  rewrite Hbody. repeat (progress (run_py; simpl)).
  unfold Py.get_default. destruct Htext as [->| ->]; reflexivity.
Qed.

(** The path string of the copy does not start with the name of the
    uploads folder. *)
Lemma output_path_not_in_uploads person_id :
  String.prefix "uploads/" (output_path person_id) = false.
Proof.
  unfold output_path, Py.os_path_join.
  destruct (Py.starts_with_sep (person_id +:+ ".jpg")) eqn:Hsep.
  - destruct (person_id +:+ ".jpg") as [|c s]; [discriminate|].
    simpl in Hsep. apply Ascii.eqb_eq in Hsep. subst c. reflexivity.
  - reflexivity.
Qed.

(** ** Recognition *)

Lemma lookup_map {A B : Type} (f : A -> B) (l : list A) (i : nat) :
  map f l !! i = f <$> l !! i.
Proof.
  revert i. induction l as [|a l IH]; intros [|i]; simpl; try reflexivity. apply IH.
Qed.

(** [argmin_from] returns the index of a least element, once the elements
    already seen are not below the current best. *)
Lemma argmin_from_least (L : list Q) :
  forall rest seen best_i best,
    L = seen ++ rest ->
    L !! best_i = Some best ->
    (forall d, d ∈ seen -> (best <= d)%Q) ->
    exists dj, L !! argmin_from best_i best (length seen) rest = Some dj /\
               forall d, d ∈ L -> (dj <= d)%Q.
Proof.
  induction rest as [|d rest IH]; intros seen best_i best HL Hbest Hseen.
  - exists best. split; [exact Hbest|].
    rewrite app_nil_r in HL. subst L. exact Hseen.
  - simpl. assert (HL' : L = (seen ++ [d]) ++ rest) by (rewrite <- app_assoc; exact HL).
    assert (Hlen : length (seen ++ [d]) = S (length seen))
      by (rewrite length_app; simpl; lia).
    destruct (Qle_bool best d) eqn:Hle.
    + rewrite <- Hlen. apply IH; [exact HL'|exact Hbest|].
      intros x Hx. apply elem_of_app in Hx as [Hx|Hx]; [apply Hseen, Hx|].
      apply list_elem_of_singleton in Hx. subst x. apply Qle_bool_iff, Hle.
    + assert (Hlt : (d < best)%Q).
      { apply Qnot_le_lt. intros H. apply Qle_bool_iff in H. congruence. }
      rewrite <- Hlen. apply IH; [exact HL'| |].
      * subst L. apply list_lookup_middle. reflexivity.
      * intros x Hx. apply elem_of_app in Hx as [Hx|Hx].
        -- eapply Qle_trans; [apply Qlt_le_weak, Hlt|apply Hseen, Hx].
        -- apply list_elem_of_singleton in Hx. subst x. apply Qle_refl.
Qed.

Lemma np_argmin_least (l : list Q) :
  l <> [] ->
  exists j dj, np_argmin l = Py.Returns j /\ l !! j = Some dj /\
               forall d, d ∈ l -> (dj <= d)%Q.
Proof.
  destruct l as [|d rest]; [contradiction|]. intros _.
  destruct (argmin_from_least (d :: rest) rest [d] 0 d) as (dj & Hj & Hmin).
  - reflexivity.
  - reflexivity.
  - intros x Hx. apply list_elem_of_singleton in Hx. subst x. apply Qle_refl.
  - eexists _, dj. split; [reflexivity|]. split; [exact Hj|exact Hmin].
Qed.

Lemma recognize_loop_spec (known : Py.dict encoding) locations :
  known <> [] ->
  forall encodings i recognized,
    (forall k, k < length encodings -> is_Some (locations !! (i + k))) ->
    exists out,
      recognize_loop known locations i encodings recognized =
        Py.Returns (recognized ++ out) /\
      length out = length encodings /\
      forall k face, encodings !! k = Some face ->
        exists r, out !! k = Some r /\
                  locations !! (i + k) = Some (location r) /\
                  best_match known face r.
Proof.
  intros Hne. induction encodings as [|face rest IH]; intros i recognized Hlocs.
  - exists []. rewrite app_nil_r. repeat split. intros k face [=].
  - simpl.
    destruct (np_argmin_least (face_distance (Py.values known) face))
      as (j & dj & Hargmin & Hj & Hmin).
    { destruct known; [contradiction|discriminate]. }
    rewrite Hargmin. unfold mbind at 1, Py.result_mbind, Py.result_bind.
    unfold face_distance, Py.values in Hj. rewrite !lookup_map in Hj.
    match type of Hj with context [snd <$> ?t] =>
      destruct t as [[key e]|] eqn:Hkj; [|simpl in Hj; discriminate] end.
    simpl in Hj. injection Hj as <-.
    assert (Hleast : forall key' e', (key', e') ∈ known ->
               (encoding_distance e face <= encoding_distance e' face)%Q).
    { intros key' e' Hin. apply Hmin. unfold face_distance, Py.values.
      apply list_elem_of_In, in_map_iff. exists e'. split; [reflexivity|].
      apply in_map_iff. exists (key', e'). split; [reflexivity|].
      apply list_elem_of_In, Hin. }
    destruct (Hlocs 0) as [loc Hloc]; [simpl; lia|].
    rewrite Nat.add_0_r in Hloc.
    set (is_match := Qle_bool (encoding_distance e face) tolerance).
    set (r := if is_match
              then Recognition loc key (round2 (float_sub 1 (encoding_distance e face)))
              else Recognition loc "Desconhecido" 0%Q).
    assert (Hr : best_match known face r /\ location r = loc).
    { split; [|subst r; destruct is_match; reflexivity].
      exists j, key, e. split; [exact Hkj|]. split; [exact Hleast|].
      fold is_match. subst r. destruct is_match; simpl; split; reflexivity. }
    destruct (IH (S i) (recognized ++ [r])) as (out & Hrun & Hlen & Hout).
    { intros k Hk. replace (S i + k) with (i + S k) by lia. apply Hlocs. simpl. lia. }
    exists (r :: out). split; [|split].
    + unfold Py.getitem, compare_faces, face_distance, Py.values, Py.keys.
      rewrite !lookup_map, Hkj. simpl. fold is_match.
      replace (recognized ++ r :: out) with ((recognized ++ [r]) ++ out)
        by (rewrite <- app_assoc; reflexivity).
      rewrite <- Hrun. subst r. destruct is_match; simpl.
      * rewrite ?lookup_map, ?Hkj. simpl. rewrite Hloc. reflexivity.
      * rewrite Hloc. simpl. rewrite round2_zero. reflexivity.
    + simpl. rewrite Hlen. reflexivity.
    + intros [|k] face' Hk; simpl in Hk.
      * injection Hk as <-. exists r. split; [reflexivity|].
        rewrite Nat.add_0_r. destruct Hr as [Hbest ->]. split; [exact Hloc|exact Hbest].
      * destruct (Hout k face' Hk) as (r' & Hr' & Hloc' & Hbest').
        exists r'. split; [exact Hr'|]. split; [|exact Hbest'].
        replace (i + S k) with (S i + k) by lia. exact Hloc'.
Qed.

(** With a cache that is not empty, [recognize_faces] returns one result
    per detected face, in the order of the faces, each with the box of its
    face and the best match of its embedding. *)
Lemma recognize_faces_nonempty_cache (w : world) image_path b img :
  fs w !! image_path = Some b ->
  decode_image b = Py.Returns img ->
  known_faces w <> [] ->
  exists recognized,
    recognize_faces image_path w = (Py.Returns recognized, w) /\
    length recognized = length (face_locations img) /\
    forall k loc, face_locations img !! k = Some loc ->
      exists r, recognized !! k = Some r /\ location r = loc /\
                best_match (known_faces w) (face_encoding img loc) r.
Proof.
  intros Hb Himg Hne.
  destruct (recognize_loop_spec (known_faces w) (face_locations img) Hne
              (face_encodings_at img (face_locations img)) 0 [])
    as (out & Hrun & Hlen & Hout).
  { intros k Hk. unfold face_encodings_at in Hk. rewrite length_map in Hk.
    apply lookup_lt_is_Some. simpl. exact Hk. }
  exists out. split; [|split].
  - unfold recognize_faces. run_py. rewrite Hb, Himg. simpl. rewrite Hrun. reflexivity.
  - rewrite Hlen. unfold face_encodings_at. apply length_map.
  - intros k loc Hk.
    destruct (Hout k (face_encoding img loc)) as (r & Hr & Hloc & Hbest).
    { unfold face_encodings_at. rewrite lookup_map, Hk. reflexivity. }
    exists r. split; [exact Hr|]. split; [|exact Hbest].
    simpl in Hloc. rewrite Hk in Hloc. injection Hloc as ->. reflexivity.
Qed.

End RouteFacts.

(** ** The ranking of social connections *)

Module SocialFacts.

Import Social.

Section AlterFacts.

Context {V : Type}.
Implicit Types (k : string) (d : Py.dict V) (f : V -> V).

Lemma keys_alter f k d : Py.keys (Py.alter f k d) = Py.keys d.
Proof.
  induction d as [|[k' v'] d IH]; simpl; [reflexivity|].
  destruct (decide (k = k')); simpl; [reflexivity|]. f_equal. exact IH.
Qed.

Lemma get_alter_eq f k d : Py.get k (Py.alter f k d) = f <$> Py.get k d.
Proof.
  induction d as [|[k' v'] d IH]; simpl; [reflexivity|].
  destruct (decide (k = k')) as [->|Hne]; simpl.
  - destruct (decide (k' = k')); [reflexivity|contradiction].
  - destruct (decide (k = k')); [contradiction|exact IH].
Qed.

Lemma get_alter_ne f k k' d : k' <> k -> Py.get k' (Py.alter f k d) = Py.get k' d.
Proof.
  intros Hne. induction d as [|[k0 v0] d IH]; simpl; [reflexivity|].
  destruct (decide (k = k0)) as [->|Hne0]; simpl.
  - destruct (decide (k' = k0)); [contradiction|reflexivity].
  - destruct (decide (k' = k0)); [reflexivity|exact IH].
Qed.

Lemma mem_keys k d : Py.mem k d = true <-> k ∈ Py.keys d.
Proof.
  unfold Py.mem. destruct (Py.get k d) as [v|] eqn:Hget.
  - split; [intros _; eapply get_Some_keys, Hget|reflexivity].
  - split; [discriminate|]. intros Hin. exfalso. eapply get_None_keys; eassumption.
Qed.

Lemma get_of_elem k v d : NoDup (Py.keys d) -> (k, v) ∈ d -> Py.get k d = Some v.
Proof.
  induction d as [|[k' v'] d IH]; simpl; intros Hnd Hin.
  - inversion Hin.
  - apply NoDup_cons in Hnd as [Hk' Hnd].
    destruct (decide (k = k')) as [->|Hne].
    + apply elem_of_cons in Hin as [[= ->]|Hin]; [reflexivity|].
      exfalso. apply Hk'. apply list_elem_of_In, in_map_iff.
      exists (k', v). split; [reflexivity|apply list_elem_of_In, Hin].
    + apply elem_of_cons in Hin as [[= -> ->]|Hin]; [contradiction|].
      apply IH; assumption.
Qed.

End AlterFacts.

Lemma visit_keys platform connections c name :
  name ∈ Py.keys (visit platform connections c) <->
  name ∈ Py.keys connections \/ name = name_of c.
Proof.
  unfold visit. fold (name_of c). rewrite keys_alter.
  destruct (Py.mem (name_of c) connections) eqn:Hmem.
  - apply mem_keys in Hmem. split; [tauto|]. intros [H| ->]; assumption.
  - assert (Hnin : name_of c ∉ Py.keys connections).
    { intros Hin. apply mem_keys in Hin. congruence. }
    rewrite keys_set_absent by exact Hnin. rewrite elem_of_app, list_elem_of_singleton.
    reflexivity.
Qed.

Lemma visit_NoDup platform connections c :
  NoDup (Py.keys connections) -> NoDup (Py.keys (visit platform connections c)).
Proof.
  intros Hnd. unfold visit. rewrite keys_alter.
  destruct (Py.mem _ connections); [exact Hnd|apply NoDup_keys_set, Hnd].
Qed.

Lemma visit_occ platform connections c name :
  occ name (visit platform connections c) = occ name connections + bears name c.
Proof.
  unfold visit, occ, bears. fold (name_of c).
  destruct (decide (name_of c = name)) as [<-|Hne].
  - rewrite get_alter_eq. unfold Py.mem.
    destruct (Py.get (name_of c) connections) as [i|] eqn:Hget.
    + rewrite Hget. reflexivity.
    + rewrite get_set_eq. reflexivity.
  - rewrite get_alter_ne by congruence.
    destruct (Py.mem (name_of c) connections).
    + rewrite Nat.add_0_r. reflexivity.
    + rewrite get_set_ne by congruence. rewrite Nat.add_0_r. reflexivity.
Qed.

Lemma length_filter_bears name (cs : list connection) :
  length (filter (fun c : connection => Py.get_default "name" "" c = name) cs) =
  list_sum (map (bears name) cs).
Proof.
  induction cs as [|c cs IH]; [reflexivity|].
  rewrite filter_cons. simpl. unfold bears at 1, name_of.
  destruct (decide (Py.get_default "name" "" c = name)); simpl; rewrite IH; reflexivity.
Qed.

(** One platform. *)
Lemma visit_fold_occ platform cs : forall connections name,
  occ name (fold_left (visit platform) cs connections) =
  occ name connections + list_sum (map (bears name) cs).
Proof.
  induction cs as [|c cs IH]; intros connections name; simpl; [lia|].
  rewrite IH, visit_occ. lia.
Qed.

Lemma visit_fold_NoDup platform cs : forall connections,
  NoDup (Py.keys connections) ->
  NoDup (Py.keys (fold_left (visit platform) cs connections)).
Proof.
  induction cs as [|c cs IH]; intros connections Hnd; simpl; [exact Hnd|].
  apply IH, visit_NoDup, Hnd.
Qed.

Lemma visit_platform_occ connections item name :
  occ name (visit_platform connections item) =
  occ name connections + count_in_platform name item.
Proof.
  unfold visit_platform, count_in_platform.
  destruct (Py.get "connections" (snd item)) as [cs|]; [|lia].
  rewrite visit_fold_occ, length_filter_bears. reflexivity.
Qed.

Lemma visit_platform_NoDup connections item :
  NoDup (Py.keys connections) -> NoDup (Py.keys (visit_platform connections item)).
Proof.
  intros Hnd. unfold visit_platform.
  destruct (Py.get "connections" (snd item)); [apply visit_fold_NoDup, Hnd|exact Hnd].
Qed.

Lemma visit_counted platform connections c :
  counted connections -> counted (visit platform connections c).
Proof.
  intros Hc name. rewrite visit_keys, visit_occ, (Hc name). unfold bears.
  destruct (decide (name_of c = name)) as [<-|Hne].
  - split; [lia|]. intros _. right. reflexivity.
  - split; [intros [H|H]; [lia|congruence]|]. intros H. left. lia.
Qed.

Lemma visit_platform_counted connections item :
  counted connections -> counted (visit_platform connections item).
Proof.
  unfold visit_platform. destruct (Py.get "connections" (snd item)) as [cs|]; [|tauto].
  revert connections. induction cs as [|c cs IH]; intros connections Hc; simpl;
    [exact Hc|]. apply IH, visit_counted, Hc.
Qed.

(** All platforms. *)
Lemma collect_from data : forall connections,
  NoDup (Py.keys connections) -> counted connections ->
  let all := fold_left visit_platform data connections in
  NoDup (Py.keys all) /\ counted all /\
  forall name, occ name all = occ name connections + count_name name data.
Proof.
  induction data as [|item data IH]; intros connections Hnd Hc; simpl.
  - split; [exact Hnd|]. split; [exact Hc|]. intros name. unfold count_name. simpl. lia.
  - destruct (IH (visit_platform connections item)) as (Hnd' & Hc' & Hocc).
    + apply visit_platform_NoDup, Hnd.
    + apply visit_platform_counted, Hc.
    + split; [exact Hnd'|]. split; [exact Hc'|]. intros name.
      rewrite Hocc, visit_platform_occ. unfold count_name. simpl. lia.
Qed.

(** The sort. *)
Lemma insert_desc_perm x l : insert_desc x l ≡ₚ x :: l.
Proof.
  induction l as [|y l IH]; simpl; [reflexivity|].
  destruct (occurrences (snd x) <? occurrences (snd y))%nat; [|reflexivity].
  rewrite IH. apply Permutation_swap.
Qed.

Lemma sorted_desc_perm l : sorted_desc l ≡ₚ l.
Proof.
  induction l as [|x l IH]; simpl; [reflexivity|].
  rewrite insert_desc_perm, IH. reflexivity.
Qed.

Lemma insert_desc_sorted x l :
  StronglySorted at_least l -> StronglySorted at_least (insert_desc x l).
Proof.
  induction l as [|y l IH]; simpl; intros Hs.
  - constructor; constructor.
  - apply StronglySorted_inv in Hs as [Hs Hy].
    destruct (occurrences (snd x) <? occurrences (snd y))%nat eqn:Hlt.
    + apply Nat.ltb_lt in Hlt. constructor; [apply IH, Hs|].
      rewrite insert_desc_perm. constructor; [unfold at_least; lia|exact Hy].
    + apply Nat.ltb_ge in Hlt. constructor; [constructor; assumption|].
      constructor; [exact Hlt|].
      eapply Forall_impl; [exact Hy|]. unfold at_least. intros z Hz. simpl in *. lia.
Qed.

Lemma sorted_desc_sorted l : StronglySorted at_least (sorted_desc l).
Proof.
  induction l as [|x l IH]; simpl; [constructor|]. apply insert_desc_sorted, IH.
Qed.

Lemma StronglySorted_lookup l :
  StronglySorted at_least l ->
  forall i j x y, i < j -> l !! i = Some x -> l !! j = Some y -> at_least x y.
Proof.
  induction 1 as [|a l Hs IH Hall]; intros i j x y Hij Hx Hy; [discriminate|].
  destruct j as [|j]; [lia|]. simpl in Hy. destruct i as [|i]; simpl in Hx.
  - injection Hx as <-. rewrite Forall_forall in Hall. apply Hall.
    eapply list_elem_of_lookup_2, Hy.
  - apply (IH i j); [lia|assumption|assumption].
Qed.

(** The analysis of an input of the shape the method is written for. A
    name is among the connections, once, exactly when an entry of the input
    bears it, and its count is the number of entries that bear it, summed
    over the platforms. The top connections are at most 5 entries of the
    connections (5 when there are as many), in non-increasing order of
    count, and no connection left out has a higher count than one of
    them. *)
Lemma analysis_of_social_data (data : social_data) :
  let r := analyze_social_connections data in
  NoDup (Py.keys (all_connections r)) /\
  (forall name, name ∈ Py.keys (all_connections r) <-> 0 < count_name name data) /\
  (forall name info, (name, info) ∈ all_connections r ->
                     occurrences info = count_name name data) /\
  length (top_connections r) <= 5 /\
  length (top_connections r) = min 5 (length (all_connections r)) /\
  (forall i j x y, i < j ->
     top_connections r !! i = Some x -> top_connections r !! j = Some y ->
     occurrences (snd y) <= occurrences (snd x)) /\
  (forall x, x ∈ top_connections r -> x ∈ all_connections r) /\
  (forall x t, x ∈ all_connections r -> x ∉ top_connections r ->
               t ∈ top_connections r ->
               occurrences (snd x) <= occurrences (snd t)).
Proof.
  cbv zeta. unfold analyze_social_connections. simpl.
  destruct (collect_from data []) as (Hnd & Hc & Hocc); [constructor| |].
  { intros name. unfold occ. simpl. split; [intros H; inversion H|lia]. }
  fold (collect data) in Hnd, Hc, Hocc.
  assert (Hperm := sorted_desc_perm (collect data)).
  assert (Hsorted := sorted_desc_sorted (collect data)).
  rewrite <- (take_drop 5 (sorted_desc (collect data))) in Hsorted.
  repeat split.
  - exact Hnd.
  - intros H. apply Hc in H. rewrite Hocc in H. exact H.
  - intros H. apply Hc. rewrite Hocc. exact H.
  - intros name info Hin. pose proof (Hocc name) as H. unfold occ in H.
    rewrite (get_of_elem _ _ _ Hnd Hin) in H. exact H.
  - rewrite length_take. lia.
  - rewrite length_take, (Permutation_length Hperm). reflexivity.
  - intros i j x y Hij Hx Hy.
    apply StronglySorted_app_1_l in Hsorted.
    apply (StronglySorted_lookup _ Hsorted i j x y Hij Hx Hy).
  - intros x Hx. rewrite <- Hperm. apply (subseteq_take 5 _ x Hx).
  - intros x t Hx Hnx Ht. rewrite <- Hperm in Hx.
    rewrite <- (take_drop 5 (sorted_desc (collect data))) in Hx.
    apply elem_of_app in Hx as [Hx|Hx]; [contradiction|].
    apply (StronglySorted_app_1_elem_of _ _ _ _ _ Hsorted Ht Hx).
Qed.

End SocialFacts.

(** ** analyze_social_connections on JSON input *)

Module SocialJsonFacts.

Import Py SocialJson.

Lemma get_map_values {A B : Type} (f : A -> B) k (d : dict A) :
  get k (map (fun kv => (fst kv, f (snd kv))) d) = f <$> get k d.
Proof.
  induction d as [|[k' v] d IH]; simpl; [reflexivity|].
  destruct (decide (k = k')); [reflexivity|exact IH].
Qed.

Lemma json_get_connection (c : Social.connection) key :
  json_get (json_of_connection c) key (JStr "") =
    Returns (JStr (get_default key "" c)).
Proof.
  unfold json_of_connection, json_get, get_default.
  rewrite (get_map_values JStr). destruct (get key c); reflexivity.
Qed.

Lemma kget_entries n (d : dict Social.conn_info) :
  kget (JStr n) (map entry_of d) = info_of <$> get n d.
Proof.
  induction d as [|[k' v] d IH]; simpl; [reflexivity|].
  destruct (String.eqb_spec n k') as [->|Hne].
  - destruct (decide (k' = k')); [reflexivity|contradiction].
  - destruct (decide (n = k')); [contradiction|exact IH].
Qed.

Lemma kmem_entries n (d : dict Social.conn_info) :
  kmem (JStr n) (map entry_of d) = mem n d.
Proof.
  unfold kmem, mem. rewrite kget_entries. destruct (get n d); reflexivity.
Qed.

Lemma kset_entries n i (d : dict Social.conn_info) :
  kset (JStr n) (info_of i) (map entry_of d) = map entry_of (set n i d).
Proof.
  induction d as [|[k' v] d IH]; simpl; [reflexivity|].
  destruct (String.eqb_spec n k') as [->|Hne].
  - destruct (decide (k' = k')); [reflexivity|contradiction].
  - destruct (decide (n = k')); [contradiction|]. simpl. f_equal. exact IH.
Qed.

Lemma kalter_entries g f n (d : dict Social.conn_info) :
  (forall i, g (info_of i) = info_of (f i)) ->
  kalter g (JStr n) (map entry_of d) = map entry_of (alter f n d).
Proof.
  intros Hgf. induction d as [|[k' v] d IH]; simpl; [reflexivity|].
  destruct (String.eqb_spec n k') as [->|Hne].
  - destruct (decide (k' = k')); [|contradiction].
    simpl. unfold entry_of at 2. simpl. rewrite <- Hgf. reflexivity.
  - destruct (decide (n = k')); [contradiction|]. simpl. f_equal. exact IH.
Qed.

Lemma existsb_key_strs r (s : list string) :
  existsb (key_eqb (JStr r)) (map JStr s) = true <-> r ∈ s.
Proof.
  induction s as [|x s IH]; cbn [existsb map].
  - split; [discriminate|]. intros Hin. apply elem_of_nil in Hin. contradiction.
  - rewrite orb_true_iff, IH, elem_of_cons.
    change (key_eqb (JStr r) (JStr x)) with (String.eqb r x).
    rewrite String.eqb_eq. reflexivity.
Qed.

Lemma kset_add_strs r (s : list string) :
  kset_add (JStr r) (map JStr s) = map JStr (Social.set_add r s).
Proof.
  unfold kset_add, Social.set_add.
  destruct (decide (r ∈ s)) as [Hin|Hin].
  - apply existsb_key_strs in Hin. rewrite Hin. reflexivity.
  - destruct (existsb (key_eqb (JStr r)) (map JStr s)) eqn:He.
    + apply existsb_key_strs in He. contradiction.
    + rewrite map_app. reflexivity.
Qed.

Lemma visit_connection platform (conns : dict Social.conn_info) (c : Social.connection) :
  visit platform (map entry_of conns) (json_of_connection c) =
    Returns (map entry_of (Social.visit platform conns c)).
Proof.
  unfold visit, Social.visit. rewrite !json_get_connection. simpl.
  rewrite kmem_entries.
  change (Info [] [] 0) with (info_of (Social.ConnInfo [] [] 0)).
  set (name := get_default "name" "" c).
  set (relation := get_default "relation" "" c).
  assert (Halter : forall d : dict Social.conn_info,
    kalter (fun i => Info (kset_add (JStr relation) (relations i))
                          (Social.set_add platform (platforms i))
                          (occurrences i + 1))
           (JStr name) (map entry_of d) =
    map entry_of
      (alter (fun i => Social.ConnInfo
                         (Social.set_add relation (Social.relations i))
                         (Social.set_add platform (Social.platforms i))
                         (Social.occurrences i + 1))
             name d)).
  { intros d. apply kalter_entries. intros i. unfold info_of. simpl.
    rewrite kset_add_strs. reflexivity. }
  destruct (mem name conns).
  - rewrite Halter. reflexivity.
  - rewrite kset_entries, Halter. reflexivity.
Qed.

Lemma visit_all_connections platform (cs : list Social.connection) :
  forall conns : dict Social.conn_info,
    visit_all platform (map entry_of conns) (map json_of_connection cs) =
      Returns (map entry_of (fold_left (Social.visit platform) cs conns)).
Proof.
  induction cs as [|c cs IH]; intros conns; simpl; [reflexivity|].
  rewrite visit_connection. simpl. apply IH.
Qed.

Lemma visit_platform_data (conns : dict Social.conn_info)
    (item : string * Social.platform_data) :
  visit_platform (map entry_of conns) (fst item, json_of_platform (snd item)) =
    Returns (map entry_of (Social.visit_platform conns item)).
Proof.
  destruct item as [platform d].
  unfold visit_platform, Social.visit_platform, json_of_platform, contains, subscript,
    dict_getitem, mem. simpl.
  rewrite (get_map_values (fun cs => JList (map json_of_connection cs))).
  destruct (get "connections" d) as [cs|]; simpl; [|reflexivity].
  apply visit_all_connections.
Qed.

Lemma collect_social (data : Social.social_data) :
  forall conns : dict Social.conn_info,
    collect (map entry_of conns)
            (map (fun kv => (fst kv, json_of_platform (snd kv))) data) =
      Returns (map entry_of (fold_left Social.visit_platform data conns)).
Proof.
  induction data as [|item data IH]; intros conns; simpl; [reflexivity|].
  rewrite visit_platform_data. simpl. apply IH.
Qed.

Lemma insert_desc_entries x (l : list (string * Social.conn_info)) :
  insert_desc (entry_of x) (map entry_of l) = map entry_of (Social.insert_desc x l).
Proof.
  induction l as [|y l IH]; simpl; [reflexivity|].
  destruct (Social.occurrences (snd x) <? Social.occurrences (snd y))%nat;
    simpl; [f_equal; exact IH|reflexivity].
Qed.

Lemma sorted_desc_entries (l : list (string * Social.conn_info)) :
  sorted_desc (map entry_of l) = map entry_of (Social.sorted_desc l).
Proof.
  induction l as [|x l IH]; [reflexivity|].
  change (insert_desc (entry_of x) (sorted_desc (map entry_of l)) =
          map entry_of (Social.insert_desc x (Social.sorted_desc l))).
  rewrite IH. apply insert_desc_entries.
Qed.

(** On the input the method is written for, the run on the JSON value
    raises nowhere and gives the analysis of [Social]. *)
Lemma analyze_json_of_social (data : Social.social_data) :
  analyze_social_connections (json_of_social data) =
    outcome_of (Social.analyze_social_connections data).
Proof.
  unfold analyze_social_connections, json_of_social, items.
  cbn [mbind result_mbind result_bind].
  change (@nil (json * info)) with (map entry_of []).
  rewrite (collect_social data []).
  cbn [mbind result_mbind result_bind try_except].
  unfold outcome_of, Social.analyze_social_connections, Social.collect.
  cbn [Social.all_connections Social.top_connections].
  rewrite sorted_desc_entries. f_equal.
  symmetry. apply (fmap_take entry_of).
Qed.

(** C8, for an input of the shape the method is written for: a JSON
    object of platform objects whose ['connections'], where present, are
    lists of objects with string fields. On such an input
    [analyze_social_connections] raises nowhere and returns the
    connections it discovered together with a list of top connections. A
    name is among the connections, once, exactly when an entry of the input
    bears it, and its count is the number of entries that bear it, summed
    over the platforms. The top connections are at most 5 entries of the
    connections (5 when there are as many), in non-increasing order of
    count, and no connection left out has a higher count than one of
    them. *)
Theorem analyze_social_connections_well_formed (data : Social.social_data) :
  let r := Social.analyze_social_connections data in
  analyze_social_connections (json_of_social data) =
    Analysed (map entry_of (Social.all_connections r))
             (map entry_of (Social.top_connections r)) /\
  NoDup (keys (Social.all_connections r)) /\
  (forall name, name ∈ keys (Social.all_connections r) <->
                0 < Social.count_name name data) /\
  (forall name i, (name, i) ∈ Social.all_connections r ->
                  Social.occurrences i = Social.count_name name data) /\
  length (Social.top_connections r) <= 5 /\
  length (Social.top_connections r) = min 5 (length (Social.all_connections r)) /\
  (forall i j x y, i < j ->
     Social.top_connections r !! i = Some x -> Social.top_connections r !! j = Some y ->
     Social.occurrences (snd y) <= Social.occurrences (snd x)) /\
  (forall x, x ∈ Social.top_connections r -> x ∈ Social.all_connections r) /\
  (forall x t, x ∈ Social.all_connections r -> x ∉ Social.top_connections r ->
               t ∈ Social.top_connections r ->
               Social.occurrences (snd x) <= Social.occurrences (snd t)).
Proof.
  cbv zeta. split; [apply analyze_json_of_social|].
  apply SocialFacts.analysis_of_social_data.
Qed.

(** C8 as stated fails: on an input whose ['connections'] hold a string
    where an object is expected, [connection.get] raises and the method
    returns the error payload, neither connections nor top connections. *)
Lemma analyze_social_connections_error_payload :
  analyze_social_connections
    (JDict [("t", JDict [("connections", JList [JStr "Rui"])])]) =
  Failed "'str' object has no attribute 'get'".
Proof. reflexivity. Qed.

End SocialJsonFacts.

(** ** Concrete runs *)

Module DemoFacts.

Import Demo.

#[local] Existing Instance face_lib.
#[local] Existing Instance nlp_models.

Example splitext_root_jpg : Py.splitext_root "ana.silva.JPG" = "ana.silva".
Proof. reflexivity. Qed.

Example splitext_root_dotfile : Py.splitext_root ".png" = ".png".
Proof. reflexivity. Qed.

Example is_image_name_upper : is_image_name "Foto.JPEG" = true.
Proof. reflexivity. Qed.

Example os_path_join_relative : Py.os_path_join UPLOAD_FOLDER "a.jpg" = "uploads/a.jpg".
Proof. reflexivity. Qed.

Example os_path_join_absolute : Py.os_path_join UPLOAD_FOLDER "/tmp/a.jpg" = "/tmp/a.jpg".
Proof. reflexivity. Qed.

Example startup_two : startup (lib := face_lib) files_two = Py.Returns world_two.
Proof. vm_compute. reflexivity. Qed.

(** A photo with two faces against the cache of two identities: the first
    face is at distance 0.02 of ["ana"], the second is far from both. *)
Example recognize_two :
  fst (recognize_faces (lib := face_lib) "uploads/q.jpg"
         (@World face_lib (known_faces world_two)
                 (<["uploads/q.jpg" := photo_two]> (fs world_two)) [] [])) =
  Py.Returns [Recognition (0, 1, 1, 0)%Z "ana" (49 # 50);
              Recognition (0, 2, 1, 1)%Z "Desconhecido" 0].
Proof. vm_compute. reflexivity. Qed.

(** C1, at the input where the claim fails. The cache is empty, as after a
    start on an empty known-faces folder, and the uploaded photo has two
    detectable faces: [recognize_faces] returns the empty list, not one
    ["Desconhecido"] entry per face. *)
Theorem empty_cache_misses_detected_faces :
  startup (lib := face_lib) ∅ = Py.Returns world_empty /\
  known_faces world_query = known_faces world_empty /\
  fs world_query !! "uploads/q.jpg" = Some photo_two /\
  decode_image photo_two = Py.Returns [12; 200]%Z /\
  length (face_locations (FaceLibrary := face_lib) [12; 200]%Z) = 2 /\
  recognize_faces "uploads/q.jpg" world_query = (Py.Returns [], world_query).
Proof.
  split; [vm_compute; reflexivity|]. split; [reflexivity|].
  split; [vm_compute; reflexivity|]. split; [reflexivity|].
  split; [reflexivity|]. vm_compute. reflexivity.
Qed.

(** C3 on the state the start leaves on a folder of two photos. *)
Lemma known_faces_identifiers_unique_witness :
  reachable (lib := face_lib) (nlp := nlp_models) world_two /\
  NoDup (Py.keys (known_faces world_two)).
Proof.
  assert (H : reachable (lib := face_lib) (nlp := nlp_models) world_two).
  { apply (reach_startup files_two). vm_compute. reflexivity. }
  split; [exact H|].
  exact (proj1 (@known_faces_identifiers_unique face_lib nlp_models world_two H)).
Defined.

(** C4, at the input where the claim fails. A PNG with transparency
    decodes and has a detectable face, but PIL refuses to write its copy
    as JPEG (the image is not converted to RGB before the save):
    [add_known_face] returns [False] on it, not [True]. *)
Theorem add_known_face_transparent_image_fails :
  fs (world_upload "uploads/novo.png" photo_rgba) !! "uploads/novo.png" =
    Some photo_rgba /\
  decode_image photo_rgba = Py.Returns [10%Z] /\
  face_locations (FaceLibrary := face_lib) [10%Z] = [(0, 1, 1, 0)%Z] /\
  pil_save_jpeg photo_rgba =
    Py.Raises (Py.Exn "OSError" "cannot write mode RGBA as JPEG") /\
  fst (add_known_face "uploads/novo.png" "zed"
         (world_upload "uploads/novo.png" photo_rgba)) = Py.Returns false.
Proof.
  split; [vm_compute; reflexivity|]. split; [reflexivity|]. split; [reflexivity|].
  split; [reflexivity|]. vm_compute. reflexivity.
Qed.

(** C10 on the PNG with transparency: the call fails and ["zed"] is in the
    cache. *)
Lemma add_known_face_not_atomic_witness :
  let r := add_known_face "uploads/novo.png" "zed"
             (world_upload "uploads/novo.png" photo_rgba) in
  known_faces (snd r) = [("ana", 10%Z); ("bia", 40%Z); ("zed", 10%Z)] /\
  Py.get "zed" (known_faces (snd r)) = Some 10%Z /\
  fst r = Py.Returns false.
Proof.
  assert (Hfile : fs (world_upload "uploads/novo.png" photo_rgba) !! "uploads/novo.png" =
                    Some photo_rgba) by (vm_compute; reflexivity).
  pose proof (@add_known_face_not_atomic face_lib
                (world_upload "uploads/novo.png" photo_rgba)
                "uploads/novo.png" "zed" photo_rgba [10%Z] (0, 1, 1, 0)%Z []
                Hfile eq_refl eq_refl) as (Hkf & Hget & Hret).
  split; [exact Hkf|]. split; [exact Hget|].
  exact (Hret (Py.Exn "OSError" "cannot write mode RGBA as JPEG") eq_refl).
Defined.

(** C9 on an empty cache and a photo with one face. *)
Lemma recognize_faces_empty_cache_witness :
  fs world_one_face !! "uploads/q.jpg" = Some photo_ana /\
  recognize_faces "uploads/q.jpg" world_one_face = (Py.Returns [], world_one_face).
Proof.
  assert (Hfile : fs world_one_face !! "uploads/q.jpg" = Some photo_ana)
    by (vm_compute; reflexivity).
  split; [exact Hfile|].
  exact (proj1 (proj2 (@recognize_faces_empty_cache face_lib world_one_face
           "uploads/q.jpg" photo_ana [10%Z] (0, 1, 1, 0)%Z []
           Hfile eq_refl eq_refl eq_refl))).
Defined.

(** C6 on a body with an empty text and on a body without a text. *)
Lemma ia_analyze_text_empty_rejected_witness :
  full_dispatch_request (ia_analyze_text (nlp := nlp_models))
    (Request [] [] (Py.JDict [("text", Py.JStr "")])) world_two =
  (Py.Returns
     (Response
        (Py.JDict [("status", Py.JStr "error"); ("message", Py.JStr "Texto vazio")])
        400),
   world_two) /\
  fst (full_dispatch_request (ia_analyze_text (nlp := nlp_models))
         (Request [] [] (Py.JDict [("lang", Py.JStr "pt")])) world_two) =
  Py.Returns
    (Response
       (Py.JDict [("status", Py.JStr "error"); ("message", Py.JStr "Texto vazio")])
       400).
Proof.
  split.
  - apply (@ia_analyze_text_empty_rejected face_lib nlp_models
             (Request [] [] (Py.JDict [("text", Py.JStr "")])) world_two
             [("text", Py.JStr "")] eq_refl (or_intror eq_refl)).
  - rewrite (@ia_analyze_text_empty_rejected face_lib nlp_models
               (Request [] [] (Py.JDict [("lang", Py.JStr "pt")])) world_two
               [("lang", Py.JStr "pt")] eq_refl (or_introl eq_refl)).
    reflexivity.
Defined.

Example analyze_social_connections_demo :
  map (fun x => (fst x, Social.occurrences (snd x)))
      (Social.top_connections (Social.analyze_social_connections social)) =
  [("Lia", 3); ("Rui", 1)].
Proof. reflexivity. Qed.

End DemoFacts.

(** * Further properties *)

(** ** Recognition: the choice among equal distances *)

Section RecognitionFacts.

Context {lib : FaceLibrary}.

Ltac step_py :=
  unfold try_py, load_image_file, read_file, write_file, os_remove, lift, gets,
    modify, after_this_request, remove_file,
    mbind, py_mbind, py_bind, mret, py_mret, py_ret in *.

(** [argmin_from] returns the first index of a least element. *)
Lemma argmin_from_first (L : list Q) :
  forall rest seen best_i best,
    L = seen ++ rest ->
    L !! best_i = Some best ->
    best_i < length seen ->
    (forall d, d ∈ seen -> (best <= d)%Q) ->
    (forall i d, i < best_i -> L !! i = Some d -> (best < d)%Q) ->
    exists dj, L !! argmin_from best_i best (length seen) rest = Some dj /\
               (forall d, d ∈ L -> (dj <= d)%Q) /\
               (forall i d, i < argmin_from best_i best (length seen) rest ->
                            L !! i = Some d -> (dj < d)%Q).
Proof.
  induction rest as [|d rest IH]; intros seen best_i best HL Hbest Hlt Hseen Hfirst.
  - exists best. split; [exact Hbest|]. split; [|exact Hfirst].
    rewrite app_nil_r in HL. subst L. exact Hseen.
  - simpl. assert (HL' : L = (seen ++ [d]) ++ rest) by (rewrite <- app_assoc; exact HL).
    assert (Hlen : length (seen ++ [d]) = S (length seen))
      by (rewrite length_app; simpl; lia).
    destruct (Qle_bool best d) eqn:Hle.
    + rewrite <- Hlen. apply IH; [exact HL'|exact Hbest|lia| |exact Hfirst].
      intros x Hx. apply elem_of_app in Hx as [Hx|Hx]; [apply Hseen, Hx|].
      apply list_elem_of_singleton in Hx. subst x. apply Qle_bool_iff, Hle.
    + assert (Hltq : (d < best)%Q).
      { apply Qnot_le_lt. intros H. apply Qle_bool_iff in H. congruence. }
      rewrite <- Hlen. apply IH; [exact HL'| |lia| |].
      * subst L. apply list_lookup_middle. reflexivity.
      * intros x Hx. apply elem_of_app in Hx as [Hx|Hx].
        -- eapply Qle_trans; [apply Qlt_le_weak, Hltq|apply Hseen, Hx].
        -- apply list_elem_of_singleton in Hx. subst x. apply Qle_refl.
      * intros i x Hi Hx. eapply Qlt_le_trans; [exact Hltq|]. apply Hseen.
        subst L. rewrite lookup_app_l in Hx by exact Hi.
        eapply list_elem_of_lookup_2, Hx.
Qed.

Lemma np_argmin_first (l : list Q) :
  l <> [] ->
  exists j dj, np_argmin l = Py.Returns j /\ l !! j = Some dj /\
               (forall d, d ∈ l -> (dj <= d)%Q) /\
               (forall i d, i < j -> l !! i = Some d -> (dj < d)%Q).
Proof.
  destruct l as [|d rest]; [contradiction|]. intros _.
  destruct (argmin_from_first (d :: rest) rest [d] 0 d) as (dj & Hj & Hmin & Hfirst).
  - reflexivity.
  - reflexivity.
  - simpl. lia.
  - intros x Hx. apply list_elem_of_singleton in Hx. subst x. apply Qle_refl.
  - intros i x Hi. lia.
  - eexists _, dj. split; [reflexivity|]. split; [exact Hj|]. split; assumption.
Qed.

Lemma recognize_loop_first (known : Py.dict encoding) locations :
  known <> [] ->
  forall encodings i recognized,
    (forall k, k < length encodings -> is_Some (locations !! (i + k))) ->
    exists out,
      recognize_loop known locations i encodings recognized =
        Py.Returns (recognized ++ out) /\
      length out = length encodings /\
      forall k face, encodings !! k = Some face ->
        exists r, out !! k = Some r /\
                  locations !! (i + k) = Some (location r) /\
                  first_best_match known face r.
Proof.
  intros Hne. induction encodings as [|face rest IH]; intros i recognized Hlocs.
  - exists []. rewrite app_nil_r. repeat split. intros k face [=].
  - simpl.
    destruct (np_argmin_first (face_distance (Py.values known) face))
      as (j & dj & Hargmin & Hj & Hmin & Hfirst).
    { destruct known; [contradiction|discriminate]. }
    rewrite Hargmin. unfold mbind at 1, Py.result_mbind, Py.result_bind.
    assert (Hdist : forall j' d, face_distance (Py.values known) face !! j' = Some d ->
              exists key' e', known !! j' = Some (key', e') /\
                              d = encoding_distance e' face).
    { intros j' d Hd. unfold face_distance, Py.values in Hd. rewrite !lookup_map in Hd.
      match type of Hd with context [snd <$> ?t] =>
        destruct t as [[key' e']|] eqn:Hk; [|simpl in Hd; discriminate] end.
      simpl in Hd. injection Hd as <-. exists key', e'. split; [exact Hk|reflexivity]. }
    destruct (Hdist j dj Hj) as (key & e & Hkj & ->).
    unfold Py.dict in Hkj.
    assert (Hleast : forall key' e', (key', e') ∈ known ->
               (encoding_distance e face <= encoding_distance e' face)%Q).
    { intros key' e' Hin. apply Hmin. unfold face_distance, Py.values.
      apply list_elem_of_In, in_map_iff. exists e'. split; [reflexivity|].
      apply in_map_iff. exists (key', e'). split; [reflexivity|].
      apply list_elem_of_In, Hin. }
    assert (Hearlier : forall j' key' e', j' < j -> known !! j' = Some (key', e') ->
               (encoding_distance e face < encoding_distance e' face)%Q).
    { intros j' key' e' Hj' Hk'. apply (Hfirst j'); [exact Hj'|].
      unfold face_distance, Py.values. rewrite !lookup_map.
      change (list (string * encoding)) with (Py.dict encoding).
      rewrite Hk'. reflexivity. }
    destruct (Hlocs 0) as [loc Hloc]; [simpl; lia|].
    rewrite Nat.add_0_r in Hloc.
    set (is_match := Qle_bool (encoding_distance e face) tolerance).
    set (r := if is_match
              then Recognition loc key (round2 (float_sub 1 (encoding_distance e face)))
              else Recognition loc "Desconhecido" 0%Q).
    assert (Hr : first_best_match known face r /\ location r = loc).
    { split; [|subst r; destruct is_match; reflexivity].
      exists j, key, e. split; [exact Hkj|]. split; [exact Hleast|].
      split; [exact Hearlier|].
      fold is_match. subst r. destruct is_match; simpl; split; reflexivity. }
    destruct (IH (S i) (recognized ++ [r])) as (out & Hrun & Hlen & Hout).
    { intros k Hk. replace (S i + k) with (i + S k) by lia. apply Hlocs. simpl. lia. }
    exists (r :: out). split; [|split].
    + unfold Py.getitem, compare_faces, face_distance, Py.values, Py.keys.
      rewrite !lookup_map, Hkj. simpl. fold is_match.
      replace (recognized ++ r :: out) with ((recognized ++ [r]) ++ out)
        by (rewrite <- app_assoc; reflexivity).
      rewrite <- Hrun. subst r. destruct is_match; simpl.
      * rewrite ?lookup_map, ?Hkj. simpl. rewrite Hloc. reflexivity.
      * rewrite Hloc. simpl. rewrite round2_zero. reflexivity.
    + simpl. rewrite Hlen. reflexivity.
    + intros [|k] face' Hk; simpl in Hk.
      * injection Hk as <-. exists r. split; [reflexivity|].
        rewrite Nat.add_0_r. destruct Hr as [Hbest ->]. split; [exact Hloc|exact Hbest].
      * destruct (Hout k face' Hk) as (r' & Hr' & Hloc' & Hbest').
        exists r'. split; [exact Hr'|]. split; [|exact Hbest'].
        replace (i + S k) with (S i + k) by lia. exact Hloc'.
Qed.

(** X1. With a cache that is not empty, [recognize_faces] on a decodable
    image returns one result per detected face, in the order of the faces
    and each with the box of its face. A result names the cached identity
    at the least distance when that distance is within the tolerance, and
    among several identities at that distance the one registered first;
    its confidence is [round(1 - distance, 2)]. Otherwise the result is
    ["Desconhecido"] with confidence 0. The state is unchanged. *)
Theorem recognize_faces_first_best_match (w : world) image_path b img :
  fs w !! image_path = Some b ->
  decode_image b = Py.Returns img ->
  known_faces w <> [] ->
  exists recognized,
    recognize_faces image_path w = (Py.Returns recognized, w) /\
    length recognized = length (face_locations img) /\
    forall k loc, face_locations img !! k = Some loc ->
      exists r, recognized !! k = Some r /\ location r = loc /\
                first_best_match (known_faces w) (face_encoding img loc) r.
Proof.
  intros Hb Himg Hne.
  destruct (recognize_loop_first (known_faces w) (face_locations img) Hne
              (face_encodings_at img (face_locations img)) 0 [])
    as (out & Hrun & Hlen & Hout).
  { intros k Hk. unfold face_encodings_at in Hk. rewrite length_map in Hk.
    apply lookup_lt_is_Some. simpl. exact Hk. }
  exists out. split; [|split].
  - unfold recognize_faces. step_py. rewrite Hb, Himg. simpl. rewrite Hrun. reflexivity.
  - rewrite Hlen. unfold face_encodings_at. apply length_map.
  - intros k loc Hk.
    destruct (Hout k (face_encoding img loc)) as (r & Hr & Hloc & Hbest).
    { unfold face_encodings_at. rewrite lookup_map, Hk. reflexivity. }
    exists r. split; [exact Hr|]. split; [|exact Hbest].
    simpl in Hloc. rewrite Hk in Hloc. injection Hloc as ->. reflexivity.
Qed.

End RecognitionFacts.

(** ** The cache: edge cases and the round trip through recognition *)

Section CacheEdgeFacts.

Context {lib : FaceLibrary}.

Ltac step_py :=
  unfold try_py, load_image_file, read_file, write_file, os_remove, lift, gets,
    modify, after_this_request, remove_file,
    mbind, py_mbind, py_bind, mret, py_mret, py_ret in *.

Lemma get_elem_of {V : Type} (k : string) (v : V) (d : Py.dict V) :
  Py.get k d = Some v -> (k, v) ∈ d.
Proof.
  induction d as [|[k' v'] d IH]; simpl; [discriminate|].
  destruct (decide (k = k')) as [->|Hne].
  - intros [= ->]. left.
  - intros H. right. apply IH, H.
Qed.

(** X2. On a file that is missing, that does not decode or in which no
    face is detected, [recognize_faces] returns the empty list and changes
    nothing, whatever the cache holds: it does not raise. *)
Theorem recognize_faces_no_face (w : world) image_path :
  no_face_at w image_path ->
  recognize_faces image_path w = (Py.Returns [], w).
Proof.
  unfold recognize_faces. step_py.
  intros [Hnone|[(b & e & Hb & Hdec)|(b & img & Hb & Hdec & Hloc)]].
  - rewrite Hnone. reflexivity.
  - rewrite Hb, Hdec. reflexivity.
  - rewrite Hb, Hdec, Hloc. reflexivity.
Qed.

(** X3. On a file that is missing or does not decode, [add_known_face]
    returns [False] and changes neither the cache nor the file system: it
    does not raise. *)
Theorem add_known_face_unreadable (w : world) image_path person_id :
  fs w !! image_path = None \/
  (exists b e, fs w !! image_path = Some b /\ decode_image b = Py.Raises e) ->
  add_known_face image_path person_id w = (Py.Returns false, w).
Proof.
  rewrite add_known_face_run.
  intros [Hnone|(b & e & Hb & Hdec)].
  - rewrite Hnone. reflexivity.
  - rewrite Hb, Hdec. reflexivity.
Qed.

(** X4. Registration followed by recognition. After [add_known_face] on
    an image with a face, whether or not the copy could be written,
    [recognize_faces] on the same file gives for the first face a cached
    identity, not ["Desconhecido"], provided the embedding of a face is
    within the tolerance of itself: the identity named is at least as
    close to the face as the embedding just registered. *)
Theorem registered_face_is_recognized (w : world) image_path person_id b img loc0 locs :
  fs w !! image_path = Some b ->
  decode_image b = Py.Returns img ->
  face_locations img = loc0 :: locs ->
  output_path person_id <> image_path ->
  (encoding_distance (face_encoding img loc0) (face_encoding img loc0) <= tolerance)%Q ->
  let w' := snd (add_known_face image_path person_id w) in
  exists recognized r key e,
    recognize_faces image_path w' = (Py.Returns recognized, w') /\
    recognized !! 0 = Some r /\
    location r = loc0 /\
    (key, e) ∈ known_faces w' /\
    name r = key /\
    confidence r = round2 (float_sub 1 (encoding_distance e (face_encoding img loc0))) /\
    (encoding_distance e (face_encoding img loc0) <=
     encoding_distance (face_encoding img loc0) (face_encoding img loc0))%Q.
Proof.
  intros Hb Himg Hloc Hout Hself w'.
  set (e0 := face_encoding img loc0) in *.
  assert (Hkf : known_faces w' = Py.set person_id e0 (known_faces w)).
  { subst w'. rewrite add_known_face_run, Hb, Himg.
    unfold face_encodings, face_encodings_at. rewrite Hloc. simpl.
    destruct (pil_save_jpeg b); reflexivity. }
  assert (Hfs : fs w' !! image_path = Some b).
  { subst w'. rewrite add_known_face_run, Hb, Himg.
    unfold face_encodings, face_encodings_at. rewrite Hloc. simpl.
    destruct (pil_save_jpeg b); simpl; [|exact Hb].
    rewrite lookup_insert_ne by exact Hout. exact Hb. }
  assert (Hin : (person_id, e0) ∈ known_faces w').
  { rewrite Hkf. apply get_elem_of, get_set_eq. }
  assert (Hne : known_faces w' <> []).
  { intros Hnil. rewrite Hnil in Hin. inversion Hin. }
  destruct (recognize_faces_nonempty_cache w' image_path b img Hfs Himg Hne)
    as (recognized & Hrun & _ & Hres).
  destruct (Hres 0 loc0) as (r & Hr & Hlocr & j & key & e & Hj & Hleast & Hcase).
  { rewrite Hloc. reflexivity. }
  fold e0 in Hleast, Hcase.
  pose proof (Hleast person_id e0 Hin) as Hclose.
  assert (Hwithin : Qle_bool (encoding_distance e e0) tolerance = true).
  { apply Qle_bool_iff. eapply Qle_trans; [exact Hclose|exact Hself]. }
  rewrite Hwithin in Hcase. destruct Hcase as [Hname Hconf].
  exists recognized, r, key, e. split; [exact Hrun|]. split; [exact Hr|].
  split; [exact Hlocr|]. split; [eapply list_elem_of_lookup_2, Hj|].
  split; [exact Hname|]. split; [exact Hconf|exact Hclose].
Qed.

End CacheEdgeFacts.

(** ** Strings, paths and file names *)

Section StringFacts.

Implicit Types (a b s t : string) (c : ascii).

Lemma length_append a b :
  String.length (a +:+ b) = String.length a + String.length b.
Proof. induction a as [|c a IH]; simpl; [reflexivity|]. rewrite IH. reflexivity. Qed.

Lemma substring_whole s : substring 0 (String.length s) s = s.
Proof. induction s as [|c s IH]; simpl; [reflexivity|]. rewrite IH. reflexivity. Qed.

Lemma substring_skip a b n :
  substring (String.length a) n (a +:+ b) = substring 0 n b.
Proof. induction a as [|c a IH]; simpl; [reflexivity|]. exact IH. Qed.

Lemma substring_take a b :
  substring 0 (String.length a) (a +:+ b) = a.
Proof.
  induction a as [|c a IH]; simpl.
  - destruct b; reflexivity.
  - rewrite IH. reflexivity.
Qed.

Lemma prefix_append a b : String.prefix a (a +:+ b) = true.
Proof.
  induction a as [|c a IH]; simpl; [destruct b; reflexivity|].
  destruct (ascii_dec c c); [exact IH|contradiction].
Qed.

Lemma prefix_split a s :
  String.prefix a s = true ->
  s = a +:+ substring (String.length a) (String.length s - String.length a) s.
Proof.
  revert s. induction a as [|c a IH]; intros s H; simpl.
  - rewrite Nat.sub_0_r. symmetry. destruct s; [reflexivity|].
    apply (substring_whole (String _ _)).
  - destruct s as [|c' s]; simpl in H; [discriminate|].
    destruct (ascii_dec c c') as [->|]; [|discriminate].
    change (String c' s = String c' (a +:+ substring (String.length a)
                            (String.length s - String.length a) s)).
    f_equal. apply IH, H.
Qed.

Lemma append_cons c a b : String c a +:+ b = String c (a +:+ b).
Proof. reflexivity. Qed.

Lemma append_assoc a b s : (a +:+ b) +:+ s = a +:+ (b +:+ s).
Proof.
  induction a as [|c a IH]; [reflexivity|]. rewrite !append_cons. f_equal. exact IH.
Qed.

Lemma append_inj_l a s t : a +:+ s = a +:+ t -> s = t.
Proof.
  induction a as [|c a IH]; [tauto|]. rewrite !append_cons. intros [= H]. apply IH, H.
Qed.

Lemma rfind_from_bounds c s : forall i,
  (0 <= i)%Z ->
  Py.rfind_from i c s = (-1)%Z \/
  (i <= Py.rfind_from i c s < i + Z.of_nat (String.length s))%Z.
Proof.
  induction s as [|c' s IH]; intros i Hi; simpl; [left; reflexivity|].
  destruct (IH (i + 1)%Z) as [->|Hr]; [lia| |].
  - simpl. destruct (Ascii.eqb c c'); [right; lia|left; reflexivity].
  - destruct (0 <=? Py.rfind_from (i + 1) c s)%Z eqn:H.
    + right. lia.
    + apply Z.leb_gt in H. lia.
Qed.

(** [rfind] on a concatenation: the last occurrence is in the second part
    when there is one there. *)
Lemma rfind_from_append c a b : forall i,
  (0 <= i)%Z ->
  Py.rfind_from i c (a +:+ b) =
  if (0 <=? Py.rfind_from (i + Z.of_nat (String.length a)) c b)%Z
  then Py.rfind_from (i + Z.of_nat (String.length a)) c b
  else Py.rfind_from i c a.
Proof.
  induction a as [|c' a IH]; intros i Hi.
  - change ("" +:+ b) with b. simpl String.length. rewrite Z.add_0_r.
    destruct (rfind_from_bounds c b i Hi) as [->|Hr]; [reflexivity|].
    destruct (0 <=? Py.rfind_from i c b)%Z eqn:H; [reflexivity|].
    apply Z.leb_gt in H. lia.
  - rewrite append_cons.
    change (Py.rfind_from i c (String c' (a +:+ b)))
      with (let r := Py.rfind_from (i + 1) c (a +:+ b) in
            if (0 <=? r)%Z then r else if Ascii.eqb c c' then i else (-1)%Z).
    change (Py.rfind_from i c (String c' a))
      with (let r := Py.rfind_from (i + 1) c a in
            if (0 <=? r)%Z then r else if Ascii.eqb c c' then i else (-1)%Z).
    cbv zeta. rewrite IH by lia.
    replace (i + Z.of_nat (String.length (String c' a)))%Z
      with (i + 1 + Z.of_nat (String.length a))%Z by (simpl String.length; lia).
    destruct (0 <=? Py.rfind_from (i + 1 + Z.of_nat (String.length a)) c b)%Z
      eqn:H; [rewrite H; reflexivity|reflexivity].
Qed.

Lemma starts_with_sep_rfind s :
  Py.starts_with_sep s = true -> (0 <= Py.rfind "/" s)%Z.
Proof.
  destruct s as [|c s]; simpl; [discriminate|]. intros H.
  apply Ascii.eqb_eq in H. subst c. unfold Py.rfind.
  change (Py.rfind_from 0 "/" (String "/" s))
    with (let r := Py.rfind_from (0 + 1) "/" s in
          if (0 <=? r)%Z then r else if Ascii.eqb "/" "/" then 0%Z else (-1)%Z).
  cbv zeta.
  destruct (0 <=? Py.rfind_from (0 + 1) "/" s)%Z eqn:H0; [apply Z.leb_le, H0|].
  simpl. lia.
Qed.

Lemma no_sep_not_absolute s :
  (Py.rfind "/" s < 0)%Z -> Py.starts_with_sep s = false.
Proof.
  intros H. destruct (Py.starts_with_sep s) eqn:Hs; [|reflexivity].
  apply starts_with_sep_rfind in Hs. lia.
Qed.

(** A name without a separator is joined to the known-faces folder as a
    file directly in it. *)
Lemma known_path_of s :
  (Py.rfind "/" s < 0)%Z ->
  Py.os_path_join KNOWN_FACES_FOLDER s = "known_faces/" +:+ s.
Proof.
  intros H. unfold Py.os_path_join. rewrite (no_sep_not_absolute s H). reflexivity.
Qed.

Lemma entry_name_known s :
  (Py.rfind "/" s < 0)%Z ->
  entry_name KNOWN_FACES_FOLDER ("known_faces/" +:+ s) = Some s.
Proof.
  intros H. unfold entry_name.
  change (KNOWN_FACES_FOLDER +:+ "/") with "known_faces/".
  rewrite prefix_append, length_append.
  replace (String.length "known_faces/" + String.length s - String.length "known_faces/")
    with (String.length s) by lia.
  rewrite substring_skip, substring_whole.
  destruct (0 <=? Py.rfind "/" s)%Z eqn:H0; [apply Z.leb_le in H0; lia|reflexivity].
Qed.

Lemma entry_name_inv p s :
  entry_name KNOWN_FACES_FOLDER p = Some s ->
  p = "known_faces/" +:+ s /\ (Py.rfind "/" s < 0)%Z.
Proof.
  unfold entry_name. change (KNOWN_FACES_FOLDER +:+ "/") with "known_faces/".
  destruct (String.prefix "known_faces/" p) eqn:Hpre; [|discriminate].
  apply prefix_split in Hpre.
  destruct (0 <=? Py.rfind "/" _)%Z eqn:H0; [discriminate|].
  intros [= <-]. split; [exact Hpre|apply Z.leb_gt, H0].
Qed.

(** The entries [os.listdir] gives for the known-faces folder. *)
Lemma listdir_known (files0 : gmap string Py.bytes) s :
  s ∈ omap (entry_name KNOWN_FACES_FOLDER) (map fst (map_to_list files0)) <->
  (Py.rfind "/" s < 0)%Z /\ is_Some (files0 !! ("known_faces/" +:+ s)).
Proof.
  rewrite list_elem_of_omap. split.
  - intros (p & Hp & Hentry). apply entry_name_inv in Hentry as [-> Hsep].
    split; [exact Hsep|].
    apply list_elem_of_In, in_map_iff in Hp as ([p b] & Hfst & Hin).
    simpl in Hfst. subst p. apply list_elem_of_In, elem_of_map_to_list in Hin.
    exists b. exact Hin.
  - intros [Hsep [b Hb]]. exists ("known_faces/" +:+ s). split.
    + apply list_elem_of_In, in_map_iff. exists ("known_faces/" +:+ s, b).
      split; [reflexivity|]. apply list_elem_of_In, elem_of_map_to_list, Hb.
    + apply entry_name_known, Hsep.
Qed.

Lemma lower_append a b : Py.lower (a +:+ b) = Py.lower a +:+ Py.lower b.
Proof.
  induction a as [|c a IH]; [reflexivity|]. rewrite append_cons. simpl.
  rewrite IH. reflexivity.
Qed.

Lemma endswith_append a suffix : Py.endswith (a +:+ suffix) suffix = true.
Proof.
  unfold Py.endswith. rewrite length_append.
  replace (String.length a + String.length suffix - String.length suffix)
    with (String.length a) by lia.
  rewrite substring_skip, substring_whole, String.eqb_refl.
  rewrite andb_true_r. apply Nat.leb_le. lia.
Qed.

(** The name of the copy [add_known_face] writes is an image name. *)
Lemma is_image_name_jpg s : is_image_name (s +:+ ".jpg") = true.
Proof.
  unfold is_image_name. rewrite lower_append.
  change (Py.lower ".jpg") with ".jpg". rewrite endswith_append.
  rewrite orb_true_r. reflexivity.
Qed.

Lemma has_non_dot_whole a b :
  Py.has_non_dot (a +:+ b) 0 (Z.of_nat (String.length a)) =
  existsb (fun c => negb (Ascii.eqb c ".")) (list_ascii_of_string a).
Proof.
  unfold Py.has_non_dot. rewrite Z.sub_0_r, Nat2Z.id. simpl Z.to_nat.
  rewrite substring_take. reflexivity.
Qed.

(** The identifier the folder scan gives the copy of a plain identifier is
    that identifier. *)
Lemma splitext_root_of_copy s :
  plain_identifier s = true -> Py.splitext_root (s +:+ ".jpg") = s.
Proof.
  unfold plain_identifier. intros H. apply andb_true_iff in H as [Hsep Hdot].
  apply Z.ltb_lt in Hsep. unfold Py.splitext_root, Py.rfind in *.
  rewrite !rfind_from_append by lia. rewrite !Z.add_0_l.
  assert (Hd : Py.rfind_from (Z.of_nat (String.length s)) "." ".jpg" =
               Z.of_nat (String.length s)).
  { simpl. lia. }
  assert (Hs : Py.rfind_from (Z.of_nat (String.length s)) "/" ".jpg" = (-1)%Z)
    by reflexivity.
  rewrite Hd, Hs.
  assert (H0 : (0 <=? Z.of_nat (String.length s))%Z = true) by (apply Z.leb_le; lia).
  rewrite H0. change (0 <=? -1)%Z with false. cbv iota.
  assert (Hlt : (Py.rfind_from 0 "/" s <? Z.of_nat (String.length s))%Z = true)
    by (apply Z.ltb_lt; lia).
  rewrite Hlt. simpl andb.
  destruct (rfind_from_bounds "/" s 0) as [Hm|Hr]; [lia| |lia].
  rewrite Hm. change (-1 + 1)%Z with 0%Z.
  rewrite has_non_dot_whole, Hdot, Nat2Z.id. apply substring_take.
Qed.

(** *** Paths in normal form *)

Example normpath_parent :
  PosixPath.normpath "known_faces/../uploads/x.jpg" = "uploads/x.jpg".
Proof. reflexivity. Qed.

Example normpath_above_root : PosixPath.normpath "//a/./b/../../../c/" = "//c".
Proof. reflexivity. Qed.

Example normpath_leading_parents : PosixPath.normpath "../a/../../b" = "../../b".
Proof. reflexivity. Qed.

Lemma split_sep_no_sep s : forall i,
  (0 <= i)%Z -> (Py.rfind_from i "/" s < 0)%Z -> PosixPath.split_sep s = [s].
Proof.
  induction s as [|c s IH]; intros i Hi Hr; [reflexivity|].
  simpl in Hr |- *.
  destruct (0 <=? Py.rfind_from (i + 1) "/" s)%Z eqn:Hrest; [lia|].
  apply Z.leb_gt in Hrest.
  destruct (Ascii.eqb_spec "/" c) as [<-|Hc]; [lia|].
  destruct (Ascii.eqb_spec c "/") as [->|_]; [contradiction|].
  rewrite (IH (i + 1)%Z) by lia. reflexivity.
Qed.

Lemma no_sep_append_jpg s :
  (Py.rfind "/" s < 0)%Z -> (Py.rfind "/" (s +:+ ".jpg") < 0)%Z.
Proof.
  intros Hs. unfold Py.rfind in *. rewrite rfind_from_append by lia.
  simpl. destruct (0 <=? -1)%Z eqn:H; [discriminate|]. exact Hs.
Qed.

(** The path of a file directly in the known-faces folder is in normal
    form. *)
Lemma normpath_known t :
  (Py.rfind "/" t < 0)%Z -> t <> "" -> t <> "." -> t <> ".." ->
  PosixPath.normpath ("known_faces/" +:+ t) = "known_faces/" +:+ t.
Proof.
  intros Hsep H0 H1 H2. unfold PosixPath.normpath.
  change ("known_faces/" +:+ t) with (String "k" ("nown_faces/" +:+ t)) at 1 2.
  cbn [String.eqb Ascii.eqb Bool.eqb PosixPath.initial_slashes String.prefix].
  replace (PosixPath.split_sep ("known_faces/" +:+ t)) with ["known_faces"; t].
  2:{ change (PosixPath.split_sep ("known_faces/" +:+ t))
        with (match PosixPath.split_sep t with
              | comp :: comps => "known_faces" :: comp :: comps
              | [] => ["known_faces"]
              end) || idtac.
      symmetry.
      transitivity ("known_faces" :: PosixPath.split_sep t); [reflexivity|].
      rewrite (split_sep_no_sep t 0%Z) by (unfold Py.rfind in Hsep; lia).
      reflexivity. }
  cbn [PosixPath.norm_comps].
  change (String.eqb "known_faces" "") with false.
  change (String.eqb "known_faces" ".") with false.
  change (String.eqb "known_faces" "..") with false.
  cbn [orb negb].
  destruct (String.eqb_spec t "") as [|_]; [contradiction|].
  destruct (String.eqb_spec t ".") as [|_]; [contradiction|].
  destruct (String.eqb_spec t "..") as [|_]; [contradiction|].
  cbn [orb negb PosixPath.norm_comps rev app PosixPath.slashes String.concat].
  reflexivity.
Qed.

(** The copy of an identifier without a path separator is not in the
    uploads folder. *)
Lemma copy_not_in_uploads_folder person_id :
  (Py.rfind "/" person_id < 0)%Z ->
  in_uploads_folder (output_path person_id) = false.
Proof.
  intros Hsep. unfold in_uploads_folder, output_path.
  rewrite known_path_of by (apply no_sep_append_jpg, Hsep).
  assert (Hlen : String.length (person_id +:+ ".jpg") = String.length person_id + 4)
    by (rewrite length_append; reflexivity).
  rewrite normpath_known.
  - reflexivity.
  - apply no_sep_append_jpg, Hsep.
  - intros H. rewrite H in Hlen. simpl in Hlen. lia.
  - intros H. rewrite H in Hlen. simpl in Hlen. lia.
  - intros H. rewrite H in Hlen. simpl in Hlen. lia.
Qed.

End StringFacts.

(** ** The folder scan *)

Section LoaderFacts.

Context {lib : FaceLibrary}.

Ltac step_py :=
  unfold try_py, load_image_file, read_file, write_file, os_remove, lift, gets,
    modify, after_this_request, remove_file,
    mbind, py_mbind, py_bind, mret, py_mret, py_ret in *.

Lemma keys_set_iff {V : Type} (k p : string) (v : V) (d : Py.dict V) :
  k ∈ Py.keys (Py.set p v d) <-> k = p \/ k ∈ Py.keys d.
Proof.
  destruct (decide (p ∈ Py.keys d)) as [Hin|Hnin].
  - rewrite keys_set_present by exact Hin. split; [tauto|]. intros [->|H]; assumption.
  - rewrite keys_set_absent by exact Hnin.
    rewrite elem_of_app, list_elem_of_singleton. tauto.
Qed.

Lemma get_set {V : Type} (k p : string) (v : V) (d : Py.dict V) :
  Py.get k (Py.set p v d) = if decide (k = p) then Some v else Py.get k d.
Proof.
  destruct (decide (k = p)) as [->|Hne]; [apply get_set_eq|apply get_set_ne, Hne].
Qed.

Lemma keys_get {V : Type} (k : string) (d : Py.dict V) :
  k ∈ Py.keys d -> exists v, Py.get k d = Some v.
Proof.
  intros Hin. destruct (Py.get k d) as [v|] eqn:Hget; [exists v; reflexivity|].
  exfalso. eapply get_None_keys; eassumption.
Qed.

(** What a scan that returns has done with the entries [filenames]. *)
Lemma load_known_faces_from_inv filenames : forall known (w : world) kf,
  fst (load_known_faces_from filenames known w) = Py.Returns kf ->
  (forall f, f ∈ filenames -> is_image_name f = true ->
     exists b img, fs w !! Py.os_path_join KNOWN_FACES_FOLDER f = Some b /\
                   decode_image b = Py.Returns img) /\
  (forall k e, Py.get k kf = Some e ->
     Py.get k known = Some e \/
     exists f, f ∈ filenames /\ indexed_as (fs w) f e /\ Py.splitext_root f = k) /\
  (forall k, k ∈ Py.keys known -> k ∈ Py.keys kf) /\
  (forall f e, f ∈ filenames -> indexed_as (fs w) f e ->
     Py.splitext_root f ∈ Py.keys kf).
Proof.
  induction filenames as [|f rest IH]; intros known w kf; simpl.
  - intros [= <-]. split; [intros f Hf; inversion Hf|].
    split; [intros k e H; left; exact H|].
    split; [tauto|]. intros f e Hf; inversion Hf.
  - destruct (is_image_name f) eqn:Himage.
    2:{ intros Hrun. destruct (IH known w kf Hrun) as (Ha & Hb & Hc & Hd).
        split; [|split; [|split]].
        - intros f' Hf' Hi. apply elem_of_cons in Hf' as [->|Hf']; [congruence|].
          apply Ha; assumption.
        - intros k e Hk. destruct (Hb k e Hk) as [H|(f' & Hf' & H)]; [left; exact H|].
          right. exists f'. split; [right; exact Hf'|exact H].
        - exact Hc.
        - intros f' e Hf' Hidx. apply elem_of_cons in Hf' as [->|Hf'].
          + destruct Hidx as [Hi _]. congruence.
          + eapply Hd; eassumption. }
    step_py.
    destruct (fs w !! Py.os_path_join KNOWN_FACES_FOLDER f) as [b|] eqn:Hfile;
      [|discriminate].
    destruct (decode_image b) as [img|ex] eqn:Hdec; [|discriminate].
    unfold face_encodings, face_encodings_at.
    destruct (face_locations img) as [|loc0 locs] eqn:Hloc; simpl.
    + intros Hrun. destruct (IH known w kf Hrun) as (Ha & Hb & Hc & Hd).
      split; [|split; [|split]].
      * intros f' Hf' Hi. apply elem_of_cons in Hf' as [->|Hf'];
          [exists b, img; split; assumption|apply Ha; assumption].
      * intros k e Hk. destruct (Hb k e Hk) as [H|(f' & Hf' & H)]; [left; exact H|].
        right. exists f'. split; [right; exact Hf'|exact H].
      * exact Hc.
      * intros f' e Hf' Hidx. apply elem_of_cons in Hf' as [->|Hf'].
        -- destruct Hidx as (_ & b' & img' & loc0' & locs' & Hb' & Hdec' & Hloc' & _).
           rewrite Hfile in Hb'. injection Hb' as <-.
           rewrite Hdec in Hdec'. injection Hdec' as <-. congruence.
        -- eapply Hd; eassumption.
    + intros Hrun.
      destruct (IH (Py.set (Py.splitext_root f) (face_encoding img loc0) known) w kf Hrun)
        as (Ha & Hb & Hc & Hd).
      assert (Hidx : indexed_as (fs w) f (face_encoding img loc0)).
      { split; [exact Himage|]. exists b, img, loc0, locs. repeat split; assumption. }
      split; [|split; [|split]].
      * intros f' Hf' Hi. apply elem_of_cons in Hf' as [->|Hf'];
          [exists b, img; split; assumption|apply Ha; assumption].
      * intros k e Hk. destruct (Hb k e Hk) as [H|(f' & Hf' & H)].
        -- rewrite get_set in H. destruct (decide (k = Py.splitext_root f)) as [->|Hne].
           ++ injection H as <-. right. exists f. split; [left|]. split; [exact Hidx|reflexivity].
           ++ left. exact H.
        -- right. exists f'. split; [right; exact Hf'|exact H].
      * intros k Hk. apply Hc, keys_set_iff. right. exact Hk.
      * intros f' e Hf' Hidx'. apply elem_of_cons in Hf' as [->|Hf'].
        -- apply Hc, keys_set_iff. left. reflexivity.
        -- eapply Hd; eassumption.
Qed.

(** A start that returns has run the scan on the entries of the folder. *)
Lemma startup_inv files0 (w : world) :
  startup files0 = Py.Returns w ->
  fs w = files0 /\
  fst (load_known_faces_from
         (omap (entry_name KNOWN_FACES_FOLDER) (map fst (map_to_list files0)))
         [] (World [] files0 [] [])) = Py.Returns (known_faces w).
Proof.
  unfold startup, IAInvestigation_init, load_known_faces, os_listdir. step_py.
  simpl.
  set (w0 := World [] files0 [] []).
  set (names := omap _ _).
  pose proof (load_known_faces_from_state names [] w0) as Hst.
  destruct (load_known_faces_from names [] w0) as [[kf|e] w1]; simpl in *; [|discriminate].
  intros [= <-]. subst w1. split; reflexivity.
Qed.

Lemma indexed_listed files0 f e :
  (Py.rfind "/" f < 0)%Z -> indexed_as files0 f e ->
  f ∈ omap (entry_name KNOWN_FACES_FOLDER) (map fst (map_to_list files0)).
Proof.
  intros Hsep (_ & b & img & loc0 & locs & Hb & _). apply listdir_known.
  split; [exact Hsep|]. rewrite known_path_of in Hb by exact Hsep. exists b. exact Hb.
Qed.

(** X5. The cache a start builds. An identifier is in the cache exactly
    when it is the name without extension of a file directly in the
    known-faces folder whose name ends in .png, .jpg or .jpeg (in any
    case of letters) and in which a face is detected, and the embedding
    stored for an identifier is the embedding of the first face of such a
    file. The start changes no file. *)
Theorem startup_cache files0 (w : world) :
  startup files0 = Py.Returns w ->
  fs w = files0 /\
  (forall k, k ∈ Py.keys (known_faces w) <->
     exists f e, (Py.rfind "/" f < 0)%Z /\ indexed_as files0 f e /\
                 Py.splitext_root f = k) /\
  (forall k e, Py.get k (known_faces w) = Some e ->
     exists f, (Py.rfind "/" f < 0)%Z /\ indexed_as files0 f e /\
               Py.splitext_root f = k).
Proof.
  intros Hstart. destruct (startup_inv files0 w Hstart) as [Hfs Hrun].
  destruct (load_known_faces_from_inv _ _ _ _ Hrun) as (_ & Hb & _ & Hd).
  simpl in Hb, Hd.
  assert (Hvalues : forall k e, Py.get k (known_faces w) = Some e ->
            exists f, (Py.rfind "/" f < 0)%Z /\ indexed_as files0 f e /\
                      Py.splitext_root f = k).
  { intros k e Hk. destruct (Hb k e Hk) as [H|(f & Hf & Hidx & Hstem)]; [discriminate|].
    exists f. apply listdir_known in Hf as [Hsep _].
    split; [exact Hsep|]. split; [exact Hidx|exact Hstem]. }
  split; [exact Hfs|]. split; [|exact Hvalues].
  intros k. split.
  - intros Hk. apply keys_get in Hk as [e He].
    destruct (Hvalues k e He) as (f & H). exists f, e. exact H.
  - intros (f & e & Hsep & Hidx & <-). eapply Hd; [|exact Hidx].
    eapply indexed_listed; eassumption.
Qed.

(** X6. One file of the known-faces folder with an image name that does
    not decode makes the construction of [IAInvestigation] raise: the
    scan has no handler, so the module does not finish loading. *)
Theorem startup_raises_on_unreadable_image files0 f b e :
  (Py.rfind "/" f < 0)%Z ->
  is_image_name f = true ->
  files0 !! ("known_faces/" +:+ f) = Some b ->
  decode_image b = Py.Raises e ->
  exists e', startup files0 = Py.Raises e'.
Proof.
  intros Hsep Himage Hb Hdec.
  destruct (startup files0) as [w|e'] eqn:Hstart; [|exists e'; reflexivity].
  exfalso. destruct (startup_inv files0 w Hstart) as [_ Hrun].
  destruct (load_known_faces_from_inv _ _ _ _ Hrun) as (Ha & _).
  destruct (Ha f) as (b' & img & Hb' & Hdec'); [|exact Himage|].
  - apply listdir_known. split; [exact Hsep|]. exists b. exact Hb.
  - simpl in Hb'. rewrite known_path_of in Hb' by exact Hsep.
    rewrite Hb in Hb'. injection Hb' as <-. congruence.
Qed.

Lemma plain_identifier_jpg person_id :
  plain_identifier person_id = true -> (Py.rfind "/" (person_id +:+ ".jpg") < 0)%Z.
Proof.
  unfold plain_identifier. intros H. apply andb_true_iff in H as [Hsep _].
  apply Z.ltb_lt in Hsep. unfold Py.rfind in *. rewrite rfind_from_append by lia.
  rewrite Z.add_0_l.
  assert (Hs : Py.rfind_from (Z.of_nat (String.length person_id)) "/" ".jpg" = (-1)%Z)
    by reflexivity.
  rewrite Hs. exact Hsep.
Qed.

(** X7. The identifier survives the file name. For an identifier without
    a path separator and with a character other than the dot, the copy
    [add_known_face] writes is the entry [<person_id>.jpg] of the
    known-faces folder, the folder scan takes that entry for an image and
    gives it the identifier [person_id] back. *)
Theorem identifier_round_trip person_id :
  plain_identifier person_id = true ->
  output_path person_id = "known_faces/" +:+ person_id +:+ ".jpg" /\
  entry_name KNOWN_FACES_FOLDER (output_path person_id) = Some (person_id +:+ ".jpg") /\
  is_image_name (person_id +:+ ".jpg") = true /\
  Py.splitext_root (person_id +:+ ".jpg") = person_id.
Proof.
  intros Hplain. pose proof (plain_identifier_jpg person_id Hplain) as Hsep.
  assert (Hout : output_path person_id = "known_faces/" +:+ person_id +:+ ".jpg")
    by (apply known_path_of, Hsep).
  split; [exact Hout|]. split; [rewrite Hout; apply entry_name_known, Hsep|].
  split; [apply is_image_name_jpg|apply splitext_root_of_copy, Hplain].
Qed.

(** X8. A registration survives a restart. After [add_known_face] has
    written the copy of an image under a plain identifier, a later start
    on the file system it leaves, when it returns, has the identifier in
    its cache, provided a face is detected in the copy. *)
Theorem registration_survives_restart (w : world) image_path person_id b img
    loc0 locs j img' loc0' locs' (w2 : world) :
  fs w !! image_path = Some b ->
  decode_image b = Py.Returns img ->
  face_locations img = loc0 :: locs ->
  pil_save_jpeg b = Py.Returns j ->
  decode_image j = Py.Returns img' ->
  face_locations img' = loc0' :: locs' ->
  plain_identifier person_id = true ->
  startup (fs (snd (add_known_face image_path person_id w))) = Py.Returns w2 ->
  person_id ∈ Py.keys (known_faces w2).
Proof.
  intros Hb Himg Hloc Hsave Himg' Hloc' Hplain Hstart.
  assert (Hfs : fs (snd (add_known_face image_path person_id w)) =
                <[output_path person_id := j]> (fs w)).
  { rewrite add_known_face_run, Hb, Himg.
    unfold face_encodings, face_encodings_at. rewrite Hloc. simpl.
    rewrite Hsave. reflexivity. }
  rewrite Hfs in Hstart.
  destruct (startup_inv _ w2 Hstart) as [_ Hrun].
  destruct (load_known_faces_from_inv _ _ _ _ Hrun) as (_ & _ & _ & Hd).
  rewrite <- (splitext_root_of_copy person_id Hplain).
  apply (Hd (person_id +:+ ".jpg") (face_encoding img' loc0')).
  - apply listdir_known. split; [apply plain_identifier_jpg, Hplain|].
    exists j. rewrite <- known_path_of by (apply plain_identifier_jpg, Hplain).
    apply lookup_insert_eq.
  - split; [apply is_image_name_jpg|]. exists j, img', loc0', locs'.
    split; [apply lookup_insert_eq|]. repeat split; assumption.
Qed.

End LoaderFacts.

(** ** The upload routes *)

Section UploadRouteFacts.

Context {lib : FaceLibrary}.

Ltac step_py :=
  unfold try_py, load_image_file, read_file, write_file, os_remove, lift, gets,
    modify, after_this_request, remove_file,
    mbind, py_mbind, py_bind, mret, py_mret, py_ret in *.

(** The answer of [/ia/recognize_faces] to a request with a named file. *)
Lemma dispatch_recognize_faces_response req (w : world) file :
  Py.get "file" (files req) = Some file ->
  filename file <> "" ->
  let file_path := Py.os_path_join UPLOAD_FOLDER (filename file) in
  let w1 := World (known_faces w) (<[file_path := content file]> (fs w)) [] (analyzed w) in
  exists recognized,
    recognize_faces file_path w1 = (Py.Returns recognized, w1) /\
    full_dispatch_request ia_recognize_faces req w =
      (Py.Returns (success_results (Py.JList (map json_of_recognition recognized))),
       World (known_faces w) (delete file_path (fs w)) [] (analyzed w)).
Proof.
  intros Hfile Hname file_path w1.
  destruct (recognize_faces_returns file_path w1) as [l Hl].
  exists l. split; [exact Hl|].
  unfold full_dispatch_request, ia_recognize_faces. rewrite Hfile.
  destruct (String.eqb_spec (filename file) "") as [|_]; [contradiction|].
  fold file_path.
  unfold mbind, py_mbind, py_bind, modify, write_file. simpl.
  match goal with |- context [recognize_faces file_path ?w0] =>
    change w0 with w1 end.
  rewrite Hl.
  repeat (progress (step_py; simpl)). rewrite lookup_insert_eq. simpl.
  unfold set_fs, set_after_request_funcs; simpl. do 2 f_equal. apply delete_insert_eq.
Qed.

(** The answer of [/ia/add_known_face] to a request with a named file and
    an identifier. *)
Lemma dispatch_add_known_face_response req (w : world) file :
  Py.get "file" (files req) = Some file ->
  Py.get_default "person_id" "" (form req) <> "" ->
  filename file <> "" ->
  let person_id := Py.get_default "person_id" "" (form req) in
  let file_path := Py.os_path_join UPLOAD_FOLDER (filename file) in
  let w1 := World (known_faces w) (<[file_path := content file]> (fs w)) [] (analyzed w) in
  exists ok,
    fst (add_known_face file_path person_id w1) = Py.Returns ok /\
    fst (full_dispatch_request ia_add_known_face req w) =
      Py.Returns (if ok : bool
                  then success_message "Rosto adicionado com sucesso"
                  else error_envelope "Não foi possível adicionar o rosto").
Proof.
  intros Hfile Hpid Hname person_id file_path w1.
  unfold full_dispatch_request, ia_add_known_face.
  rewrite Hfile. fold person_id.
  destruct (String.eqb_spec person_id "") as [|_]; [contradiction|].
  destruct (String.eqb_spec (filename file) "") as [|_]; [contradiction|].
  fold file_path.
  destruct (add_known_face_frame file_path person_id w1 (content file))
    as (ok & w2 & Hrun & [c Hc] & Hfuncs & Han); [apply lookup_insert_eq|].
  exists ok. rewrite Hrun. split; [reflexivity|].
  simpl in Hfuncs, Han.
  repeat (progress (step_py; simpl)).
  change (set_fs _ (set_after_request_funcs [] w)) with w1.
  rewrite Hrun, Hc. simpl.
  destruct ok; simpl; rewrite Hfuncs; reflexivity.
Qed.

(** X9. The two upload routes answer with HTTP code 200 and an envelope
    every request without a file or with a file of empty name, which they
    reject, and every request whose file bears a plain name, which they
    save in the uploads folder; a request to [/ia/recognize_faces] leaves
    the cache and the log of analyses as they were. *)
Theorem upload_routes_answer_200 req (w : world) :
  (forall file, Py.get "file" (files req) = Some file ->
                filename file = "" \/ plain_identifier (filename file) = true) ->
  (exists resp,
     fst (full_dispatch_request ia_recognize_faces req w) = Py.Returns resp /\
     status_code resp = 200 /\ is_envelope resp = true) /\
  (exists resp,
     fst (full_dispatch_request ia_add_known_face req w) = Py.Returns resp /\
     status_code resp = 200 /\ is_envelope resp = true) /\
  known_faces (snd (full_dispatch_request ia_recognize_faces req w)) = known_faces w /\
  analyzed (snd (full_dispatch_request ia_recognize_faces req w)) = analyzed w.
Proof.
  intros _.
  assert (Hrec : exists resp,
            full_dispatch_request ia_recognize_faces req w =
              (Py.Returns resp,
               World (known_faces w)
                     (fs (snd (full_dispatch_request ia_recognize_faces req w)))
                     [] (analyzed w)) /\
            status_code resp = 200 /\ is_envelope resp = true).
  { destruct (Py.get "file" (files req)) as [file|] eqn:Hfile.
    2:{ unfold full_dispatch_request, ia_recognize_faces. rewrite Hfile.
        eexists. split; [reflexivity|]. split; reflexivity. }
    destruct (String.eqb_spec (filename file) "") as [Hn|Hn].
    { unfold full_dispatch_request, ia_recognize_faces. rewrite Hfile, Hn.
      eexists. split; [reflexivity|]. split; reflexivity. }
    destruct (dispatch_recognize_faces_response req w file Hfile Hn) as (l & _ & ->).
    eexists. split; [reflexivity|]. split; reflexivity. }
  destruct Hrec as (resp & Hrun & Hcode & Henv).
  split; [exists resp; rewrite Hrun; repeat split; assumption|].
  split; [|rewrite Hrun; split; reflexivity].
  destruct (Py.get "file" (files req)) as [file|] eqn:Hfile.
  2:{ unfold full_dispatch_request, ia_add_known_face. rewrite Hfile.
      eexists. split; [reflexivity|]. split; reflexivity. }
  destruct (String.eqb_spec (Py.get_default "person_id" "" (form req)) "") as [Hp|Hp].
  { unfold full_dispatch_request, ia_add_known_face. rewrite Hfile, Hp.
    eexists. split; [reflexivity|]. split; reflexivity. }
  destruct (String.eqb_spec (filename file) "") as [Hn|Hn].
  { unfold full_dispatch_request, ia_add_known_face. rewrite Hfile.
    destruct (String.eqb_spec (Py.get_default "person_id" "" (form req)) "");
      [contradiction|].
    rewrite Hn. eexists. split; [reflexivity|]. split; reflexivity. }
  destruct (dispatch_add_known_face_response req w file Hfile Hp Hn) as (ok & _ & ->).
  eexists. split; [reflexivity|]. destruct ok; split; reflexivity.
Qed.

(** X10. What [/ia/add_known_face] rejects before it saves anything, in
    the order of the checks: a request without a file, then one without an
    identifier (also when the name of the file is empty as well), then one
    whose file has an empty name. Each gets its own message, and neither
    the cache nor the file system changes. *)
Theorem ia_add_known_face_rejections req (w : world) :
  let unchanged := World (known_faces w) (fs w) [] (analyzed w) in
  (Py.get "file" (files req) = None ->
   full_dispatch_request ia_add_known_face req w =
     (Py.Returns (error_envelope "Nenhum arquivo enviado"), unchanged)) /\
  (forall file,
     Py.get "file" (files req) = Some file ->
     Py.get "person_id" (form req) = None \/ Py.get "person_id" (form req) = Some "" ->
     full_dispatch_request ia_add_known_face req w =
       (Py.Returns (error_envelope "ID da pessoa não fornecido"), unchanged)) /\
  (forall file person_id,
     Py.get "file" (files req) = Some file ->
     Py.get "person_id" (form req) = Some person_id -> person_id <> "" ->
     filename file = "" ->
     full_dispatch_request ia_add_known_face req w =
       (Py.Returns (error_envelope "Nome de arquivo vazio"), unchanged)).
Proof.
  cbv zeta. unfold full_dispatch_request, ia_add_known_face. split; [|split].
  - intros ->. reflexivity.
  - intros file -> Hpid. unfold Py.get_default.
    destruct Hpid as [->| ->]; reflexivity.
  - intros file person_id -> Hpid Hne Hname. unfold Py.get_default. rewrite Hpid.
    destruct (String.eqb_spec person_id "") as [|_]; [contradiction|].
    rewrite Hname. reflexivity.
Qed.

(** X11. When [/ia/add_known_face] answers with the success message, the
    uploaded image decoded, a face was detected in it and its copy was
    written: the cache maps the identifier to the embedding of the first
    face, and when the name of the upload is a plain name and the
    identifier has no path separator, the copy is the file
    [<person_id>.jpg] of the known-faces folder. *)
Theorem ia_add_known_face_success req (w : world) file :
  Py.get "file" (files req) = Some file ->
  fst (full_dispatch_request ia_add_known_face req w) =
    Py.Returns (success_message "Rosto adicionado com sucesso") ->
  let person_id := Py.get_default "person_id" "" (form req) in
  let w' := snd (full_dispatch_request ia_add_known_face req w) in
  exists img loc0 locs j,
    decode_image (content file) = Py.Returns img /\
    face_locations img = loc0 :: locs /\
    pil_save_jpeg (content file) = Py.Returns j /\
    known_faces w' = Py.set person_id (face_encoding img loc0) (known_faces w) /\
    (plain_identifier (filename file) = true ->
     (Py.rfind "/" person_id < 0)%Z ->
     fs w' !! ("known_faces/" +:+ person_id +:+ ".jpg") = Some j).
Proof.
  intros Hfile Hresp person_id w'.
  set (file_path := Py.os_path_join UPLOAD_FOLDER (filename file)).
  assert (Hp : person_id <> "").
  { intros Hp. unfold full_dispatch_request, ia_add_known_face in Hresp.
    rewrite Hfile in Hresp. fold person_id in Hresp. rewrite Hp in Hresp.
    discriminate. }
  assert (Hn : filename file <> "").
  { intros Hn. unfold full_dispatch_request, ia_add_known_face in Hresp.
    rewrite Hfile in Hresp. fold person_id in Hresp.
    destruct (String.eqb_spec person_id "") as [|_]; [contradiction|].
    rewrite Hn in Hresp. discriminate. }
  destruct (dispatch_add_known_face_response req w file Hfile Hp Hn)
    as (ok & Hok & Hresp').
  rewrite Hresp in Hresp'. destruct ok; [|discriminate].
  subst w'.
  destruct (dispatch_add_known_face_run req w file Hfile Hp Hn) as (_ & _ & _ & ->).
  fold person_id file_path in Hok |- *.
  rewrite add_known_face_run in Hok |- *. simpl in Hok |- *.
  rewrite lookup_insert_eq in Hok |- *.
  destruct (decode_image (content file)) as [img|e]; [|discriminate].
  unfold face_encodings, face_encodings_at in *.
  destruct (face_locations img) as [|loc0 locs] eqn:Hloc; [discriminate|].
  simpl in Hok |- *.
  destruct (pil_save_jpeg (content file)) as [j|e]; [|discriminate].
  exists img, loc0, locs, j. simpl.
  split; [reflexivity|]. split; [exact Hloc|]. split; [reflexivity|].
  split; [reflexivity|].
  intros Hplain Hsep.
  rewrite <- (known_path_of (person_id +:+ ".jpg")) by (apply no_sep_append_jpg, Hsep).
  fold (output_path person_id).
  assert (Hout : output_path person_id <> file_path).
  { intros Heq. pose proof (output_path_not_in_uploads person_id) as Hpre.
    rewrite Heq in Hpre. unfold file_path, Py.os_path_join in Hpre.
    unfold plain_identifier in Hplain. apply andb_prop in Hplain as [Hnosep _].
    apply Z.ltb_lt in Hnosep. rewrite (no_sep_not_absolute _ Hnosep) in Hpre.
    change (String.prefix "uploads/" ("uploads/" +:+ filename file) = false) in Hpre.
    rewrite prefix_append in Hpre. discriminate. }
  rewrite lookup_delete_ne by congruence. apply lookup_insert_eq.
Qed.

(** X12. An upload whose name starts with a slash is not saved under the
    uploads folder: [os.path.join] gives the name itself, so
    [/ia/recognize_faces] writes the upload to that absolute path and
    removes it, and a file that was at that path before the request is
    gone after it. Every other file is as it was. *)
Theorem absolute_upload_name_removes_file req (w : world) file :
  Py.get "file" (files req) = Some file ->
  Py.starts_with_sep (filename file) = true ->
  fs (snd (full_dispatch_request ia_recognize_faces req w)) =
    delete (filename file) (fs w).
Proof.
  intros Hfile Habs.
  assert (Hn : filename file <> "") by (intros Hn; rewrite Hn in Habs; discriminate).
  destruct (dispatch_recognize_faces_response req w file Hfile Hn) as (l & _ & ->).
  simpl. unfold Py.os_path_join. rewrite Habs. reflexivity.
Qed.

End UploadRouteFacts.

(** ** The uploads folder after a request *)

Section UploadFolderFacts.

Context {lib : FaceLibrary}.

(** C7, for an identifier without a path separator. A request to
    [/ia/recognize_faces] or [/ia/add_known_face] that saves its upload
    leaves no file at the path it saved to. A request to
    [/ia/recognize_faces] leaves no file in the uploads folder that was not
    there before, and so does a request to [/ia/add_known_face] whose
    [person_id] has no path separator: the copy it writes is then a file of
    the known-faces folder. *)
Theorem upload_removed_after_request req (w : world) file :
  Py.get "file" (files req) = Some file ->
  filename file <> "" ->
  let file_path := Py.os_path_join UPLOAD_FOLDER (filename file) in
  let person_id := Py.get_default "person_id" "" (form req) in
  (let w' := snd (full_dispatch_request ia_recognize_faces req w) in
   fs w' !! file_path = None /\
   forall p, in_uploads_folder p = true ->
             is_Some (fs w' !! p) -> is_Some (fs w !! p)) /\
  (person_id <> "" ->
   let w' := snd (full_dispatch_request ia_add_known_face req w) in
   fs w' !! file_path = None /\
   ((Py.rfind "/" person_id < 0)%Z ->
    forall p, in_uploads_folder p = true ->
              is_Some (fs w' !! p) -> is_Some (fs w !! p))).
Proof.
  intros Hfile Hname file_path person_id. split.
  - destruct (dispatch_recognize_faces_response req w file Hfile Hname) as (l & _ & ->).
    fold file_path. simpl. split; [apply lookup_delete_eq|].
    intros p _ Hp. destruct (decide (file_path = p)) as [<-|Hne].
    + rewrite lookup_delete_eq in Hp. destruct Hp as [? [=]].
    + rewrite lookup_delete_ne in Hp by exact Hne. exact Hp.
  - intros Hpid.
    destruct (dispatch_add_known_face_run req w file Hfile Hpid Hname)
      as (resp & _ & _ & ->).
    fold file_path person_id. simpl. split; [apply lookup_delete_eq|].
    intros Hsep p Hup Hp. destruct (decide (file_path = p)) as [<-|Hne].
    { rewrite lookup_delete_eq in Hp. destruct Hp as [? [=]]. }
    rewrite lookup_delete_ne in Hp by exact Hne.
    rewrite add_known_face_run in Hp. simpl in Hp.
    rewrite lookup_insert_eq in Hp.
    assert (Hbase : forall m : gmap string Py.bytes,
               m = <[file_path := content file]> (fs w) ->
               is_Some (m !! p) -> is_Some (fs w !! p)).
    { intros m -> Hm. rewrite lookup_insert_ne in Hm by exact Hne. exact Hm. }
    destruct (decode_image (content file)) as [img|e];
      [|eapply Hbase; [reflexivity|exact Hp]].
    destruct (face_encodings img) as [|e0 es];
      [eapply Hbase; [reflexivity|exact Hp]|].
    destruct (pil_save_jpeg (content file)) as [j|e];
      [|eapply Hbase; [reflexivity|exact Hp]].
    simpl in Hp.
    assert (Hout : output_path person_id <> p).
    { intros <-. rewrite (copy_not_in_uploads_folder _ Hsep) in Hup. discriminate. }
    rewrite lookup_insert_ne in Hp by exact Hout.
    eapply Hbase; [reflexivity|exact Hp].
Qed.

End UploadFolderFacts.

(** ** The JSON routes *)

Section JsonRouteFacts.

Context {lib : FaceLibrary} {nlp : NLPModels} {qa : QAModel} {ai : OpenAI}.

Ltac step_py :=
  unfold try_py, load_image_file, read_file, write_file, os_remove, lift, gets,
    modify, after_this_request, remove_file,
    mbind, py_mbind, py_bind, mret, py_mret, py_ret in *.

Lemma words_set_list_set g entities :
  words_set g entities (list_set (words_of_group g entities)).
Proof.
  unfold words_set, list_set, words_of_group. split; [apply NoDup_remove_dups|].
  intros s. rewrite elem_of_remove_dups. split.
  - intros Hin. apply list_elem_of_In, in_map_iff in Hin as (e & Hw & He).
    apply list_elem_of_In, list_elem_of_filter in He as [Hg He].
    exists e. split; [exact He|]. split; assumption.
  - intros (e & He & Hg & Hw). apply list_elem_of_In, in_map_iff.
    exists e. split; [exact Hw|]. apply list_elem_of_In, list_elem_of_filter.
    split; assumption.
Qed.

(** X13. The result of a text analysis that succeeds: the entities as the
    pipeline gave them, the first sentiment, and for each of the groups
    PER, LOC, ORG and DATE the words of the entities of the group, each
    word once. The call is logged and changes nothing else. *)
Theorem analyze_text_groups (w : world) text ner sa entities sentiment rest :
  nlp_ner = Some ner ->
  sentiment_analyzer = Some sa ->
  ner text = Py.Returns entities ->
  sa text = Py.Returns (sentiment :: rest) ->
  exists people locations organizations dates,
    analyze_text text w =
      (Py.Returns
         (Py.JDict
            [("entities", Py.JList (map entity_json entities));
             ("sentiment", sentiment);
             ("people", json_strs people);
             ("locations", json_strs locations);
             ("organizations", json_strs organizations);
             ("dates", json_strs dates)]),
       World (known_faces w) (fs w) (after_request_funcs w) (text :: analyzed w)) /\
    words_set "PER" entities people /\
    words_set "LOC" entities locations /\
    words_set "ORG" entities organizations /\
    words_set "DATE" entities dates.
Proof.
  intros Hner Hsa Hentities Hsentiment.
  exists (list_set (words_of_group "PER" entities)),
         (list_set (words_of_group "LOC" entities)),
         (list_set (words_of_group "ORG" entities)),
         (list_set (words_of_group "DATE" entities)).
  split; [|repeat split; apply words_set_list_set].
  unfold analyze_text. step_py. simpl. rewrite Hner, Hsa. simpl.
  unfold mbind, Py.result_mbind, Py.result_bind. rewrite Hentities, Hsentiment.
  reflexivity.
Qed.

(** X14. A text analysis that fails is answered as a success. For a text
    with a truth value, [/ia/analyze_text] answers with status "success"
    and HTTP code 200 also when the NLP model is not available and when
    the NER pipeline raises; the failure is the "error" entry of the
    results. *)
Theorem ia_analyze_text_failure_in_success req (w : world) kv text :
  json_body req = Py.JDict kv ->
  Py.get "text" kv = Some text ->
  Py.truthy text = true ->
  (nlp_ner = None ->
   fst (full_dispatch_request ia_analyze_text req w) =
     Py.Returns
       (Response
          (Py.JDict [("status", Py.JStr "success");
                     ("results",
                      Py.JDict [("error", Py.JStr "Modelo NLP não disponível")])])
          200)) /\
  (forall ner e,
     nlp_ner = Some ner -> ner text = Py.Raises e ->
     fst (full_dispatch_request ia_analyze_text req w) =
       Py.Returns
         (Response
            (Py.JDict [("status", Py.JStr "success");
                       ("results", Py.JDict [("error", Py.JStr (Py.exn_str e))])])
            200)).
Proof.
  intros Hbody Htext Htruthy.
  unfold full_dispatch_request, ia_analyze_text, analyze_text.
  rewrite Hbody. repeat (progress (step_py; simpl)).
  unfold Py.get_default. rewrite Htext, Htruthy. simpl. split.
  - intros ->. reflexivity.
  - intros ner e -> Hraise. simpl.
    unfold mbind, Py.result_mbind, Py.result_bind. rewrite Hraise. reflexivity.
Qed.

(** X15. A request to [/ia/analyze_text], whatever its body, changes
    neither the cache nor the file system. *)
Theorem ia_analyze_text_frame req (w : world) :
  known_faces (snd (full_dispatch_request ia_analyze_text req w)) = known_faces w /\
  fs (snd (full_dispatch_request ia_analyze_text req w)) = fs w.
Proof.
  unfold full_dispatch_request, ia_analyze_text, analyze_text.
  repeat (progress (step_py; simpl)).
  destruct (Py.json_get _ _ _) as [text|e]; simpl; [|split; reflexivity].
  destruct (Py.truthy text); simpl; [|split; reflexivity].
  destruct nlp_ner; split; reflexivity.
Qed.

(** X16. [/ia/answer_question] rejects a JSON object whose context or
    question is missing or has no truth value with status "error" and HTTP
    code 400, whatever the question-answering pipeline is, and changes
    nothing. *)
Theorem ia_answer_question_rejected req (w : world) kv :
  json_body req = Py.JDict kv ->
  Py.truthy (Py.get_default "context" (Py.JStr "") kv) = false \/
  Py.truthy (Py.get_default "question" (Py.JStr "") kv) = false ->
  full_dispatch_request ia_answer_question req w =
    (Py.Returns
       (Response
          (Py.JDict [("status", Py.JStr "error");
                     ("message", Py.JStr "Contexto ou pergunta ausentes")])
          400),
     World (known_faces w) (fs w) [] (analyzed w)).
Proof.
  intros Hbody Hfalsy. unfold full_dispatch_request, ia_answer_question.
  rewrite Hbody. repeat (progress (step_py; simpl)).
  destruct Hfalsy as [-> | ->]; [reflexivity|].
  rewrite orb_true_r. reflexivity.
Qed.

(** X17. [answer_question] does not raise. Without a pipeline the result
    is an error entry; a pipeline that raises gives its message as the
    error; a pipeline result that lacks one of 'answer', 'score', 'start'
    and 'end' gives the error of the missing key; a complete result gives
    exactly these four entries. *)
Theorem answer_question_results context question :
  (qa_pipeline = None ->
   answer_question context question =
     Py.JDict [("error", Py.JStr "Modelo Q&A não disponível")]) /\
  (forall pipeline e,
     qa_pipeline = Some pipeline -> pipeline question context = Py.Raises e ->
     answer_question context question = Py.JDict [("error", Py.JStr (Py.exn_str e))]) /\
  (forall pipeline result,
     qa_pipeline = Some pipeline -> pipeline question context = Py.Returns result ->
     (forall answer score start end_,
        Py.get "answer" result = Some answer -> Py.get "score" result = Some score ->
        Py.get "start" result = Some start -> Py.get "end" result = Some end_ ->
        answer_question context question =
          Py.JDict [("answer", answer); ("score", score);
                    ("start", start); ("end", end_)]) /\
     (forall key, key ∈ ["answer"; "score"; "start"; "end"] ->
        Py.get key result = None ->
        exists missing,
          Py.get missing result = None /\
          answer_question context question =
            Py.JDict [("error", Py.JStr ("'" +:+ missing +:+ "'"))])).
Proof.
  unfold answer_question. split; [|split].
  - intros ->. reflexivity.
  - intros pipeline e -> Hraise.
    unfold mbind, Py.result_mbind, Py.result_bind. rewrite Hraise. reflexivity.
  - intros pipeline result -> Hres.
    unfold mbind, Py.result_mbind, Py.result_bind, dict_getitem. rewrite Hres. split.
    + intros answer score start end_ -> -> -> ->. reflexivity.
    + intros key Hkey Hnone.
      destruct (Py.get "answer" result) as [answer|] eqn:Ha.
      2:{ exists "answer". split; [exact Ha|reflexivity]. }
      destruct (Py.get "score" result) as [score|] eqn:Hs.
      2:{ exists "score". split; [exact Hs|reflexivity]. }
      destruct (Py.get "start" result) as [start|] eqn:Hst.
      2:{ exists "start". split; [exact Hst|reflexivity]. }
      destruct (Py.get "end" result) as [end_|] eqn:He.
      2:{ exists "end". split; [exact He|reflexivity]. }
      exfalso. repeat (apply elem_of_cons in Hkey as [->|Hkey]; [congruence|]).
      inversion Hkey.
Qed.

(** X18. Without a usable API key, hypothesis generation does not reach
    the API. When the environment variable is not set, is empty or is the
    placeholder, [/ia/generate_hypotheses] answers a request with evidence
    with status "success", HTTP code 200 and the error "Chave da API
    OpenAI não configurada" as its results, whatever the API would
    return. *)
Theorem ia_generate_hypotheses_without_key req (w : world) kv evidence :
  json_body req = Py.JDict kv ->
  Py.get "evidence" kv = Some evidence ->
  Py.truthy evidence = true ->
  getenv_OPENAI_API_KEY = None \/ getenv_OPENAI_API_KEY = Some "" \/
  getenv_OPENAI_API_KEY = Some "SUA_CHAVE_OPENAI" ->
  full_dispatch_request ia_generate_hypotheses req w =
    (Py.Returns
       (Response
          (Py.JDict [("status", Py.JStr "success");
                     ("results",
                      Py.JDict [("error", Py.JStr "Chave da API OpenAI não configurada")])])
          200),
     World (known_faces w) (fs w) [] (analyzed w)).
Proof.
  intros Hbody Hev Htruthy Hkey.
  unfold full_dispatch_request, ia_generate_hypotheses, generate_investigation_hypotheses,
    OPENAI_API_KEY.
  rewrite Hbody. repeat (progress (step_py; simpl)).
  unfold Py.get_default. rewrite Hev, Htruthy. simpl.
  destruct Hkey as [-> | [-> | ->]]; reflexivity.
Qed.

(** X19. [/ia/generate_hypotheses] rejects a JSON object without evidence,
    or with evidence that has no truth value (an empty object), with
    status "error" and HTTP code 400, and changes nothing. *)
Theorem ia_generate_hypotheses_rejected req (w : world) kv :
  json_body req = Py.JDict kv ->
  Py.truthy (Py.get_default "evidence" (Py.JDict []) kv) = false ->
  full_dispatch_request ia_generate_hypotheses req w =
    (Py.Returns
       (Response
          (Py.JDict [("status", Py.JStr "error");
                     ("message", Py.JStr "Nenhuma evidência fornecida")])
          400),
     World (known_faces w) (fs w) [] (analyzed w)).
Proof.
  intros Hbody Hfalsy. unfold full_dispatch_request, ia_generate_hypotheses.
  rewrite Hbody. repeat (progress (step_py; simpl)). rewrite Hfalsy. reflexivity.
Qed.

End JsonRouteFacts.

(** ** The social connections: platforms, relations, ties and totals *)

Module SocialMoreFacts.

Import Social SocialNotions.

Lemma set_add_elem x y s : x ∈ set_add y s <-> x = y \/ x ∈ s.
Proof.
  unfold set_add. destruct (decide (y ∈ s)) as [Hin|Hnin].
  - split; [tauto|]. intros [->|H]; assumption.
  - rewrite elem_of_app, list_elem_of_singleton. tauto.
Qed.

Lemma set_add_NoDup y s : NoDup s -> NoDup (set_add y s).
Proof.
  intros Hnd. unfold set_add. destruct (decide (y ∈ s)) as [Hin|Hnin]; [exact Hnd|].
  apply NoDup_app. split; [exact Hnd|]. split; [|apply NoDup_singleton].
  intros x Hx Hx'. apply list_elem_of_singleton in Hx'. subst x. contradiction.
Qed.

Lemma visit_fold_step platform cs : forall connections,
  fold_left (visit platform) cs connections =
  fold_left step (map (pair platform) cs) connections.
Proof.
  induction cs as [|c cs IH]; intros connections; simpl; [reflexivity|]. apply IH.
Qed.

Lemma collect_step data : forall connections,
  fold_left visit_platform data connections = fold_left step (entries data) connections.
Proof.
  induction data as [|item data IH]; intros connections; simpl; [reflexivity|].
  unfold entries in *. simpl. rewrite fold_left_app, IH. f_equal.
  unfold visit_platform. destruct (Py.get "connections" (snd item)) as [cs|];
    [apply visit_fold_step|reflexivity].
Qed.

Lemma step_platforms connections pc name :
  platforms_of name (step connections pc) =
  if decide (name_of (snd pc) = name)
  then set_add (fst pc) (platforms_of name connections)
  else platforms_of name connections.
Proof.
  unfold step, visit, platforms_of. fold (name_of (snd pc)).
  destruct (decide (name_of (snd pc) = name)) as [<-|Hne].
  - rewrite SocialFacts.get_alter_eq. unfold Py.mem.
    destruct (Py.get (name_of (snd pc)) connections) as [i|] eqn:Hget.
    + rewrite Hget. reflexivity.
    + rewrite get_set_eq. reflexivity.
  - rewrite SocialFacts.get_alter_ne by congruence.
    destruct (Py.mem (name_of (snd pc)) connections); [reflexivity|].
    rewrite get_set_ne by congruence. reflexivity.
Qed.

Lemma step_relations connections pc name :
  relations_of name (step connections pc) =
  if decide (name_of (snd pc) = name)
  then set_add (relation_of (snd pc)) (relations_of name connections)
  else relations_of name connections.
Proof.
  unfold step, visit, relations_of. fold (name_of (snd pc)) (relation_of (snd pc)).
  destruct (decide (name_of (snd pc) = name)) as [<-|Hne].
  - rewrite SocialFacts.get_alter_eq. unfold Py.mem.
    destruct (Py.get (name_of (snd pc)) connections) as [i|] eqn:Hget.
    + rewrite Hget. reflexivity.
    + rewrite get_set_eq. reflexivity.
  - rewrite SocialFacts.get_alter_ne by congruence.
    destruct (Py.mem (name_of (snd pc)) connections); [reflexivity|].
    rewrite get_set_ne by congruence. reflexivity.
Qed.

Lemma fold_step_sets es name : forall connections,
  NoDup (platforms_of name connections) ->
  NoDup (relations_of name connections) ->
  let all := fold_left step es connections in
  NoDup (platforms_of name all) /\
  NoDup (relations_of name all) /\
  (forall p, p ∈ platforms_of name all <->
     p ∈ platforms_of name connections \/
     exists c, (p, c) ∈ es /\ name_of c = name) /\
  (forall r, r ∈ relations_of name all <->
     r ∈ relations_of name connections \/
     exists p c, (p, c) ∈ es /\ name_of c = name /\ relation_of c = r).
Proof.
  induction es as [|[p0 c0] es IH]; intros connections Hp Hr; simpl.
  - split; [exact Hp|]. split; [exact Hr|]. split.
    + intros p. split; [tauto|]. intros [H|(c & Hc & _)]; [exact H|inversion Hc].
    + intros r. split; [tauto|]. intros [H|(p & c & Hc & _)]; [exact H|inversion Hc].
  - destruct (IH (step connections (p0, c0))) as (Hp' & Hr' & Hps & Hrs).
    { rewrite step_platforms. simpl. destruct (decide _); [apply set_add_NoDup|]; exact Hp. }
    { rewrite step_relations. simpl. destruct (decide _); [apply set_add_NoDup|]; exact Hr. }
    split; [exact Hp'|]. split; [exact Hr'|]. split.
    + intros p. rewrite Hps, step_platforms. simpl.
      destruct (decide (name_of c0 = name)) as [Hn|Hn].
      * rewrite set_add_elem. split.
        -- intros [[->|H]|(c & Hc & Hcn)].
           ++ right. exists c0. split; [left|exact Hn].
           ++ left. exact H.
           ++ right. exists c. split; [right; exact Hc|exact Hcn].
        -- intros [H|(c & Hc & Hcn)]; [left; right; exact H|].
           apply elem_of_cons in Hc as [[= -> ->]|Hc]; [left; left; reflexivity|].
           right. exists c. split; assumption.
      * split.
        -- intros [H|(c & Hc & Hcn)]; [left; exact H|].
           right. exists c. split; [right; exact Hc|exact Hcn].
        -- intros [H|(c & Hc & Hcn)]; [left; exact H|].
           apply elem_of_cons in Hc as [[= -> ->]|Hc]; [contradiction|].
           right. exists c. split; assumption.
    + intros r. rewrite Hrs, step_relations. simpl.
      destruct (decide (name_of c0 = name)) as [Hn|Hn].
      * rewrite set_add_elem. split.
        -- intros [[->|H]|(p & c & Hc & Hcn & Hcr)].
           ++ right. exists p0, c0. split; [left|]. split; [exact Hn|reflexivity].
           ++ left. exact H.
           ++ right. exists p, c. split; [right; exact Hc|]. split; assumption.
        -- intros [H|(p & c & Hc & Hcn & Hcr)]; [left; right; exact H|].
           apply elem_of_cons in Hc as [[= -> ->]|Hc];
             [left; left; symmetry; exact Hcr|].
           right. exists p, c. split; [exact Hc|]. split; assumption.
      * split.
        -- intros [H|(p & c & Hc & Hcn & Hcr)]; [left; exact H|].
           right. exists p, c. split; [right; exact Hc|]. split; assumption.
        -- intros [H|(p & c & Hc & Hcn & Hcr)]; [left; exact H|].
           apply elem_of_cons in Hc as [[= -> ->]|Hc]; [contradiction|].
           right. exists p, c. split; [exact Hc|]. split; assumption.
Qed.

(** X20. What is recorded with a connection. For each name among the
    connections, the platforms recorded are, once each, the platforms with
    an entry that bears the name, and the relations recorded are, once
    each, the relations of the entries that bear the name. *)
Theorem analyze_social_connections_sets (data : social_data) name info :
  (name, info) ∈ all_connections (analyze_social_connections data) ->
  NoDup (platforms info) /\
  NoDup (relations info) /\
  (forall p, p ∈ platforms info <->
     exists c, (p, c) ∈ entries data /\ name_of c = name) /\
  (forall r, r ∈ relations info <->
     exists p c, (p, c) ∈ entries data /\ name_of c = name /\ relation_of c = r).
Proof.
  unfold analyze_social_connections. simpl. intros Hin.
  destruct (SocialFacts.collect_from data []) as (Hnd & _ & _); [constructor| |].
  { intros k. unfold occ. simpl. split; [intros H; inversion H|lia]. }
  fold (collect data) in Hnd.
  pose proof (SocialFacts.get_of_elem _ _ _ Hnd Hin) as Hget.
  destruct (fold_step_sets (entries data) name []) as (Hp & Hr & Hps & Hrs);
    [constructor|constructor|].
  rewrite <- collect_step in Hp, Hr, Hps, Hrs. fold (collect data) in Hp, Hr, Hps, Hrs.
  unfold platforms_of, relations_of in Hp, Hr, Hps, Hrs. rewrite Hget in Hp, Hr, Hps, Hrs.
  simpl in Hps, Hrs.
  split; [exact Hp|]. split; [exact Hr|]. split.
  - intros p. rewrite Hps. split; [|tauto]. intros [H|H]; [inversion H|exact H].
  - intros r. rewrite Hrs. split; [|tauto]. intros [H|H]; [inversion H|exact H].
Qed.

Lemma insert_desc_filter n x l :
  filter (fun y : string * conn_info => occurrences (snd y) = n) (insert_desc x l) =
  filter (fun y : string * conn_info => occurrences (snd y) = n) (x :: l).
Proof.
  induction l as [|y l IH]; simpl; [reflexivity|].
  destruct (occurrences (snd x) <? occurrences (snd y))%nat eqn:Hlt; [|reflexivity].
  apply Nat.ltb_lt in Hlt.
  rewrite (filter_cons _ y), IH, !filter_cons.
  destruct (decide (occurrences (snd y) = n)) as [Hy|Hy];
    destruct (decide (occurrences (snd x) = n)) as [Hx|Hx]; try reflexivity. lia.
Qed.

Lemma sorted_desc_filter n l :
  filter (fun y : string * conn_info => occurrences (snd y) = n) (sorted_desc l) =
  filter (fun y : string * conn_info => occurrences (snd y) = n) l.
Proof.
  induction l as [|x l IH]; simpl; [reflexivity|].
  rewrite insert_desc_filter, !filter_cons, IH. reflexivity.
Qed.

(** X21. Ties keep the order of discovery. For each count, the top
    connections with that count are the first of the connections with
    that count, in the order in which the names were first met: the
    ranking never puts a name before an earlier name of the same
    count. *)
Theorem top_connections_stable (data : social_data) n :
  let r := analyze_social_connections data in
  filter (fun y : string * conn_info => occurrences (snd y) = n) (top_connections r)
  `prefix_of`
  filter (fun y : string * conn_info => occurrences (snd y) = n) (all_connections r).
Proof.
  cbv zeta. unfold analyze_social_connections.
  cbn [all_connections top_connections]. unfold Py.dict.
  rewrite <- (sorted_desc_filter n (collect data)).
  rewrite <- (take_drop 5 (sorted_desc (collect data))) at 2.
  rewrite filter_app. apply prefix_app_r. reflexivity.
Qed.

Lemma total_alter_present k (d : Py.dict conn_info) f :
  (forall i, occurrences (f i) = occurrences i + 1) ->
  k ∈ Py.keys d -> total (Py.alter f k d) = total d + 1.
Proof.
  intros Hf. unfold total. induction d as [|[k' i] d IH]; simpl; intros Hin.
  - inversion Hin.
  - destruct (decide (k = k')) as [->|Hne]; simpl.
    + rewrite Hf. lia.
    + apply elem_of_cons in Hin as [->|Hin]; [contradiction|]. rewrite IH by exact Hin. lia.
Qed.

Lemma total_set_absent k i (d : Py.dict conn_info) :
  k ∉ Py.keys d -> total (Py.set k i d) = total d + occurrences i.
Proof.
  unfold total. induction d as [|[k' i'] d IH]; simpl; intros Hnin; [lia|].
  destruct (decide (k = k')) as [->|Hne]; simpl.
  - exfalso. apply Hnin. left.
  - rewrite IH; [lia|]. intros Hin. apply Hnin. right. exact Hin.
Qed.

Lemma step_total connections pc : total (step connections pc) = total connections + 1.
Proof.
  unfold step, visit. fold (name_of (snd pc)).
  destruct (Py.mem (name_of (snd pc)) connections) eqn:Hmem.
  - apply total_alter_present; [reflexivity|]. apply SocialFacts.mem_keys, Hmem.
  - assert (Hnin : name_of (snd pc) ∉ Py.keys connections).
    { intros Hin. apply SocialFacts.mem_keys in Hin. congruence. }
    rewrite total_alter_present; [|reflexivity|].
    + rewrite total_set_absent by exact Hnin. simpl. lia.
    + rewrite keys_set_absent by exact Hnin. apply elem_of_app. right. left.
Qed.

(** X22. No entry is lost or counted twice: the counts of all connections
    add up to the number of connection entries of the input. *)
Theorem analyze_social_connections_total (data : social_data) :
  total (all_connections (analyze_social_connections data)) = length (entries data).
Proof.
  unfold analyze_social_connections. simpl. unfold collect. rewrite collect_step.
  assert (H : forall es connections,
             total (fold_left step es connections) = total connections + length es).
  { induction es as [|pc es IH]; intros connections; simpl; [lia|].
    rewrite IH, step_total. lia. }
  rewrite H. reflexivity.
Qed.

End SocialMoreFacts.

(** ** Concrete runs of the further properties *)

Module MoreDemoFacts.

Import Demo MoreDemo.

#[local] Existing Instance face_lib.

(** The identifier ["."] does not come back from its file name. *)
Example dot_identifier_lost : Py.splitext_root ("." +:+ ".jpg") = "..jpg".
Proof. reflexivity. Qed.

(** X1 on the cache of two identities and a photo with two faces. *)
Lemma recognize_faces_first_best_match_witness :
  exists recognized,
    recognize_faces "uploads/q.jpg" (world_upload "uploads/q.jpg" photo_two) =
      (Py.Returns recognized, world_upload "uploads/q.jpg" photo_two) /\
    length recognized = 2.
Proof.
  assert (Hfile : fs (world_upload "uploads/q.jpg" photo_two) !! "uploads/q.jpg" =
                  Some photo_two) by (vm_compute; reflexivity).
  destruct (recognize_faces_first_best_match (lib := face_lib)
              (world_upload "uploads/q.jpg" photo_two) "uploads/q.jpg" photo_two
              [12; 200]%Z Hfile eq_refl ltac:(discriminate))
    as (recognized & Hrun & Hlen & _).
  exists recognized. split; [exact Hrun|exact Hlen].
Defined.

(** X2 on a path without a file. *)
Lemma recognize_faces_no_face_witness :
  recognize_faces "uploads/nada.jpg" world_two = (Py.Returns [], world_two).
Proof.
  apply (recognize_faces_no_face (lib := face_lib) world_two "uploads/nada.jpg").
  left. vm_compute. reflexivity.
Defined.

(** X3 on a file that is not an image. *)
Lemma add_known_face_unreadable_witness :
  add_known_face "known_faces/ruim.png" "zed"
    (@World face_lib [] files_unreadable [] []) =
  (Py.Returns false, @World face_lib [] files_unreadable [] []).
Proof.
  apply (add_known_face_unreadable (lib := face_lib)).
  right. exists [Byte.x00], (Py.Exn "UnidentifiedImageError" "cannot identify image file").
  split; [vm_compute; reflexivity|reflexivity].
Defined.

(** X4 on a new photo registered as ["cris"]. *)
Lemma registered_face_is_recognized_witness :
  exists recognized r key e,
    recognize_faces "uploads/novo.jpg"
      (snd (add_known_face "uploads/novo.jpg" "cris"
              (world_upload "uploads/novo.jpg" photo_ana))) =
      (Py.Returns recognized,
       snd (add_known_face "uploads/novo.jpg" "cris"
              (world_upload "uploads/novo.jpg" photo_ana))) /\
    recognized !! 0 = Some r /\ name r = key /\
    (key, e) ∈ known_faces
                 (snd (add_known_face "uploads/novo.jpg" "cris"
                         (world_upload "uploads/novo.jpg" photo_ana))).
Proof.
  assert (Hfile : fs (world_upload "uploads/novo.jpg" photo_ana) !! "uploads/novo.jpg" =
                  Some photo_ana) by (vm_compute; reflexivity).
  assert (Hout : output_path "cris" <> "uploads/novo.jpg") by discriminate.
  assert (Hself : (encoding_distance (face_encoding (FaceLibrary := face_lib)
                                        [10%Z] (0, 1, 1, 0)%Z)
                                     (face_encoding (FaceLibrary := face_lib)
                                        [10%Z] (0, 1, 1, 0)%Z) <= tolerance)%Q).
  { apply Qle_bool_iff. reflexivity. }
  destruct (registered_face_is_recognized (lib := face_lib)
              (world_upload "uploads/novo.jpg" photo_ana) "uploads/novo.jpg" "cris"
              photo_ana [10%Z] (0, 1, 1, 0)%Z [] Hfile eq_refl eq_refl Hout Hself)
    as (recognized & r & key & e & Hrun & Hr & _ & Hin & Hname & _).
  exists recognized, r, key, e. repeat split; assumption.
Defined.

(** X5 on the folder of two photos. *)
Lemma startup_cache_witness :
  fs world_two = files_two /\
  forall k e, Py.get k (known_faces world_two) = Some e ->
    exists f, (Py.rfind "/" f < 0)%Z /\ indexed_as files_two f e /\
              Py.splitext_root f = k.
Proof.
  assert (Hstart : startup (lib := face_lib) files_two = Py.Returns world_two)
    by (vm_compute; reflexivity).
  destruct (startup_cache (lib := face_lib) files_two world_two Hstart)
    as (Hfs & _ & Hvalues).
  split; [exact Hfs|exact Hvalues].
Defined.

(** X6 on a folder with a file that is not an image. *)
Lemma startup_raises_on_unreadable_image_witness :
  exists e', startup (lib := face_lib) files_unreadable = Py.Raises e'.
Proof.
  assert (Hfile : files_unreadable !! ("known_faces/" +:+ "ruim.png") = Some [Byte.x00])
    by (vm_compute; reflexivity).
  apply (startup_raises_on_unreadable_image (lib := face_lib) files_unreadable
           "ruim.png" [Byte.x00]
           (Py.Exn "UnidentifiedImageError" "cannot identify image file")
           ltac:(vm_compute; reflexivity) eq_refl Hfile eq_refl).
Defined.

(** X7 on the identifier ["ana.silva"]. *)
Lemma identifier_round_trip_witness :
  output_path "ana.silva" = "known_faces/ana.silva.jpg" /\
  Py.splitext_root "ana.silva.jpg" = "ana.silva".
Proof.
  destruct (identifier_round_trip "ana.silva" eq_refl) as (Hout & _ & _ & Hroot).
  split; [exact Hout|exact Hroot].
Defined.

(** X8 on a new photo registered as ["cris"] and a restart. *)
Lemma registration_survives_restart_witness :
  match startup (lib := face_lib)
          (fs (snd (add_known_face "uploads/novo.jpg" "cris"
                      (world_upload "uploads/novo.jpg" photo_ana)))) with
  | Py.Returns w2 => "cris" ∈ Py.keys (known_faces w2)
  | Py.Raises _ => False
  end.
Proof.
  assert (Hfile : fs (world_upload "uploads/novo.jpg" photo_ana) !! "uploads/novo.jpg" =
                  Some photo_ana) by (vm_compute; reflexivity).
  destruct (startup (lib := face_lib) _) as [w2|e] eqn:Hstart.
  - apply (registration_survives_restart (lib := face_lib)
             (world_upload "uploads/novo.jpg" photo_ana) "uploads/novo.jpg" "cris"
             photo_ana [10%Z] (0, 1, 1, 0)%Z [] photo_ana [10%Z] (0, 1, 1, 0)%Z [] w2
             Hfile eq_refl eq_refl eq_refl eq_refl eq_refl eq_refl Hstart).
  - vm_compute in Hstart. discriminate.
Defined.

(** X9 on a request with a photo of two faces. *)
Lemma upload_routes_answer_200_witness :
  exists resp,
    fst (full_dispatch_request ia_recognize_faces (upload "q.jpg" photo_two) world_two) =
      Py.Returns resp /\
    status_code resp = 200 /\ is_envelope resp = true.
Proof.
  apply (proj1 (upload_routes_answer_200 (lib := face_lib)
                  (upload "q.jpg" photo_two) world_two
                  ltac:(intros file [= <-]; right; reflexivity))).
Defined.

(** X11 on a request that registers a photo as ["bia"]. *)
Lemma ia_add_known_face_success_witness :
  known_faces (snd (full_dispatch_request ia_add_known_face
                      (upload_as "q.jpg" photo_ana "bia") world_two)) =
    [("ana", 10%Z); ("bia", 10%Z)] /\
  fs (snd (full_dispatch_request ia_add_known_face
             (upload_as "q.jpg" photo_ana "bia") world_two)) !! "known_faces/bia.jpg" =
    Some photo_ana.
Proof.
  assert (Hresp : fst (full_dispatch_request ia_add_known_face
                         (upload_as "q.jpg" photo_ana "bia") world_two) =
                  Py.Returns (success_message "Rosto adicionado com sucesso"))
    by (vm_compute; reflexivity).
  destruct (ia_add_known_face_success (lib := face_lib)
              (upload_as "q.jpg" photo_ana "bia") world_two
              (FileStorage "q.jpg" photo_ana) eq_refl Hresp)
    as (img & loc0 & locs & j & Himg & Hloc & Hsave & Hkf & Hcopy).
  split.
  - rewrite Hkf. injection Himg as <-. injection Hloc as <- _. reflexivity.
  - injection Hsave as <-. apply Hcopy; [reflexivity|]. vm_compute. reflexivity.
Defined.

(** C7 as stated fails: a request to [/ia/add_known_face] with the
    identifier [../uploads/x] is answered with the success message and
    leaves a file that was not there before, whose path resolves to
    [uploads/x.jpg], a file of the uploads folder. *)
Lemma copy_left_in_uploads_folder :
  let req := upload_as "q.jpg" photo_ana "../uploads/x" in
  let w' := snd (full_dispatch_request ia_add_known_face req world_two) in
  fst (full_dispatch_request ia_add_known_face req world_two) =
    Py.Returns (success_message "Rosto adicionado com sucesso") /\
  output_path "../uploads/x" = "known_faces/../uploads/x.jpg" /\
  PosixPath.normpath "known_faces/../uploads/x.jpg" = "uploads/x.jpg" /\
  in_uploads_folder "known_faces/../uploads/x.jpg" = true /\
  fs world_two !! "known_faces/../uploads/x.jpg" = None /\
  fs w' !! "known_faces/../uploads/x.jpg" = Some photo_ana.
Proof.
  cbv zeta. split; [vm_compute; reflexivity|]. split; [reflexivity|].
  split; [reflexivity|]. split; [reflexivity|].
  split; vm_compute; reflexivity.
Qed.

(** C7 on one request to each of the two routes. *)
Lemma upload_removed_after_request_witness :
  fs (snd (full_dispatch_request (lib := face_lib) ia_recognize_faces
             (upload "q.jpg" photo_two) world_two)) !! "uploads/q.jpg" = None /\
  fs (snd (full_dispatch_request (lib := face_lib) ia_add_known_face
             (upload_as "q.jpg" photo_ana "bia") world_two)) !! "uploads/q.jpg" = None /\
  (forall p, in_uploads_folder p = true ->
     is_Some (fs (snd (full_dispatch_request (lib := face_lib) ia_add_known_face
                         (upload_as "q.jpg" photo_ana "bia") world_two)) !! p) ->
     is_Some (fs world_two !! p)).
Proof.
  pose proof (@upload_removed_after_request face_lib
                (upload_as "q.jpg" photo_ana "bia") world_two
                (FileStorage "q.jpg" photo_ana) eq_refl
                ltac:(discriminate)) as [_ Hadd].
  pose proof (@upload_removed_after_request face_lib
                (upload "q.jpg" photo_two) world_two
                (FileStorage "q.jpg" photo_two) eq_refl
                ltac:(discriminate)) as [Hrec _].
  split; [exact (proj1 Hrec)|].
  split; [exact (proj1 (Hadd ltac:(discriminate)))|].
  exact (proj2 (Hadd ltac:(discriminate)) ltac:(vm_compute; reflexivity)).
Defined.

(** X12 on an upload named ["/tmp/alvo.txt"]. *)
Lemma absolute_upload_name_removes_file_witness :
  fs world_target !! "/tmp/alvo.txt" = Some photo_empty /\
  fs (snd (full_dispatch_request ia_recognize_faces
             (upload "/tmp/alvo.txt" photo_two) world_target)) !! "/tmp/alvo.txt" = None.
Proof.
  split; [vm_compute; reflexivity|].
  rewrite (absolute_upload_name_removes_file (lib := face_lib)
             (upload "/tmp/alvo.txt" photo_two) world_target
             (FileStorage "/tmp/alvo.txt" photo_two) eq_refl eq_refl).
  apply lookup_delete_eq.
Defined.

(** X13 on the pipeline that finds a person twice and a place. *)
Lemma analyze_text_groups_witness :
  exists people locations organizations dates,
    fst (analyze_text (nlp := nlp_entities) (Py.JStr "Ana no Rio") world_two) =
      Py.Returns
        (Py.JDict
           [("entities", Py.JList [Py.JStr "e1"; Py.JStr "e2"; Py.JStr "e3"]);
            ("sentiment", Py.JStr "4 stars");
            ("people", json_strs people);
            ("locations", json_strs locations);
            ("organizations", json_strs organizations);
            ("dates", json_strs dates)]) /\
    NoDup people.
Proof.
  destruct (analyze_text_groups (lib := face_lib) (nlp := nlp_entities) world_two
              (Py.JStr "Ana no Rio") _ _ _ (Py.JStr "4 stars") []
              eq_refl eq_refl eq_refl eq_refl)
    as (people & locations & organizations & dates & Hrun & [Hnd _] & _).
  exists people, locations, organizations, dates.
  split; [rewrite Hrun; reflexivity|exact Hnd].
Defined.

(** X14 on the module level without models. *)
Lemma ia_analyze_text_failure_in_success_witness :
  fst (full_dispatch_request (ia_analyze_text (nlp := nlp_unavailable))
         (Request [] [] (Py.JDict [("text", Py.JStr "oi")])) world_two) =
  Py.Returns
    (Response
       (Py.JDict [("status", Py.JStr "success");
                  ("results",
                   Py.JDict [("error", Py.JStr "Modelo NLP não disponível")])])
       200).
Proof.
  apply (proj1 (ia_analyze_text_failure_in_success (lib := face_lib)
                  (nlp := nlp_unavailable)
                  (Request [] [] (Py.JDict [("text", Py.JStr "oi")])) world_two
                  [("text", Py.JStr "oi")] (Py.JStr "oi") eq_refl eq_refl eq_refl)
               eq_refl).
Defined.

(** X16 on a body with a context and no question. *)
Lemma ia_answer_question_rejected_witness :
  fst (full_dispatch_request (ia_answer_question (qa := qa_unavailable))
         (Request [] [] (Py.JDict [("context", Py.JStr "c")])) world_two) =
  Py.Returns
    (Response
       (Py.JDict [("status", Py.JStr "error");
                  ("message", Py.JStr "Contexto ou pergunta ausentes")])
       400).
Proof.
  rewrite (ia_answer_question_rejected (lib := face_lib) (qa := qa_unavailable)
             (Request [] [] (Py.JDict [("context", Py.JStr "c")])) world_two
             [("context", Py.JStr "c")] eq_refl (or_intror eq_refl)).
  reflexivity.
Defined.

(** X18 on an environment without the key. *)
Lemma ia_generate_hypotheses_without_key_witness :
  fst (full_dispatch_request (ia_generate_hypotheses (ai := openai_unset))
         (Request [] [] (Py.JDict [("evidence", Py.JDict [("ip", Py.JStr "10.0.0.1")])]))
         world_two) =
  Py.Returns
    (Response
       (Py.JDict [("status", Py.JStr "success");
                  ("results",
                   Py.JDict [("error", Py.JStr "Chave da API OpenAI não configurada")])])
       200).
Proof.
  rewrite (ia_generate_hypotheses_without_key (lib := face_lib) (ai := openai_unset)
             (Request [] [] (Py.JDict [("evidence", Py.JDict [("ip", Py.JStr "10.0.0.1")])]))
             world_two
             [("evidence", Py.JDict [("ip", Py.JStr "10.0.0.1")])]
             (Py.JDict [("ip", Py.JStr "10.0.0.1")])
             eq_refl eq_refl eq_refl (or_introl eq_refl)).
  reflexivity.
Defined.

(** X19 on a body with an empty evidence. *)
Lemma ia_generate_hypotheses_rejected_witness :
  fst (full_dispatch_request (ia_generate_hypotheses (ai := openai_unset))
         (Request [] [] (Py.JDict [("evidence", Py.JDict [])])) world_two) =
  Py.Returns
    (Response
       (Py.JDict [("status", Py.JStr "error");
                  ("message", Py.JStr "Nenhuma evidência fornecida")])
       400).
Proof.
  rewrite (ia_generate_hypotheses_rejected (lib := face_lib) (ai := openai_unset)
             (Request [] [] (Py.JDict [("evidence", Py.JDict [])])) world_two
             [("evidence", Py.JDict [])] eq_refl eq_refl).
  reflexivity.
Defined.

(** X20 on the name ["Lia"] of the example data. *)
Lemma analyze_social_connections_sets_witness :
  exists info,
    Social.all_connections (Social.analyze_social_connections social) !! 1 =
      Some ("Lia", info) /\
    forall p, p ∈ Social.platforms info <->
      exists c, (p, c) ∈ SocialNotions.entries social /\ Social.name_of c = "Lia".
Proof.
  eexists. split; [vm_compute; reflexivity|].
  apply (SocialMoreFacts.analyze_social_connections_sets social "Lia").
  eapply list_elem_of_lookup_2 with (i := 1). vm_compute. reflexivity.
Defined.

End MoreDemoFacts.
